(** * MEDIFLOW: the inventory alert and reorder engine

    A shallow embedding of [src/app/utils/reorderPoint.ts] (the reorder-point
    utilities) and of [generateBranchAlerts] in
    [src/app/components/views/AlertsView.tsx], with the properties the
    specification states about them.

    Modelling conventions.
    - A JavaScript [number] is a value of [number]: a finite value, held as an
      exact rational, or [NaN].  Binary64 rounding, the infinities and the sign
      of zero are not represented; every division of the sources is guarded by
      a positive (or NaN) divisor, so no infinity arises from finite inputs.
      The numeric fields of a batch and of a configuration arrive as JSON
      numbers or literals and are finite: they are rationals.  This model
      carries the statements that rounding leaves alone: classifications,
      orderings, floors, counts.
    - The utilities of [reorderPoint.ts] are embedded a second time in
      [Binary64], over IEEE 754 doubles ([SpecFloat] of the standard library,
      precision 53, round to nearest even, with infinities and signed zeros).
      There [Math.ceil] is taken of the rounded sum, as the code takes it: the
      whole number it returns can be one above the ceiling of the exact value
      ([binary64_rounding]).  The statement about the value of
      [calculateReorderQuantity] is made there.
    - [new Date(s).getTime()] belongs to the JavaScript runtime: it is the
      section variable [getTime], which yields epoch milliseconds, or [NaN] for
      an Invalid Date.  [isoGetTime] is a runnable instance for the date-only
      form [YYYY-MM-DD].
    - [new Date()] reads the clock: the reading is an explicit argument
      ([today] in the utilities, [now] in the view).  The utilities read the
      clock once per call of [calculateAverageDailyUsage]; the readings taken
      during one evaluation are the same instant [today]. *)

From Stdlib Require Import ZArith QArith Qround Qreduction List String Ascii Bool Lia Lqa.
From Stdlib Require Import Permutation Sorted.
From Stdlib Require SpecFloat.
Import ListNotations.

Local Open Scope Q_scope.

(** ** JavaScript numbers *)

Inductive number : Type :=
| Num (q : Q)
| NaN.

Definition Qlt_bool (a b : Q) : bool := negb (Qle_bool b a).

Definition lift2 (f : Q -> Q -> Q) (a b : number) : number :=
  match a, b with
  | Num x, Num y => Num (f x y)
  | _, _ => NaN
  end.

Definition nadd : number -> number -> number := lift2 Qplus.
Definition nsub : number -> number -> number := lift2 Qminus.
Definition nmul : number -> number -> number := lift2 Qmult.

(** [a / b].  A zero divisor would give an infinity (or NaN) in JavaScript;
    the sources never divide by zero, and the model answers NaN there. *)
Definition ndiv (a b : number) : number :=
  match a, b with
  | Num x, Num y => if Qeq_bool y 0 then NaN else Num (x / y)
  | _, _ => NaN
  end.

(** [Math.floor], [Math.ceil], [Math.max]. *)
Definition nfloor (a : number) : number :=
  match a with Num x => Num (inject_Z (Qfloor x)) | NaN => NaN end.

Definition nceil (a : number) : number :=
  match a with Num x => Num (inject_Z (Qceiling x)) | NaN => NaN end.

Definition Qmax_bool (x y : Q) : Q := if Qle_bool x y then y else x.

Definition nmax : number -> number -> number := lift2 Qmax_bool.

(** Comparisons: each is false as soon as one side is NaN. *)
Definition ncmp (f : Q -> Q -> bool) (a b : number) : bool :=
  match a, b with
  | Num x, Num y => f x y
  | _, _ => false
  end.

Definition nlt : number -> number -> bool := ncmp Qlt_bool.
Definition nle : number -> number -> bool := ncmp Qle_bool.
Definition ngt (a b : number) : bool := nlt b a.
Definition nge (a b : number) : bool := nle b a.
(** [a === b] on numbers. *)
Definition neq : number -> number -> bool := ncmp Qeq_bool.

(** Truthiness of a number: neither zero nor NaN. *)
Definition truthy (a : number) : bool :=
  match a with Num x => negb (Qeq_bool x 0) | NaN => false end.

(** [a || b] where [a] is a number. *)
Definition nor (a b : number) : number := if truthy a then a else b.

(** [a || b] where [a] is an optional argument ([None] is [undefined]). *)
Definition nor_opt (a : option number) (b : number) : number :=
  match a with Some x => nor x b | None => b end.

Definition ofZ (z : Z) : number := Num (inject_Z z).

(** ** A runnable [getTime] for date-only ISO strings *)

Definition digit (c : ascii) : option Z :=
  let n := Z.of_nat (nat_of_ascii c) in
  if ((48 <=? n) && (n <=? 57))%Z then Some (n - 48)%Z else None.

Fixpoint digits (acc : Z) (cs : list ascii) : option Z :=
  match cs with
  | [] => Some acc
  | c :: cs' =>
      match digit c with
      | Some d => digits (10 * acc + d)%Z cs'
      | None => None
      end
  end.

(** Days from 1970-01-01 to the civil date [y]-[m]-[d]; a day past the end
    of the month counts on into the next one. *)
Definition daysFromCivil (y m d : Z) : Z :=
  let y' := (if m <=? 2 then y - 1 else y)%Z in
  let era := (y' / 400)%Z in
  let yoe := (y' - era * 400)%Z in
  let mp := (if m <=? 2 then m + 9 else m - 3)%Z in
  let doy := ((153 * mp + 2) / 5 + d - 1)%Z in
  let doe := (yoe * 365 + yoe / 4 - yoe / 100 + doy)%Z in
  (era * 146097 + doe - 719468)%Z.

Definition msPerDay : Z := (1000 * 60 * 60 * 24)%Z.

(** [YYYY-MM-DD] is midnight UTC of that day; the day may be any of 1 to 31,
    and one past the end of the month rolls over, as in V8 (["2025-02-30"] is
    2 March).  Every other string is taken as an Invalid Date.  The instance
    is used at dates of this form and at strings that are no date at all (the
    empty string, ["n/a"]). *)
Definition isoGetTime (s : string) : number :=
  match list_ascii_of_string s with
  | [y1; y2; y3; y4; s1; m1; m2; s2; d1; d2] =>
      if (Ascii.eqb s1 "-" && Ascii.eqb s2 "-")%bool then
        match digits 0 [y1; y2; y3; y4], digits 0 [m1; m2], digits 0 [d1; d2] with
        | Some y, Some m, Some d =>
            if ((1 <=? m) && (m <=? 12) && (1 <=? d) && (d <=? 31))%Z
            then ofZ (daysFromCivil y m d * msPerDay)
            else NaN
        | _, _, _ => NaN
        end
      else NaN
  | _ => NaN
  end.

(** ** Data model: [src/app/types/inventory.ts] *)

Record InventoryBatch : Type := {
  id : string;
  drugName : string;
  program : string;
  dosage : string;
  unit : string;
  batchNumber : string;
  beginningInventory : Q;
  quantityReceived : Q;
  dateReceived : string;
  unitCost : Q;
  quantityDispensed : Q;
  expirationDate : string;
  remarks : string;
  branchId : option string
}.

(** ** [src/app/utils/reorderPoint.ts] *)

Record ReorderPointConfig : Type := {
  leadTimeDays : Q;
  safetyStockPercentage : Q;
  minimumThreshold : Q
}.

Definition DEFAULT_REORDER_CONFIG : ReorderPointConfig :=
  {| leadTimeDays := 14;
     safetyStockPercentage := 3 # 10;
     minimumThreshold := 20 |}.

(** The record [getStockStatus] returns. *)
Module StockStatus.
Record t : Type := {
  currentStock : number;
  reorderPoint : number;
  isLowStock : bool;
  isOutOfStock : bool;
  avgDailyUsage : number;
  daysOfStockRemaining : number
}.
End StockStatus.

(** ** Data model of [AlertsView.tsx] *)

Module BranchData.
Record t : Type := {
  userId : string;
  userName : string;
  branchName : string;
  userRole : string;
  inventory : list InventoryBatch
}.
End BranchData.

Inductive AlertType : Type := expired | critical | nearExpiry | lowStock.
Inductive Severity : Type := high | medium | low.

Module BranchAlert.
Record t : Type := {
  branchId : string;
  branchName : string;
  userName : string;
  item : InventoryBatch;
  alertType : AlertType;
  severity : Severity;
  daysUntilExpiry : option number;
  stockLevel : option number
}.
End BranchAlert.

(** ** Arrays: [push], [forEach], [sort] *)

Definition push {A : Type} (arr : list A) (x : A) : list A := arr ++ [x].

(** [arr.forEach(f)] where the body [f] updates a state of type [S]. *)
Definition forEach {A S : Type} (arr : list A) (f : S -> A -> S) (s : S) : S :=
  fold_left f arr s.

(** [Array.prototype.sort(cmp)] is stable; for a comparator that is a
    consistent ordering its result is the stable insertion sort: [x] goes
    before [y] when [cmp x y <= 0] and [x] came first. *)
Fixpoint insertBy {A : Type} (cmp : A -> A -> Z) (x : A) (l : list A) : list A :=
  match l with
  | [] => [x]
  | y :: l' => if (cmp x y <=? 0)%Z then x :: y :: l' else y :: insertBy cmp x l'
  end.

Definition sortBy {A : Type} (cmp : A -> A -> Z) (l : list A) : list A :=
  fold_right (insertBy cmp) [] l.

(** The comparator of [alerts.sort(...)] in [generateBranchAlerts]. *)
Definition severityOrder (s : Severity) : Z :=
  match s with high => 0 | medium => 1 | low => 2 end.

Definition typeOrder (t : AlertType) : Z :=
  match t with expired => 0 | critical => 1 | lowStock => 2 | nearExpiry => 3 end.

Definition compareAlerts (a b : BranchAlert.t) : Z :=
  if negb (severityOrder (BranchAlert.severity a) =? severityOrder (BranchAlert.severity b))%Z
  then (severityOrder (BranchAlert.severity a) - severityOrder (BranchAlert.severity b))%Z
  else (typeOrder (BranchAlert.alertType a) - typeOrder (BranchAlert.alertType b))%Z.

Definition sortAlerts (alerts : list BranchAlert.t) : list BranchAlert.t :=
  sortBy compareAlerts alerts.

Section Engine.

(** [getTime s] is [new Date(s).getTime()]. *)
Variable getTime : string -> number.

(** Whole days from [from] to [to]:
    [Math.floor((to - from) / (1000 * 60 * 60 * 24))]. *)
Definition daysBetween (to from : number) : number :=
  nfloor (ndiv (nsub to from) (ofZ msPerDay)).

(** *** [src/app/utils/reorderPoint.ts] *)

Definition calculateAverageDailyUsage
  (today : Z) (batch : InventoryBatch) (daysSinceReceived : option number) : number :=
  let totalDispensed := nor (Num (quantityDispensed batch)) (Num 0) in
  if neq totalDispensed (Num 0) then Num 0
  else
    let receivedDate := getTime (dateReceived batch) in
    let days := nor_opt daysSinceReceived (daysBetween (ofZ today) receivedDate) in
    if nle days (Num 0) then Num 0
    else ndiv totalDispensed days.

Definition calculateReorderPoint
  (today : Z) (batch : InventoryBatch) (config : ReorderPointConfig) : number :=
  let avgDailyUsage := calculateAverageDailyUsage today batch None in
  if neq avgDailyUsage (Num 0) then Num (minimumThreshold config)
  else
    let baseReorderPoint := nmul avgDailyUsage (Num (leadTimeDays config)) in
    let safetyStock := nmul baseReorderPoint (Num (safetyStockPercentage config)) in
    let calculatedReorderPoint := nceil (nadd baseReorderPoint safetyStock) in
    nmax calculatedReorderPoint (Num (minimumThreshold config)).

(** [beginningInventory + quantityReceived - quantityDispensed]. *)
Definition stockOf (batch : InventoryBatch) : number :=
  nsub (nadd (Num (beginningInventory batch)) (Num (quantityReceived batch)))
       (Num (quantityDispensed batch)).

Definition isLowStock
  (today : Z) (batch : InventoryBatch) (config : ReorderPointConfig) : bool :=
  let currentStock := stockOf batch in
  if nle currentStock (Num 0) then false
  else
    let reorderPoint := calculateReorderPoint today batch config in
    nle currentStock reorderPoint.

Definition getStockStatus
  (today : Z) (batch : InventoryBatch) (config : ReorderPointConfig) : StockStatus.t :=
  let currentStock := stockOf batch in
  let reorderPoint := calculateReorderPoint today batch config in
  let avgDailyUsage := calculateAverageDailyUsage today batch None in
  let daysOfStockRemaining :=
    if ngt avgDailyUsage (Num 0)
    then nfloor (ndiv currentStock avgDailyUsage)
    else if ngt currentStock (Num 0) then Num 999 else Num 0 in
  {| StockStatus.currentStock := currentStock;
     StockStatus.reorderPoint := reorderPoint;
     StockStatus.isLowStock := ngt currentStock (Num 0) && nle currentStock reorderPoint;
     StockStatus.isOutOfStock := neq currentStock (Num 0);
     StockStatus.avgDailyUsage := avgDailyUsage;
     StockStatus.daysOfStockRemaining := daysOfStockRemaining |}.

Definition calculateReorderQuantity
  (today : Z) (batch : InventoryBatch) (config : ReorderPointConfig) : number :=
  let status := getStockStatus today batch config in
  if negb (StockStatus.isLowStock status) && negb (StockStatus.isOutOfStock status)
  then Num 0
  else
    let avgDailyUsage :=
      if ngt (StockStatus.avgDailyUsage status) (Num 0)
      then StockStatus.avgDailyUsage status else Num 1 in
    let orderQuantity :=
      nceil (nadd (nmul (nmul avgDailyUsage (Num (leadTimeDays config))) (Num 2))
                  (nmul (nmul avgDailyUsage (Num (leadTimeDays config)))
                        (Num (safetyStockPercentage config)))) in
    nmax orderQuantity (Num (minimumThreshold config)).

(** *** [generateBranchAlerts] of [AlertsView.tsx] *)

Definition mkAlert (branch : BranchData.t) (item : InventoryBatch)
  (ty : AlertType) (sev : Severity) (days stock : option number) : BranchAlert.t :=
  {| BranchAlert.branchId := BranchData.userId branch;
     BranchAlert.branchName := BranchData.branchName branch;
     BranchAlert.userName := BranchData.userName branch;
     BranchAlert.item := item;
     BranchAlert.alertType := ty;
     BranchAlert.severity := sev;
     BranchAlert.daysUntilExpiry := days;
     BranchAlert.stockLevel := stock |}.

(** The body of the inner [forEach]: what one item does to [alerts].
    [now] is the clock reading the view took; [today] is the one the
    reorder-point utilities take. *)
Definition processItem (now today : Z) (branch : BranchData.t)
  (alerts : list BranchAlert.t) (item : InventoryBatch) : list BranchAlert.t :=
  let stockOnHand := stockOf item in
  let expiryDate := getTime (expirationDate item) in
  let daysUntilExpiry := daysBetween expiryDate (ofZ now) in
  let alerts :=
    if nlt daysUntilExpiry (Num 0) then
      push alerts (mkAlert branch item expired high (Some daysUntilExpiry) (Some stockOnHand))
    else if nle daysUntilExpiry (Num 30) && nge daysUntilExpiry (Num 0) then
      push alerts (mkAlert branch item critical high (Some daysUntilExpiry) (Some stockOnHand))
    else if ngt daysUntilExpiry (Num 30) && nle daysUntilExpiry (Num 180) then
      push alerts (mkAlert branch item nearExpiry medium (Some daysUntilExpiry) (Some stockOnHand))
    else alerts in
  if ngt stockOnHand (Num 0) && isLowStock today item DEFAULT_REORDER_CONFIG then
    let stockStatus := getStockStatus today item DEFAULT_REORDER_CONFIG in
    push alerts
      (mkAlert branch item lowStock
         (if nlt stockOnHand (nmul (StockStatus.reorderPoint stockStatus) (Num (1 # 2)))
          then high else medium)
         None (Some stockOnHand))
  else alerts.

(** The array [alerts] after the two nested [forEach] loops. *)
Definition collectAlerts (now today : Z) (branchData : list BranchData.t)
  : list BranchAlert.t :=
  forEach branchData
    (fun alerts branch =>
       forEach (BranchData.inventory branch) (processItem now today branch) alerts)
    [].

(** The list handed to [setBranchAlerts]. *)
Definition generateBranchAlerts (now today : Z) (branchData : list BranchData.t)
  : list BranchAlert.t :=
  sortAlerts (collectAlerts now today branchData).

(** What one item adds to [alerts]. *)
Definition emitted (now today : Z) (branch : BranchData.t) (item : InventoryBatch)
  : list BranchAlert.t :=
  processItem now today branch [] item.

End Engine.

(** * [src/app/utils/reorderPoint.ts] over binary64

    The same five functions, computed as the runtime computes them: every
    number is an IEEE 754 double and every operation rounds to nearest, ties
    to even.  [SFadd], [SFsub], [SFmul], [SFdiv] and [SFcompare] are the
    operations of [SpecFloat]. *)

Module Binary64.

Import SpecFloat.

Local Open Scope Z_scope.

Definition prec : Z := 53.
Definition emax : Z := 1024.

(** A JavaScript [number]: a double, with one NaN. *)
Definition number : Type := spec_float.

Definition zero : number := S754_zero false.

Definition add : number -> number -> number := SFadd prec emax.
Definition sub : number -> number -> number := SFsub prec emax.
Definition mul : number -> number -> number := SFmul prec emax.
Definition div : number -> number -> number := SFdiv prec emax.

(** [a < b], [a <= b], [a > b], [a === b]: false as soon as one side is NaN;
    the two zeros are equal. *)
Definition ltb (a b : number) : bool := SFltb a b.
Definition leb (a b : number) : bool := SFleb a b.
Definition gtb (a b : number) : bool := SFltb b a.
Definition eqb (a b : number) : bool := SFeqb a b.

(** The double nearest to a whole number; exact below [2 ^ 53]. *)
Definition ofZ (z : Z) : number := binary_normalize prec emax z 0 false.

(** A whole number as mantissa with exponent 0, whatever its size. *)
Definition integer (z : Z) : number :=
  match z with
  | Z0 => S754_zero false
  | Zpos m => S754_finite false m 0
  | Zneg m => S754_finite true m 0
  end.

(** The double nearest to a rational: what a JSON number or a literal of
    that value becomes ([0.3] is [5404319552844595 * 2 ^ -54]).  The
    division rounds the exact quotient once. *)
Definition ofQ (q : Q) : number := div (integer (Qnum q)) (integer (Zpos (Qden q))).

(** [Math.floor] and [Math.ceil]: a double with a negative exponent is below
    [2 ^ 52] in size, so its floor and its ceiling are doubles; a zero
    result keeps the sign of the argument. *)
Definition floor (x : number) : number :=
  match x with
  | S754_finite s m e =>
      if 0 <=? e then x
      else
        let n := cond_Zopp s (Zpos m) / 2 ^ (- e) in
        if n =? 0 then S754_zero s else ofZ n
  | _ => x
  end.

Definition ceil (x : number) : number :=
  match x with
  | S754_finite s m e =>
      if 0 <=? e then x
      else
        let n := - (- cond_Zopp s (Zpos m) / 2 ^ (- e)) in
        if n =? 0 then S754_zero s else ofZ n
  | _ => x
  end.

(** [Math.max] of two numbers: NaN if one is NaN; [+0] is above [-0]. *)
Definition max (a b : number) : number :=
  match SFcompare a b with
  | None => S754_nan
  | Some Lt => b
  | Some Gt => a
  | Some Eq => match a with S754_zero true => b | _ => a end
  end.

(** Truthiness, [a || b]. *)
Definition truthy (a : number) : bool :=
  match a with S754_nan | S754_zero _ => false | _ => true end.

Definition nor (a b : number) : number := if truthy a then a else b.

Definition nor_opt (a : option number) (b : number) : number :=
  match a with Some x => nor x b | None => b end.

(** The rational a finite double stands for, in lowest terms. *)
Definition value (x : number) : option Q :=
  match x with
  | S754_zero _ => Some 0%Q
  | S754_finite s m e =>
      Some (Qred (if 0 <=? e then inject_Z (cond_Zopp s (Zpos m) * 2 ^ e)
                  else Qmake (cond_Zopp s (Zpos m)) (Z.to_pos (2 ^ (- e)))))
  | _ => None
  end.

Module StockStatus.
Record t : Type := {
  currentStock : number;
  reorderPoint : number;
  isLowStock : bool;
  isOutOfStock : bool;
  avgDailyUsage : number;
  daysOfStockRemaining : number
}.
End StockStatus.

Section Engine.

(** [getTime s] is [new Date(s).getTime()]: whole milliseconds, or NaN. *)
Variable getTime : string -> number.

Definition daysBetween (to from : number) : number :=
  floor (div (sub to from) (ofZ msPerDay)).

Definition calculateAverageDailyUsage
  (today : Z) (batch : InventoryBatch) (daysSinceReceived : option number) : number :=
  let totalDispensed := nor (ofQ (quantityDispensed batch)) zero in
  if eqb totalDispensed zero then zero
  else
    let receivedDate := getTime (dateReceived batch) in
    let days := nor_opt daysSinceReceived (daysBetween (ofZ today) receivedDate) in
    if leb days zero then zero
    else div totalDispensed days.

Definition calculateReorderPoint
  (today : Z) (batch : InventoryBatch) (config : ReorderPointConfig) : number :=
  let avgDailyUsage := calculateAverageDailyUsage today batch None in
  if eqb avgDailyUsage zero then ofQ (minimumThreshold config)
  else
    let baseReorderPoint := mul avgDailyUsage (ofQ (leadTimeDays config)) in
    let safetyStock := mul baseReorderPoint (ofQ (safetyStockPercentage config)) in
    let calculatedReorderPoint := ceil (add baseReorderPoint safetyStock) in
    max calculatedReorderPoint (ofQ (minimumThreshold config)).

Definition stockOf (batch : InventoryBatch) : number :=
  sub (add (ofQ (beginningInventory batch)) (ofQ (quantityReceived batch)))
      (ofQ (quantityDispensed batch)).

Definition isLowStock
  (today : Z) (batch : InventoryBatch) (config : ReorderPointConfig) : bool :=
  let currentStock := stockOf batch in
  if leb currentStock zero then false
  else
    let reorderPoint := calculateReorderPoint today batch config in
    leb currentStock reorderPoint.

Definition getStockStatus
  (today : Z) (batch : InventoryBatch) (config : ReorderPointConfig) : StockStatus.t :=
  let currentStock := stockOf batch in
  let reorderPoint := calculateReorderPoint today batch config in
  let avgDailyUsage := calculateAverageDailyUsage today batch None in
  let daysOfStockRemaining :=
    if gtb avgDailyUsage zero
    then floor (div currentStock avgDailyUsage)
    else if gtb currentStock zero then ofZ 999 else zero in
  {| StockStatus.currentStock := currentStock;
     StockStatus.reorderPoint := reorderPoint;
     StockStatus.isLowStock := gtb currentStock zero && leb currentStock reorderPoint;
     StockStatus.isOutOfStock := eqb currentStock zero;
     StockStatus.avgDailyUsage := avgDailyUsage;
     StockStatus.daysOfStockRemaining := daysOfStockRemaining |}.

Definition calculateReorderQuantity
  (today : Z) (batch : InventoryBatch) (config : ReorderPointConfig) : number :=
  let status := getStockStatus today batch config in
  if negb (StockStatus.isLowStock status) && negb (StockStatus.isOutOfStock status)
  then zero
  else
    let avgDailyUsage :=
      if gtb (StockStatus.avgDailyUsage status) zero
      then StockStatus.avgDailyUsage status else ofZ 1 in
    let orderQuantity :=
      ceil (add (mul (mul avgDailyUsage (ofQ (leadTimeDays config))) (ofZ 2))
                (mul (mul avgDailyUsage (ofQ (leadTimeDays config)))
                     (ofQ (safetyStockPercentage config)))) in
    max orderQuantity (ofQ (minimumThreshold config)).

End Engine.

End Binary64.

(** [isoGetTime] as a double. *)
Definition isoGetTime64 (s : string) : Binary64.number :=
  match isoGetTime s with
  | Num q => Binary64.ofQ q
  | NaN => SpecFloat.S754_nan
  end.

(** * Vocabulary of the statements *)

(** The order of the alert feed: severity rank first, then type rank. *)
Definition alertLe (a b : BranchAlert.t) : Prop :=
  (severityOrder (BranchAlert.severity a) < severityOrder (BranchAlert.severity b))%Z \/
  (severityOrder (BranchAlert.severity a) = severityOrder (BranchAlert.severity b) /\
   (typeOrder (BranchAlert.alertType a) <= typeOrder (BranchAlert.alertType b))%Z).

(** [s === s'] and [t === t'] on the tags; the alerts of one severity and
    one type. *)
Definition severity_eqb (s s' : Severity) : bool :=
  match s, s' with
  | high, high | medium, medium | low, low => true
  | _, _ => false
  end.

Definition alertType_eqb (t t' : AlertType) : bool :=
  match t, t' with
  | expired, expired | critical, critical
  | nearExpiry, nearExpiry | lowStock, lowStock => true
  | _, _ => false
  end.

Definition hasRank (s : Severity) (t : AlertType) (a : BranchAlert.t) : bool :=
  severity_eqb (BranchAlert.severity a) s && alertType_eqb (BranchAlert.alertType a) t.

(** The value [Math.ceil(base + safety)] for a finite usage [u]. *)
Definition reorderPointOf (u : Q) (config : ReorderPointConfig) : Q :=
  inject_Z (Qceiling (u * leadTimeDays config
                      + u * leadTimeDays config * safetyStockPercentage config)).

Definition withLeadTimeDays (config : ReorderPointConfig) (l : Q) : ReorderPointConfig :=
  {| leadTimeDays := l;
     safetyStockPercentage := safetyStockPercentage config;
     minimumThreshold := minimumThreshold config |}.

Definition withSafetyStockPercentage (config : ReorderPointConfig) (s : Q)
  : ReorderPointConfig :=
  {| leadTimeDays := leadTimeDays config;
     safetyStockPercentage := s;
     minimumThreshold := minimumThreshold config |}.

(** The value [Math.ceil(u * leadTimeDays * 2 + u * leadTimeDays * safety)]. *)
Definition orderQuantityOf (u : Q) (config : ReorderPointConfig) : Q :=
  inject_Z (Qceiling (u * leadTimeDays config * 2
                      + u * leadTimeDays config * safetyStockPercentage config)).

(** A double of [Binary64] whose mantissa fits the 53 bits of the format. *)
Definition sized (x : Binary64.number) : Prop :=
  match x with
  | SpecFloat.S754_finite _ m _ => (Zpos (SpecFloat.digits2_pos m) <= 53)%Z
  | _ => True
  end.

Definition isExpiryAlert (a : BranchAlert.t) : bool :=
  match BranchAlert.alertType a with lowStock => false | _ => true end.

Definition isLowStockAlert (a : BranchAlert.t) : bool :=
  match BranchAlert.alertType a with lowStock => true | _ => false end.

(** * The views that use the engine *)

(** ** More of the JavaScript runtime *)

(** [Math.round]: the nearest whole number, halves upwards. *)
Definition nround (a : number) : number :=
  match a with Num x => Num (inject_Z (Qfloor (x + (1 # 2)))) | NaN => NaN end.

(** [Math.min]. *)
Definition Qmin_bool (x y : Q) : Q := if Qle_bool x y then x else y.

Definition nmin : number -> number -> number := lift2 Qmin_bool.

(** How [sort] reads the number a comparator returns: its sign, and 0 for
    NaN. *)
Definition comparatorSign (v : number) : Z :=
  match v with Num q => Z.sgn (Qnum q) | NaN => 0%Z end.

(** [arr.slice(0, n)]. *)
Definition slice0 {A : Type} (n : nat) (arr : list A) : list A := firstn n arr.

(** [arr.reduce(f, init)]. *)
Definition reduce {A S : Type} (arr : list A) (f : S -> A -> S) (init : S) : S :=
  fold_left f arr init.

(** A [Map] with string keys: its entries in insertion order. *)
Definition JsMap (V : Type) : Type := list (string * V).

Definition mapHas {V : Type} (k : string) (m : JsMap V) : bool :=
  existsb (fun e => String.eqb (fst e) k) m.

Fixpoint mapGet {V : Type} (k : string) (m : JsMap V) : option V :=
  match m with
  | [] => None
  | (k', v) :: m' => if String.eqb k' k then Some v else mapGet k m'
  end.

(** [m.set(k, v)]: a known key keeps its place, a new key goes last. *)
Fixpoint mapSet {V : Type} (k : string) (v : V) (m : JsMap V) : JsMap V :=
  match m with
  | [] => [(k, v)]
  | (k', v') :: m' =>
      if String.eqb k' k then (k', v) :: m' else (k', v') :: mapSet k v m'
  end.

(** ** [AlertsView.tsx], administrators and health officers *)

Definition alertsOfType (ty : AlertType) (branchAlerts : list BranchAlert.t)
  : list BranchAlert.t :=
  filter (fun a => alertType_eqb (BranchAlert.alertType a) ty) branchAlerts.

Definition expiredAlerts : list BranchAlert.t -> list BranchAlert.t :=
  alertsOfType expired.
Definition criticalAlerts : list BranchAlert.t -> list BranchAlert.t :=
  alertsOfType critical.
Definition nearExpiryAlerts : list BranchAlert.t -> list BranchAlert.t :=
  alertsOfType nearExpiry.
Definition lowStockAlerts : list BranchAlert.t -> list BranchAlert.t :=
  alertsOfType lowStock.

(** Grouping by a string key, as both [getUniqueLocations] and the
    dispensing view write it:
    [if (!m.has(k)) m.set(k, []); m.get(k)!.push(x)]. *)
Definition groupPush {A : Type} (key : A -> string) (m : JsMap (list A)) (x : A)
  : JsMap (list A) :=
  let k := key x in
  let m := if negb (mapHas k m) then mapSet k [] m else m in
  match mapGet k m with
  | Some arr => mapSet k (push arr x) m
  | None => m
  end.

(** The body of [locationMap] building in [getUniqueLocations]:
    [if (!m.has(name)) m.set(name, []); m.get(name)!.push(branch)].
    The array held by the map is updated in place; [get] cannot miss after
    the [set]. *)
Definition groupStep (locationMap : JsMap (list BranchData.t)) (branch : BranchData.t)
  : JsMap (list BranchData.t) :=
  let name := BranchData.branchName branch in
  let locationMap :=
    if negb (mapHas name locationMap) then mapSet name [] locationMap
    else locationMap in
  match mapGet name locationMap with
  | Some arr => mapSet name (push arr branch) locationMap
  | None => locationMap
  end.

(** [getUniqueLocations]; [localeCompare a b] is [a.localeCompare(b)]. *)
Definition getUniqueLocations (localeCompare : string -> string -> Z)
  (branches : list BranchData.t) : list (string * list BranchData.t) :=
  let locationMap := forEach branches groupStep [] in
  sortBy (fun e1 e2 => localeCompare (fst e1) (fst e2)) locationMap.

(** The count [branchAlerts.filter(a => a.branchId === branch.userId &&
    a.alertType === ty).length] of the branch cards. *)
Definition branchCount (ty : AlertType) (branchAlerts : list BranchAlert.t)
  (branch : BranchData.t) : nat :=
  List.length
    (filter (fun a => String.eqb (BranchAlert.branchId a) (BranchData.userId branch)
                      && alertType_eqb (BranchAlert.alertType a) ty)
            branchAlerts).

Definition totalAlerts (branchAlerts : list BranchAlert.t) (branch : BranchData.t) : nat :=
  (branchCount expired branchAlerts branch + branchCount critical branchAlerts branch
   + branchCount nearExpiry branchAlerts branch
   + branchCount lowStock branchAlerts branch)%nat.

(** The alerts of one location:
    [alerts.filter(alert => locationBranches.some(b => b.userId === alert.branchId))]. *)
Definition locationAlerts (alerts : list BranchAlert.t)
  (locationBranches : list BranchData.t) : list BranchAlert.t :=
  filter (fun alert =>
            existsb (fun branch =>
                       String.eqb (BranchData.userId branch) (BranchAlert.branchId alert))
                    locationBranches)
         alerts.

(** ** [AlertsView.tsx], staff *)

Module StaffAlerts.

Definition getDaysUntilExpiry (getTime : string -> number) (now : Z)
  (expirationDate : string) : number :=
  nfloor (ndiv (nsub (getTime expirationDate) (ofZ now)) (ofZ msPerDay)).

Definition getStockOnHand (batch : InventoryBatch) : number :=
  nsub (nadd (Num (beginningInventory batch)) (Num (quantityReceived batch)))
       (Num (quantityDispensed batch)).

Definition expiredItems (getTime : string -> number) (now : Z)
  (currentInventory : list InventoryBatch) : list InventoryBatch :=
  filter (fun item =>
            let daysUntil := getDaysUntilExpiry getTime now (expirationDate item) in
            nlt daysUntil (Num 0))
         currentInventory.

Definition nearExpiry60 (getTime : string -> number) (now : Z)
  (currentInventory : list InventoryBatch) : list InventoryBatch :=
  filter (fun item =>
            let days := getDaysUntilExpiry getTime now (expirationDate item) in
            ngt days (Num 30) && nle days (Num 90))
         currentInventory.

Definition nearExpiry90 (getTime : string -> number) (now : Z)
  (currentInventory : list InventoryBatch) : list InventoryBatch :=
  filter (fun item =>
            let days := getDaysUntilExpiry getTime now (expirationDate item) in
            ngt days (Num 90) && nle days (Num 180))
         currentInventory.

Definition lowStock (getTime : string -> number) (today : Z)
  (currentInventory : list InventoryBatch) : list InventoryBatch :=
  filter (fun item => isLowStock getTime today item DEFAULT_REORDER_CONFIG)
         currentInventory.

(** The comparator [(a, b) => getDaysUntilExpiry(a...) - getDaysUntilExpiry(b...)]. *)
Definition byDays (getTime : string -> number) (now : Z) (a b : InventoryBatch) : Z :=
  comparatorSign
    (nsub (getDaysUntilExpiry getTime now (expirationDate a))
          (getDaysUntilExpiry getTime now (expirationDate b))).

(** The comparator [(a, b) => getStockOnHand(a) - getStockOnHand(b)]. *)
Definition byStock (a b : InventoryBatch) : Z :=
  let stockA := getStockOnHand a in
  let stockB := getStockOnHand b in
  comparatorSign (nsub stockA stockB).

Definition sortedExpired (getTime : string -> number) (now : Z)
  (currentInventory : list InventoryBatch) : list InventoryBatch :=
  sortBy (byDays getTime now) (expiredItems getTime now currentInventory).

Definition sortedNear90 (getTime : string -> number) (now : Z)
  (currentInventory : list InventoryBatch) : list InventoryBatch :=
  sortBy (byDays getTime now)
         (nearExpiry60 getTime now currentInventory
          ++ nearExpiry90 getTime now currentInventory).

Definition sortedLowStock (getTime : string -> number) (today : Z)
  (currentInventory : list InventoryBatch) : list InventoryBatch :=
  sortBy byStock (lowStock getTime today currentInventory).

End StaffAlerts.

(** ** The staff dashboard of [HomeView] *)

Module HomeView.

Definition totalMedicines (inventory : list InventoryBatch) : number :=
  reduce inventory
    (fun sum item =>
       let stock :=
         nsub (nadd (Num (beginningInventory item)) (Num (quantityReceived item)))
              (Num (quantityDispensed item)) in
       nadd sum stock)
    (Num 0).

Definition lowStock (getTime : string -> number) (today : Z)
  (inventory : list InventoryBatch) : nat :=
  List.length
    (filter (fun item => isLowStock getTime today item DEFAULT_REORDER_CONFIG) inventory).

Definition nearExpiry (getTime : string -> number) (today : Z)
  (inventory : list InventoryBatch) : nat :=
  List.length
    (filter (fun item =>
               let daysUntil :=
                 nfloor (ndiv (nsub (getTime (expirationDate item)) (ofZ today))
                              (ofZ msPerDay)) in
               ngt daysUntil (Num 0) && nle daysUntil (Num 180))
            inventory).

Definition expired (getTime : string -> number) (today : Z)
  (inventory : list InventoryBatch) : nat :=
  List.length
    (filter (fun item =>
               let daysUntil :=
                 nfloor (ndiv (nsub (getTime (expirationDate item)) (ofZ today))
                              (ofZ msPerDay)) in
               nlt daysUntil (Num 0))
            inventory).

Definition totalDispensed (inventory : list InventoryBatch) : number :=
  reduce inventory (fun sum item => nadd sum (Num (quantityDispensed item))) (Num 0).

Definition totalReceived (inventory : list InventoryBatch) : number :=
  reduce inventory (fun sum item => nadd sum (Num (quantityReceived item))) (Num 0).

Definition utilizationRate (inventory : list InventoryBatch) : number :=
  if ngt (totalReceived inventory) (Num 0)
  then nround (nmul (ndiv (totalDispensed inventory) (totalReceived inventory)) (Num 100))
  else Num 0.

End HomeView.

(** ** The inventory handlers of [App.tsx] *)

(** [{ ...batch, id: newId }]. *)
Definition withId (batch : InventoryBatch) (newId : string) : InventoryBatch :=
  {| id := newId;
     drugName := drugName batch;
     program := program batch;
     dosage := dosage batch;
     unit := unit batch;
     batchNumber := batchNumber batch;
     beginningInventory := beginningInventory batch;
     quantityReceived := quantityReceived batch;
     dateReceived := dateReceived batch;
     unitCost := unitCost batch;
     quantityDispensed := quantityDispensed batch;
     expirationDate := expirationDate batch;
     remarks := remarks batch;
     branchId := branchId batch |}.

(** [{ ...batch, quantityDispensed: q }]. *)
Definition withQuantityDispensed (batch : InventoryBatch) (q : Q) : InventoryBatch :=
  {| id := id batch;
     drugName := drugName batch;
     program := program batch;
     dosage := dosage batch;
     unit := unit batch;
     batchNumber := batchNumber batch;
     beginningInventory := beginningInventory batch;
     quantityReceived := quantityReceived batch;
     dateReceived := dateReceived batch;
     unitCost := unitCost batch;
     quantityDispensed := q;
     expirationDate := expirationDate batch;
     remarks := remarks batch;
     branchId := branchId batch |}.

(** The state updaters the handlers hand to [setInventory]; [randomId] is
    the value of [Math.random().toString(36).substr(2, 9)]. *)
Definition handleAddStock (prev : list InventoryBatch) (batch : InventoryBatch)
  (randomId : string) : list InventoryBatch :=
  let newBatch := withId batch randomId in
  prev ++ [newBatch].

Definition handleDispense (prev : list InventoryBatch) (batchId : string) (quantity : Q)
  : list InventoryBatch :=
  map (fun batch =>
         if String.eqb (id batch) batchId
         then withQuantityDispensed batch (quantityDispensed batch + quantity)
         else batch)
      prev.

Definition handleDeleteBatch (prev : list InventoryBatch) (batchId : string)
  : list InventoryBatch :=
  filter (fun batch => negb (String.eqb (id batch) batchId)) prev.

(** ** [DispenseMedicinesView.tsx] *)

Module DrugMatch.
Record t : Type := {
  batch : InventoryBatch;
  availableStock : number;
  daysToExpiry : number
}.
End DrugMatch.

Module DrugOption.
Record t : Type := {
  drugName : string;
  batches : list DrugMatch.t;
  totalStock : number
}.
End DrugOption.

(** What [handleDispenseClick] does: one of its three error messages, or the
    confirmation dialog. *)
Inductive DispenseCheck : Type :=
| PleaseSelectBatch
| QuantityMustBePositive
| InsufficientStock (availableStock : number)
| ShowConfirmation.

Module DispenseView.

(** The batches that can be dispensed from: positive stock and an
    expiration date not before the clock reading ([new Date(d) >= new
    Date()] compares the two times, and fails on an Invalid Date). *)
Definition matchedBatches (getTime : string -> number) (today : Z)
  (inventory : list InventoryBatch) : list DrugMatch.t :=
  map (fun batch =>
         let availableStock :=
           nsub (nadd (Num (beginningInventory batch)) (Num (quantityReceived batch)))
                (Num (quantityDispensed batch)) in
         let daysToExpiry :=
           nfloor (ndiv (nsub (getTime (expirationDate batch)) (ofZ today))
                        (ofZ msPerDay)) in
         {| DrugMatch.batch := batch;
            DrugMatch.availableStock := availableStock;
            DrugMatch.daysToExpiry := daysToExpiry |})
      (filter (fun item =>
                 let stock :=
                   nsub (nadd (Num (beginningInventory item)) (Num (quantityReceived item)))
                        (Num (quantityDispensed item)) in
                 let isNotExpired := nge (getTime (expirationDate item)) (ofZ today) in
                 ngt stock (Num 0) && isNotExpired)
              inventory).

(** The body of [matchedBatches.forEach] that fills [drugMap]. *)
Definition drugMapStep (drugMap : JsMap (list DrugMatch.t)) (match_ : DrugMatch.t)
  : JsMap (list DrugMatch.t) :=
  let drugName := drugName (DrugMatch.batch match_) in
  let drugMap :=
    if negb (mapHas drugName drugMap) then mapSet drugName [] drugMap else drugMap in
  match mapGet drugName drugMap with
  | Some arr => mapSet drugName (push arr match_) drugMap
  | None => drugMap
  end.

(** The comparator [(a, b) => a.daysToExpiry - b.daysToExpiry]. *)
Definition byExpiry (a b : DrugMatch.t) : Z :=
  comparatorSign (nsub (DrugMatch.daysToExpiry a) (DrugMatch.daysToExpiry b)).

(** [drugMap.forEach] visits the entries in insertion order.  [sort] orders
    the array of the entry in place, so the total is summed over the sorted
    array. *)
Definition drugOptions (getTime : string -> number) (today : Z)
  (inventory : list InventoryBatch) : list DrugOption.t :=
  let drugMap := forEach (matchedBatches getTime today inventory) drugMapStep [] in
  forEach drugMap
    (fun drugOptions entry =>
       let drugName := fst entry in
       let sortedBatches := sortBy byExpiry (snd entry) in
       let totalStock :=
         reduce sortedBatches
           (fun sum match_ => nadd sum (DrugMatch.availableStock match_)) (Num 0) in
       push drugOptions
         {| DrugOption.drugName := drugName;
            DrugOption.batches := sortedBatches;
            DrugOption.totalStock := totalStock |})
    [].

Definition handleDispenseClick (selectedBatch : option InventoryBatch) (quantity : Q)
  : DispenseCheck :=
  match selectedBatch with
  | None => PleaseSelectBatch
  | Some selectedBatch =>
      if nle (Num quantity) (Num 0) then QuantityMustBePositive
      else
        let availableStock :=
          nsub (nadd (Num (beginningInventory selectedBatch))
                     (Num (quantityReceived selectedBatch)))
               (Num (quantityDispensed selectedBatch)) in
        if ngt (Num quantity) availableStock then InsufficientStock availableStock
        else ShowConfirmation
  end.

End DispenseView.

(** ** Vocabulary for the views *)

(** The severity an alert of each type can carry. *)
Definition wellRanked (a : BranchAlert.t) : Prop :=
  match BranchAlert.alertType a with
  | expired | critical => BranchAlert.severity a = high
  | nearExpiry => BranchAlert.severity a = medium
  | lowStock => BranchAlert.severity a <> low
  end.

(** The test under which one item adds an alert of a given type. *)
Definition alertTest (getTime : string -> number) (now today : Z) (ty : AlertType) (item : InventoryBatch) : bool :=
  let d := daysBetween (getTime (expirationDate item)) (ofZ now) in
  match ty with
  | expired => nlt d (Num 0)
  | critical => nge d (Num 0) && nle d (Num 30)
  | nearExpiry => ngt d (Num 30) && nle d (Num 180)
  | lowStock => isLowStock getTime today item DEFAULT_REORDER_CONFIG
  end.

(** The entry of [k] with [x] pushed on its array. *)
Fixpoint pushAt {A : Type} (k : string) (x : A) (m : JsMap (list A)) : JsMap (list A) :=
  match m with
  | [] => []
  | (k', g) :: m' =>
      if String.eqb k' k then (k', g ++ [x]) :: m'
      else (k', g) :: pushAt k x m'
  end.

(** What the map holds after the elements [done]: distinct keys, under each
    key the elements of that key in their order, at least one, and a key for
    every element. *)
Definition grouped {A : Type} (key : A -> string) (m : JsMap (list A)) (done : list A)
  : Prop :=
  NoDup (map fst m) /\
  (forall (k : string) (g : list A),
     In (k, g) m -> g = filter (fun x => String.eqb (key x) k) done /\ g <> []) /\
  (forall x : A, In x done -> mapHas (key x) m = true).

(** The sum of a quantity over the inventory. *)
Definition sumOver (f : InventoryBatch -> Q) (l : list InventoryBatch) : Q :=
  fold_right (fun item s => f item + s) 0 l.

(** What the view records for a batch it can dispense from. *)
Definition matchOf (getTime : string -> number) (today : Z) (batch : InventoryBatch)
  : DrugMatch.t :=
  {| DrugMatch.batch := batch;
     DrugMatch.availableStock := stockOf batch;
     DrugMatch.daysToExpiry := daysBetween (getTime (expirationDate batch)) (ofZ today) |}.

(** The test of [matchedBatches]. *)
Definition dispensable (getTime : string -> number) (today : Z) (item : InventoryBatch)
  : bool :=
  ngt (stockOf item) (Num 0) && nge (getTime (expirationDate item)) (ofZ today).

(** * Concrete batches *)

(** The clock reads 2025-06-15, 08:00 UTC. *)
Definition clock0 : Z := (daysFromCivil 2025 6 15 * msPerDay + 8 * 60 * 60 * 1000)%Z.

Definition batchOf (beginning received dispensed : Q) (dateIn expiry : string)
  : InventoryBatch :=
  {| id := "b1";
     drugName := "Amoxicillin";
     program := "EREID";
     dosage := "500mg";
     unit := "capsule";
     batchNumber := "LOT-1";
     beginningInventory := beginning;
     quantityReceived := received;
     dateReceived := dateIn;
     unitCost := 1;
     quantityDispensed := dispensed;
     expirationDate := expiry;
     remarks := "";
     branchId := None |}.

Definition branchOf (items : list InventoryBatch) : BranchData.t :=
  {| BranchData.userId := "u1";
     BranchData.userName := "Staff";
     BranchData.branchName := "Manila";
     BranchData.userRole := "Staff";
     BranchData.inventory := items |}.

(** No history, low stock: received 10 days ago, expiring in a year. *)
Definition quietBatch : InventoryBatch := batchOf 5 0 0 "2025-06-05" "2026-06-15".

(** Dispensed from, received 10 days ago, expiring in a year. *)
Definition busyBatch : InventoryBatch := batchOf 100 0 30 "2025-06-05" "2026-06-15".

(** Dispensed from, with an empty [dateReceived]. *)
Definition undatedBatch : InventoryBatch := batchOf 10 0 5 "" "2026-06-15".

(** Low on stock, with an [expirationDate] that is no date. *)
Definition unlabelledBatch : InventoryBatch := batchOf 5 0 0 "2025-06-05" "n/a".

(** Expired on 2025-06-10, 40 in stock. *)
Definition staleBatch : InventoryBatch := batchOf 40 0 0 "2025-01-10" "2025-06-10".

(** A batch received in the future, with a dispensed quantity. *)
Definition earlyBatch : InventoryBatch := batchOf 100 0 30 "2025-07-01" "2026-06-15".

(** More dispensed than ever held. *)
Definition overdrawnBatch : InventoryBatch := batchOf 0 0 3 "2025-06-05" "2026-06-15".

(** Dispensed from and low on stock. *)
Definition lowBatch : InventoryBatch := batchOf 40 0 30 "2025-06-05" "2026-06-15".

(** Dispensed from twice as much as [lowBatch]. *)
Definition heavierBatch : InventoryBatch := batchOf 100 0 60 "2025-06-05" "2026-06-15".

(** Expires in ten days. *)
Definition soonBatch : InventoryBatch := batchOf 50 0 0 "2025-06-05" "2025-06-25".

(** Expires at the coming midnight: day count 0. *)
Definition lastDayBatch : InventoryBatch := batchOf 50 0 0 "2025-06-05" "2025-06-16".

(** Received 100, dispensed 30. *)
Definition restockedBatch : InventoryBatch := batchOf 0 100 30 "2025-06-05" "2026-06-15".

(** Expires in 99 days. *)
Definition nearBatch : InventoryBatch := batchOf 50 0 0 "2025-06-05" "2025-09-23".

(** 40 in stock at 3 a day: between half the reorder point and the reorder
    point. *)
Definition halfBatch : InventoryBatch := batchOf 70 0 30 "2025-06-05" "2026-06-15".

(** All 255 dispensed over 23 days. *)
Definition roundingBatch : InventoryBatch := batchOf 255 0 255 "2025-05-23" "2026-06-15".

(** 45 dispensed over 13 days. *)
Definition creepBatch : InventoryBatch := batchOf 100 0 45 "2025-06-02" "2026-06-15".

(** A comparator for the instances: the order of the character codes.
    [localeCompare] itself follows the collation of the runtime's locale (it
    puts ["manila"] before ["Quezon"], the character codes do not); it stays
    the parameter of [getUniqueLocations]. *)
Definition codeCompare (a b : string) : Z :=
  match String.compare a b with Lt => (-1)%Z | Eq => 0%Z | Gt => 1%Z end.

(** * Properties *)

(** ** Comparisons of rationals as booleans *)

Lemma Qlt_bool_iff (a b : Q) : Qlt_bool a b = true <-> a < b.
Proof.
  unfold Qlt_bool. rewrite negb_true_iff. split; intro H.
  - apply Qnot_le_lt. intro L. apply Qle_bool_iff in L. congruence.
  - destruct (Qle_bool b a) eqn:E; trivial.
    apply Qle_bool_iff in E. exfalso. exact (Qlt_not_le _ _ H E).
Qed.

Lemma Qlt_bool_false (a b : Q) : Qlt_bool a b = false <-> b <= a.
Proof.
  unfold Qlt_bool. rewrite negb_false_iff. apply Qle_bool_iff.
Qed.

Lemma Qle_bool_false (a b : Q) : Qle_bool a b = false <-> b < a.
Proof.
  rewrite <- Qlt_bool_iff. unfold Qlt_bool.
  destruct (Qle_bool a b); simpl; intuition congruence.
Qed.

Lemma Qeq_bool_false (a b : Q) : Qeq_bool a b = false <-> ~ a == b.
Proof.
  rewrite <- Qeq_bool_iff. destruct (Qeq_bool a b); intuition congruence.
Qed.

Lemma Qmax_bool_ge_r (x y : Q) : y <= Qmax_bool x y.
Proof.
  unfold Qmax_bool. destruct (Qle_bool x y) eqn:E.
  - apply Qle_refl.
  - apply Qle_bool_false in E. apply Qlt_le_weak. exact E.
Qed.

Lemma Qmax_bool_mono (x x' y : Q) : x <= x' -> Qmax_bool x y <= Qmax_bool x' y.
Proof.
  intro H. unfold Qmax_bool.
  destruct (Qle_bool x y) eqn:E, (Qle_bool x' y) eqn:E'.
  - apply Qle_refl.
  - apply Qle_bool_false in E'. apply Qlt_le_weak. exact E'.
  - apply Qle_bool_false in E. apply Qle_bool_iff in E'.
    exfalso. apply (Qlt_not_le _ _ E). eapply Qle_trans; eassumption.
  - exact H.
Qed.

(** Case analysis on the tests of a conditional, and on integer tests. *)
Ltac split_ifs :=
  repeat match goal with
         | |- context [if ?b then _ else _] => destruct b eqn:?
         end.

Ltac decide_Z :=
  repeat match goal with
         | |- context [(?a <? ?b)%Z] => destruct (Z.ltb_spec a b)
         | |- context [(?a <=? ?b)%Z] => destruct (Z.leb_spec a b)
         end.

(** ** The stable sort *)

Section SortBy.

Context {A : Type} (cmp : A -> A -> Z).

Lemma insertBy_perm (x : A) (l : list A) : Permutation (x :: l) (insertBy cmp x l).
Proof.
  induction l as [| y l IH]; cbn.
  - apply Permutation_refl.
  - destruct (cmp x y <=? 0)%Z.
    + apply Permutation_refl.
    + eapply perm_trans; [apply perm_swap |]. apply perm_skip. exact IH.
Qed.

Lemma sortBy_perm (l : list A) : Permutation l (sortBy cmp l).
Proof.
  induction l as [| x l IH]; cbn.
  - apply perm_nil.
  - eapply perm_trans; [apply perm_skip; exact IH |]. apply insertBy_perm.
Qed.

Lemma sortBy_In (l : list A) (a : A) : In a (sortBy cmp l) <-> In a l.
Proof.
  split; apply Permutation_in;
    [apply Permutation_sym |]; apply sortBy_perm.
Qed.

(** Elements of one class [p] never overtake each other, as long as the
    comparator does not put a later one strictly before an earlier one. *)
Lemma insertBy_filter (p : A -> bool) (x : A) (l : list A) :
  (forall y : A, In y l -> p x = true -> p y = true -> (cmp x y <= 0)%Z) ->
  filter p (insertBy cmp x l) = filter p (x :: l).
Proof.
  induction l as [| y l IH]; intro H; [reflexivity |].
  cbn [insertBy]. destruct (cmp x y <=? 0)%Z eqn:E; [reflexivity |].
  apply Z.leb_gt in E.
  cbn [filter]. rewrite IH by (intros z Hz; apply H; right; exact Hz).
  cbn [filter]. destruct (p x) eqn:Px, (p y) eqn:Py; try reflexivity.
  exfalso. specialize (H y (or_introl eq_refl) eq_refl Py). lia.
Qed.

Lemma sortBy_filter (p : A -> bool) (l : list A) :
  (forall x y : A, p x = true -> p y = true -> (cmp x y <= 0)%Z) ->
  filter p (sortBy cmp l) = filter p l.
Proof.
  intro H. induction l as [| x l IH]; [reflexivity |].
  cbn [sortBy fold_right]. fold (sortBy cmp l).
  rewrite insertBy_filter by (intros; apply H; assumption).
  cbn [filter]. rewrite IH. reflexivity.
Qed.

Hypothesis cmp_total : forall x y : A, (cmp x y <= 0)%Z \/ (cmp y x <= 0)%Z.
Hypothesis cmp_trans :
  forall x y z : A, (cmp x y <= 0)%Z -> (cmp y z <= 0)%Z -> (cmp x z <= 0)%Z.

Lemma insertBy_sorted (x : A) (l : list A) :
  StronglySorted (fun a b => (cmp a b <= 0)%Z) l ->
  StronglySorted (fun a b => (cmp a b <= 0)%Z) (insertBy cmp x l).
Proof.
  induction 1 as [| y l Hs IH Hy]; cbn.
  - constructor; constructor.
  - destruct (cmp x y <=? 0)%Z eqn:E.
    + apply Z.leb_le in E. constructor.
      * constructor; assumption.
      * constructor; [exact E |].
        eapply Forall_impl; [| exact Hy]. intros z Hz. eapply cmp_trans; eassumption.
    + apply Z.leb_gt in E. constructor; [exact IH |].
      assert (Hyx : (cmp y x <= 0)%Z) by (destruct (cmp_total x y); [lia | assumption]).
      eapply Permutation_Forall; [apply insertBy_perm |].
      constructor; assumption.
Qed.

Lemma sortBy_sorted (l : list A) :
  StronglySorted (fun a b => (cmp a b <= 0)%Z) (sortBy cmp l).
Proof.
  induction l as [| x l IH]; cbn.
  - constructor.
  - apply insertBy_sorted. exact IH.
Qed.

End SortBy.

Lemma compareAlerts_le (a b : BranchAlert.t) :
  (compareAlerts a b <= 0)%Z <-> alertLe a b.
Proof.
  unfold compareAlerts, alertLe.
  destruct (severityOrder (BranchAlert.severity a)
            =? severityOrder (BranchAlert.severity b))%Z eqn:E; cbn.
  - apply Z.eqb_eq in E. lia.
  - apply Z.eqb_neq in E. lia.
Qed.

Lemma compareAlerts_total (a b : BranchAlert.t) :
  (compareAlerts a b <= 0)%Z \/ (compareAlerts b a <= 0)%Z.
Proof. rewrite !compareAlerts_le. unfold alertLe. lia. Qed.

Lemma compareAlerts_trans (a b c : BranchAlert.t) :
  (compareAlerts a b <= 0)%Z -> (compareAlerts b c <= 0)%Z -> (compareAlerts a c <= 0)%Z.
Proof. rewrite !compareAlerts_le. unfold alertLe. lia. Qed.

Lemma sortAlerts_sorted (alerts : list BranchAlert.t) :
  StronglySorted alertLe (sortAlerts alerts).
Proof.
  pose proof (sortBy_sorted compareAlerts compareAlerts_total compareAlerts_trans alerts)
    as H.
  unfold sortAlerts. induction H as [| a l Hs IH Ha]; constructor; [exact IH |].
  eapply Forall_impl; [| exact Ha]. intros b. apply compareAlerts_le.
Qed.

Lemma severity_eqb_eq (s s' : Severity) : severity_eqb s s' = true <-> s = s'.
Proof. destruct s, s'; cbn; intuition congruence. Qed.

Lemma alertType_eqb_eq (t t' : AlertType) : alertType_eqb t t' = true <-> t = t'.
Proof. destruct t, t'; cbn; intuition congruence. Qed.

Lemma hasRank_iff (s : Severity) (t : AlertType) (a : BranchAlert.t) :
  hasRank s t a = true <-> BranchAlert.severity a = s /\ BranchAlert.alertType a = t.
Proof.
  unfold hasRank. rewrite andb_true_iff, severity_eqb_eq, alertType_eqb_eq. reflexivity.
Qed.

Lemma sortAlerts_stable (s : Severity) (t : AlertType) (alerts : list BranchAlert.t) :
  filter (hasRank s t) (sortAlerts alerts) = filter (hasRank s t) alerts.
Proof.
  apply sortBy_filter. intros x y Hx Hy. apply compareAlerts_le.
  apply hasRank_iff in Hx, Hy. destruct Hx as [X1 X2], Hy as [Y1 Y2].
  unfold alertLe. rewrite X1, X2, Y1, Y2. lia.
Qed.

(** The order of the feed, with the ranks written out. *)
Lemma alertLe_ranks (a b : BranchAlert.t) :
  alertLe a b ->
  (match BranchAlert.severity a with high => 0 | medium => 1 | low => 2 end
   < match BranchAlert.severity b with high => 0 | medium => 1 | low => 2 end)%Z \/
  (BranchAlert.severity a = BranchAlert.severity b /\
   (match BranchAlert.alertType a with
    | expired => 0 | critical => 1 | lowStock => 2 | nearExpiry => 3 end
    <= match BranchAlert.alertType b with
       | expired => 0 | critical => 1 | lowStock => 2 | nearExpiry => 3 end)%Z).
Proof.
  unfold alertLe.
  destruct (BranchAlert.severity a), (BranchAlert.severity b),
    (BranchAlert.alertType a), (BranchAlert.alertType b); cbn; intuition lia.
Qed.

Section Properties.

Variable getTime : string -> number.

(** ** The usage estimator *)

Lemma totalDispensed_zero (q : Q) :
  q == 0 -> neq (nor (Num q) (Num 0)) (Num 0) = true.
Proof.
  intro H. unfold nor, truthy. rewrite (Qeq_eq_bool _ _ H). reflexivity.
Qed.

Lemma totalDispensed_nonzero (q : Q) :
  ~ q == 0 -> nor (Num q) (Num 0) = Num q /\ neq (Num q) (Num 0) = false.
Proof.
  intro H. apply Qeq_bool_false in H. unfold nor, truthy, neq, ncmp.
  rewrite H. auto.
Qed.

(** The day count is a whole number whenever the date parses. *)
Lemma daysBetween_whole (a b : Q) :
  daysBetween (Num a) (Num b) = ofZ (Qfloor ((a - b) / inject_Z msPerDay)).
Proof. reflexivity. Qed.

Lemma daysBetween_value (t : Q) (now : Z) :
  daysBetween (Num t) (ofZ now)
    = Num (inject_Z (Qfloor ((t - inject_Z now) / 86400000))).
Proof. reflexivity. Qed.

Lemma daysBetween_NaN_l (b : number) : daysBetween NaN b = NaN.
Proof. reflexivity. Qed.

Lemma usage_nothing_dispensed (today : Z) (batch : InventoryBatch) :
  quantityDispensed batch == 0 ->
  calculateAverageDailyUsage getTime today batch None = Num 0.
Proof.
  intro Hz. unfold calculateAverageDailyUsage.
  rewrite (totalDispensed_zero _ Hz). reflexivity.
Qed.

Lemma usage_no_elapsed_day (today : Z) (batch : InventoryBatch) :
  ~ quantityDispensed batch == 0 ->
  nle (daysBetween (ofZ today) (getTime (dateReceived batch))) (Num 0) = true ->
  calculateAverageDailyUsage getTime today batch None = Num 0.
Proof.
  intros Hnz Hle. unfold calculateAverageDailyUsage. cbn [nor_opt].
  destruct (totalDispensed_nonzero _ Hnz) as [-> ->].
  rewrite Hle. reflexivity.
Qed.

Lemma usage_quotient (today : Z) (batch : InventoryBatch) (d : Q) :
  ~ quantityDispensed batch == 0 ->
  daysBetween (ofZ today) (getTime (dateReceived batch)) = Num d -> 0 < d ->
  calculateAverageDailyUsage getTime today batch None
    = Num (quantityDispensed batch / d).
Proof.
  intros Hnz Hd Hpos. unfold calculateAverageDailyUsage. cbn [nor_opt].
  destruct (totalDispensed_nonzero _ Hnz) as [-> ->].
  rewrite Hd. unfold nle, ndiv, ncmp.
  assert (E1 : Qle_bool d 0 = false) by (apply Qle_bool_false; exact Hpos).
  assert (E2 : Qeq_bool d 0 = false).
  { apply Qeq_bool_false. intro E. rewrite E in Hpos. exact (Qlt_irrefl _ Hpos). }
  rewrite E1, E2. reflexivity.
Qed.

(** C6. With no dispensed quantity the estimator returns 0; otherwise, with
    [days] the whole days from [dateReceived] to the clock reading, it returns
    0 when [days <= 0] and the exact quotient [quantityDispensed / days] when
    [days > 0]. *)
Theorem calculateAverageDailyUsage_spec (today : Z) (batch : InventoryBatch) :
  let days := daysBetween (ofZ today) (getTime (dateReceived batch)) in
  (quantityDispensed batch == 0 ->
     calculateAverageDailyUsage getTime today batch None = Num 0) /\
  (~ quantityDispensed batch == 0 -> nle days (Num 0) = true ->
     calculateAverageDailyUsage getTime today batch None = Num 0) /\
  (~ quantityDispensed batch == 0 ->
     forall d : Q, days = Num d -> 0 < d ->
     calculateAverageDailyUsage getTime today batch None
       = Num (quantityDispensed batch / d)) /\
  (forall t : Q, getTime (dateReceived batch) = Num t ->
     days = ofZ (Qfloor ((inject_Z today - t) / inject_Z msPerDay))).
Proof.
  cbv zeta. repeat split.
  - apply usage_nothing_dispensed.
  - apply usage_no_elapsed_day.
  - intros Hnz d. apply usage_quotient. exact Hnz.
  - intros t ->. reflexivity.
Qed.

(** The estimator yields a finite, non-negative value unless the batch has a
    dispensed quantity and a [dateReceived] that does not parse. *)
Lemma calculateAverageDailyUsage_cases (today : Z) (batch : InventoryBatch) :
  calculateAverageDailyUsage getTime today batch None = Num 0 \/
  (exists d : Q,
     daysBetween (ofZ today) (getTime (dateReceived batch)) = Num d /\ 0 < d /\
     ~ quantityDispensed batch == 0 /\
     calculateAverageDailyUsage getTime today batch None
       = Num (quantityDispensed batch / d)) \/
  (getTime (dateReceived batch) = NaN /\ ~ quantityDispensed batch == 0 /\
   calculateAverageDailyUsage getTime today batch None = NaN).
Proof.
  pose proof (usage_nothing_dispensed today batch) as H0.
  pose proof (usage_no_elapsed_day today batch) as Hle.
  pose proof (usage_quotient today batch) as Hpos.
  destruct (Qeq_dec (quantityDispensed batch) 0) as [Hz | Hnz]; [left; auto |].
  destruct (getTime (dateReceived batch)) as [t |] eqn:Ht.
  - cbv zeta in *.
    change (ofZ today) with (Num (inject_Z today)) in *.
    rewrite daysBetween_whole in *.
    set (k := Qfloor _) in *.
    destruct (Qlt_le_dec 0 (inject_Z k)) as [P | N].
    + right; left. exists (inject_Z k). repeat split; auto.
    + left. apply Hle; auto. apply Qle_bool_iff. exact N.
  - right; right. repeat split; auto.
    unfold calculateAverageDailyUsage. rewrite Ht.
    destruct (totalDispensed_nonzero _ Hnz) as [-> ->]. reflexivity.
Qed.

(** ** The reorder point *)

Lemma calculateReorderPoint_no_usage
  (today : Z) (batch : InventoryBatch) (config : ReorderPointConfig) :
  calculateAverageDailyUsage getTime today batch None = Num 0 ->
  calculateReorderPoint getTime today batch config = Num (minimumThreshold config).
Proof.
  intro H. unfold calculateReorderPoint. rewrite H. reflexivity.
Qed.

Lemma calculateReorderPoint_usage
  (today : Z) (batch : InventoryBatch) (config : ReorderPointConfig) (u : Q) :
  calculateAverageDailyUsage getTime today batch None = Num u -> ~ u == 0 ->
  calculateReorderPoint getTime today batch config
    = Num (Qmax_bool (reorderPointOf u config) (minimumThreshold config)).
Proof.
  intros H Hu. unfold calculateReorderPoint. rewrite H.
  apply Qeq_bool_false in Hu. unfold neq, ncmp. rewrite Hu. reflexivity.
Qed.

Lemma calculateReorderPoint_NaN_usage
  (today : Z) (batch : InventoryBatch) (config : ReorderPointConfig) :
  calculateAverageDailyUsage getTime today batch None = NaN ->
  calculateReorderPoint getTime today batch config = NaN.
Proof.
  intro H. unfold calculateReorderPoint. rewrite H. reflexivity.
Qed.

(** With a dispensed quantity and a [dateReceived] that does not parse, the
    usage and the reorder point are NaN, whatever the configuration. *)
Lemma reorderPoint_NaN_when_unparsed
  (today : Z) (batch : InventoryBatch) (config : ReorderPointConfig) :
  getTime (dateReceived batch) = NaN -> ~ quantityDispensed batch == 0 ->
  calculateReorderPoint getTime today batch config = NaN.
Proof.
  intros Ht Hnz. apply calculateReorderPoint_NaN_usage.
  unfold calculateAverageDailyUsage. rewrite Ht.
  destruct (totalDispensed_nonzero _ Hnz) as [-> ->]. reflexivity.
Qed.

(** The floor holds whenever the usage is a number, in particular whenever
    [dateReceived] parses. *)
Lemma calculateReorderPoint_floor
  (today : Z) (batch : InventoryBatch) (config : ReorderPointConfig) :
  calculateAverageDailyUsage getTime today batch None <> NaN ->
  nge (calculateReorderPoint getTime today batch config)
      (Num (minimumThreshold config)) = true.
Proof.
  intro H.
  destruct (calculateAverageDailyUsage getTime today batch None) as [u |] eqn:E;
    [| congruence].
  unfold calculateReorderPoint. rewrite E. unfold neq, ncmp.
  destruct (Qeq_bool u 0); cbn.
  - apply Qle_bool_iff. apply Qle_refl.
  - apply Qle_bool_iff. apply Qmax_bool_ge_r.
Qed.

Lemma calculateReorderPoint_floor_parsed
  (today : Z) (batch : InventoryBatch) (config : ReorderPointConfig) (t : Q) :
  getTime (dateReceived batch) = Num t ->
  nge (calculateReorderPoint getTime today batch config)
      (Num (minimumThreshold config)) = true.
Proof.
  intro Ht. apply calculateReorderPoint_floor.
  destruct (calculateAverageDailyUsage_cases today batch)
    as [E | [(d & _ & _ & _ & E) | (E & _)]]; congruence.
Qed.

Lemma reorderPointOf_mono (u : Q) (c1 c2 : ReorderPointConfig) :
  u * leadTimeDays c1 + u * leadTimeDays c1 * safetyStockPercentage c1
    <= u * leadTimeDays c2 + u * leadTimeDays c2 * safetyStockPercentage c2 ->
  reorderPointOf u c1 <= reorderPointOf u c2.
Proof.
  intro H. unfold reorderPointOf. rewrite <- Zle_Qle.
  apply Qceiling_resp_le. exact H.
Qed.

(** C8. For a batch with a positive dispensed quantity and a positive number
    of elapsed days, raising [leadTimeDays] alone never lowers the reorder
    point when the safety percentage is not negative, and raising
    [safetyStockPercentage] alone never lowers it when the lead time is not
    negative: the reorder point is monotone in both over the valid
    configurations. *)
Theorem calculateReorderPoint_monotone
  (today : Z) (batch : InventoryBatch) (config : ReorderPointConfig) (d : Q) :
  0 < quantityDispensed batch ->
  daysBetween (ofZ today) (getTime (dateReceived batch)) = Num d -> 0 < d ->
  (forall l : Q,
     0 <= safetyStockPercentage config -> leadTimeDays config <= l ->
     nle (calculateReorderPoint getTime today batch config)
         (calculateReorderPoint getTime today batch (withLeadTimeDays config l)) = true) /\
  (forall s : Q,
     0 <= leadTimeDays config -> safetyStockPercentage config <= s ->
     nle (calculateReorderPoint getTime today batch config)
         (calculateReorderPoint getTime today batch (withSafetyStockPercentage config s)) = true).
Proof.
  intros Hq Hd Hpos.
  assert (Hnz : ~ quantityDispensed batch == 0).
  { intro E. rewrite E in Hq. exact (Qlt_irrefl _ Hq). }
  pose proof (usage_quotient today batch d Hnz Hd Hpos) as Hu.
  set (u := quantityDispensed batch / d) in *.
  assert (Hupos : 0 < u).
  { unfold u. apply Qlt_shift_div_l; [exact Hpos | lra]. }
  assert (Hunz : ~ u == 0).
  { intro E. rewrite E in Hupos. exact (Qlt_irrefl _ Hupos). }
  split.
  - intros l HS Hl.
    rewrite (calculateReorderPoint_usage _ _ config u Hu Hunz).
    rewrite (calculateReorderPoint_usage _ _ (withLeadTimeDays config l) u Hu Hunz).
    cbn [nle ncmp]. apply Qle_bool_iff.
    change (minimumThreshold (withLeadTimeDays config l)) with (minimumThreshold config).
    apply Qmax_bool_mono. apply reorderPointOf_mono. cbn.
    set (L := leadTimeDays config) in *. set (S := safetyStockPercentage config) in *.
    assert (H1 : u * L <= u * l) by (apply Qmult_le_l; assumption).
    assert (H2 : u * L * S <= u * l * S) by (apply Qmult_le_compat_r; assumption).
    lra.
  - intros s HL Hs.
    rewrite (calculateReorderPoint_usage _ _ config u Hu Hunz).
    rewrite (calculateReorderPoint_usage _ _ (withSafetyStockPercentage config s) u Hu Hunz).
    cbn [nle ncmp]. apply Qle_bool_iff.
    change (minimumThreshold (withSafetyStockPercentage config s))
      with (minimumThreshold config).
    apply Qmax_bool_mono. apply reorderPointOf_mono. cbn.
    set (L := leadTimeDays config) in *. set (S := safetyStockPercentage config) in *.
    assert (H0 : 0 <= u * L) by (apply Qmult_le_0_compat; [lra | assumption]).
    assert (H2 : u * L * S <= u * L * s).
    { rewrite (Qmult_comm (u * L) S), (Qmult_comm (u * L) s).
      apply Qmult_le_compat_r; assumption. }
    lra.
Qed.

(** ** Stock classification *)

Lemma stockOf_value (batch : InventoryBatch) :
  stockOf batch
    = Num (beginningInventory batch + quantityReceived batch - quantityDispensed batch).
Proof. reflexivity. Qed.

(** C2. In the status record [isOutOfStock] holds exactly at stock 0 and
    [isLowStock] exactly when the stock is positive and at most the reorder
    point; so the two never hold together, a stock of 0 or less is never low
    stock, and a negative stock is neither. *)
Theorem getStockStatus_classification
  (today : Z) (batch : InventoryBatch) (config : ReorderPointConfig) :
  let status := getStockStatus getTime today batch config in
  let stock := beginningInventory batch + quantityReceived batch - quantityDispensed batch in
  StockStatus.currentStock status = Num stock /\
  (StockStatus.isOutOfStock status = true <-> stock == 0) /\
  (StockStatus.isLowStock status = true <->
     0 < stock /\ nle (Num stock) (StockStatus.reorderPoint status) = true) /\
  StockStatus.isLowStock status && StockStatus.isOutOfStock status = false /\
  (stock <= 0 -> StockStatus.isLowStock status = false) /\
  (stock < 0 ->
     StockStatus.isLowStock status = false /\ StockStatus.isOutOfStock status = false).
Proof.
  intros status stock.
  assert (Hlow : StockStatus.isLowStock status = true <->
                 0 < stock /\ nle (Num stock) (StockStatus.reorderPoint status) = true).
  { cbn. fold stock. rewrite andb_true_iff.
    change (ngt (Num stock) (Num 0)) with (Qlt_bool 0 stock).
    rewrite Qlt_bool_iff. reflexivity. }
  assert (Hout : StockStatus.isOutOfStock status = true <-> stock == 0).
  { cbn. fold stock. apply Qeq_bool_iff. }
  assert (Hnot : stock <= 0 -> StockStatus.isLowStock status = false).
  { intro Hle. apply not_true_is_false. intro E.
    apply Hlow in E. destruct E as [Hp _]. exact (Qlt_not_le _ _ Hp Hle). }
  repeat split; try apply Hlow; try apply Hout; trivial.
  - apply not_true_is_false. intro E. apply andb_true_iff in E.
    destruct E as [El Eo]. apply Hlow in El. apply Hout in Eo.
    destruct El as [Hp _]. rewrite Eo in Hp. exact (Qlt_irrefl _ Hp).
  - apply Hnot. apply Qlt_le_weak. assumption.
  - apply not_true_is_false. intro Eo.
    apply Hout in Eo. rewrite Eo in H. exact (Qlt_irrefl _ H).
Qed.

Lemma isLowStock_unfold
  (today : Z) (batch : InventoryBatch) (config : ReorderPointConfig) :
  isLowStock getTime today batch config
    = ngt (stockOf batch) (Num 0)
      && nle (stockOf batch) (calculateReorderPoint getTime today batch config).
Proof.
  unfold isLowStock. rewrite stockOf_value.
  set (stock := beginningInventory batch + quantityReceived batch - quantityDispensed batch).
  change (ngt (Num stock) (Num 0)) with (negb (Qle_bool stock 0)).
  change (nle (Num stock) (Num 0)) with (Qle_bool stock 0).
  destruct (Qle_bool stock 0); reflexivity.
Qed.

(** C10. The predicate [isLowStock] and the [isLowStock] field of
    [getStockStatus] are the same boolean for every batch and configuration. *)
Theorem isLowStock_agrees_with_getStockStatus
  (today : Z) (batch : InventoryBatch) (config : ReorderPointConfig) :
  isLowStock getTime today batch config
    = StockStatus.isLowStock (getStockStatus getTime today batch config).
Proof.
  rewrite isLowStock_unfold. reflexivity.
Qed.

(** ** The alert generator *)

Lemma nlt_ofZ (a b : Z) : nlt (ofZ a) (ofZ b) = (a <? b)%Z.
Proof.
  unfold nlt, ofZ, ncmp, Qlt_bool, Qle_bool. cbn. rewrite !Z.mul_1_r.
  rewrite Z.ltb_antisym. reflexivity.
Qed.

Lemma nle_ofZ (a b : Z) : nle (ofZ a) (ofZ b) = (a <=? b)%Z.
Proof.
  unfold nle, ofZ, ncmp, Qle_bool. cbn. rewrite !Z.mul_1_r. reflexivity.
Qed.

Lemma processItem_app (now today : Z) (branch : BranchData.t)
  (alerts : list BranchAlert.t) (item : InventoryBatch) :
  processItem getTime now today branch alerts item
    = alerts ++ emitted getTime now today branch item.
Proof.
  unfold emitted, processItem, push. cbv zeta.
  split_ifs; cbn [app]; rewrite <- ?app_assoc, ?app_nil_r; reflexivity.
Qed.

Lemma forEach_processItem (now today : Z) (branch : BranchData.t)
  (items : list InventoryBatch) (alerts : list BranchAlert.t) :
  forEach items (processItem getTime now today branch) alerts
    = alerts ++ flat_map (emitted getTime now today branch) items.
Proof.
  unfold forEach. revert alerts.
  induction items as [| item items IH]; intro alerts; cbn.
  - symmetry. apply app_nil_r.
  - rewrite IH, processItem_app, <- app_assoc. reflexivity.
Qed.

(** The array before sorting: the alerts of every item of every branch, in
    the order of the input. *)
Lemma collectAlerts_flat_map (now today : Z) (branchData : list BranchData.t) :
  collectAlerts getTime now today branchData
    = flat_map (fun branch =>
                  flat_map (emitted getTime now today branch) (BranchData.inventory branch))
               branchData.
Proof.
  unfold collectAlerts, forEach at 1.
  enough (G : forall acc,
             fold_left
               (fun alerts branch =>
                  forEach (BranchData.inventory branch)
                          (processItem getTime now today branch) alerts)
               branchData acc
             = acc ++ flat_map (fun branch =>
                                  flat_map (emitted getTime now today branch)
                                           (BranchData.inventory branch))
                               branchData)
    by (rewrite G; reflexivity).
  induction branchData as [| branch rest IH]; intro acc; cbn.
  - symmetry. apply app_nil_r.
  - rewrite IH, forEach_processItem, <- app_assoc. reflexivity.
Qed.

Lemma no_expiry_alert_NaN (now today : Z) (branch : BranchData.t) (item : InventoryBatch) :
  getTime (expirationDate item) = NaN ->
  filter isExpiryAlert (emitted getTime now today branch item) = [].
Proof.
  intro H. unfold emitted, processItem, push. cbv zeta. rewrite H.
  rewrite daysBetween_NaN_l. cbn [nlt nle ngt nge ncmp andb app].
  destruct (_ && isLowStock _ _ _ _); reflexivity.
Qed.

(** C3. One item adds at most one expiry alert, fixed by the whole number of
    days [k = floor((expirationDate - now) / 86400000)]: below 0 an alert of
    type expired and severity high, from 0 to 30 one of type critical and
    severity high, from 31 to 180 one of type nearExpiry and severity medium,
    above 180 none, and none when the date does not parse.  The alert carries
    [k] and the stock of the item; the stock plays no part in the choice. *)
Theorem expiry_alert_rule (now today : Z) (branch : BranchData.t) (item : InventoryBatch) :
  let out := filter isExpiryAlert (emitted getTime now today branch item) in
  let stock := beginningInventory item + quantityReceived item - quantityDispensed item in
  let expiry (ty : AlertType) (sev : Severity) (k : Z) : Prop :=
    exists a : BranchAlert.t,
      out = [a] /\
      BranchAlert.alertType a = ty /\
      BranchAlert.severity a = sev /\
      BranchAlert.daysUntilExpiry a = Some (Num (inject_Z k)) /\
      BranchAlert.stockLevel a = Some (Num stock) /\
      BranchAlert.item a = item /\
      BranchAlert.branchId a = BranchData.userId branch in
  (forall alerts : list BranchAlert.t,
     processItem getTime now today branch alerts item
       = alerts ++ emitted getTime now today branch item) /\
  (List.length out <= 1)%nat /\
  (forall t : Q, getTime (expirationDate item) = Num t ->
     let k := Qfloor ((t - inject_Z now) / 86400000) in
     ((k < 0)%Z -> expiry expired high k) /\
     ((0 <= k <= 30)%Z -> expiry critical high k) /\
     ((31 <= k <= 180)%Z -> expiry nearExpiry medium k) /\
     ((180 < k)%Z -> out = [])) /\
  (getTime (expirationDate item) = NaN -> out = []).
Proof.
  intros out stock expiry.
  split; [intro; apply processItem_app |].
  split; [| split; [| apply no_expiry_alert_NaN]].
  - unfold out, emitted, processItem, push. cbv zeta. split_ifs; cbn; lia.
  - intros t Ht k. unfold expiry, out, emitted, processItem, push. cbv zeta.
    rewrite Ht, daysBetween_value, stockOf_value. fold k. fold stock.
    change (Num (inject_Z k)) with (ofZ k).
    unfold ngt, nge.
    change (Num 0) with (ofZ 0). change (Num 30) with (ofZ 30).
    change (Num 180) with (ofZ 180).
    rewrite !nlt_ofZ, !nle_ofZ.
    repeat split; intro Hk; decide_Z; try lia; cbn [andb app];
      destruct (_ && isLowStock _ _ _ _); cbn [filter isExpiryAlert mkAlert app
        BranchAlert.alertType];
      try reflexivity; eexists; (split; [reflexivity |]); repeat split.
Qed.

Lemma emitted_item (now today : Z) (branch : BranchData.t) (item : InventoryBatch)
  (a : BranchAlert.t) :
  In a (emitted getTime now today branch item) -> BranchAlert.item a = item.
Proof.
  unfold emitted, processItem, push. cbv zeta.
  split_ifs; cbn; intuition (subst; reflexivity).
Qed.

Lemma generateBranchAlerts_In (now today : Z) (branchData : list BranchData.t)
  (a : BranchAlert.t) :
  In a (generateBranchAlerts getTime now today branchData) <->
  exists (branch : BranchData.t) (item : InventoryBatch),
    In branch branchData /\ In item (BranchData.inventory branch) /\
    In a (emitted getTime now today branch item).
Proof.
  unfold generateBranchAlerts, sortAlerts.
  rewrite sortBy_In, collectAlerts_flat_map, in_flat_map.
  split.
  - intros (branch & Hb & Ha). apply in_flat_map in Ha.
    destruct Ha as (item & Hi & Ha). eauto.
  - intros (branch & item & Hb & Hi & Ha). exists branch. split; [exact Hb |].
    apply in_flat_map. eauto.
Qed.

(** C7. The generator is a total function, and an item whose expiration date
    does not parse adds no expiry alert: every alert of the feed that belongs
    to such an item is a lowStock alert. *)
Theorem unparseable_expiry_no_alert (now today : Z) :
  (forall (branch : BranchData.t) (item : InventoryBatch),
     getTime (expirationDate item) = NaN ->
     filter isExpiryAlert (emitted getTime now today branch item) = []) /\
  (forall (branchData : list BranchData.t) (a : BranchAlert.t),
     In a (generateBranchAlerts getTime now today branchData) ->
     getTime (expirationDate (BranchAlert.item a)) = NaN ->
     BranchAlert.alertType a = lowStock).
Proof.
  split; [intros; apply no_expiry_alert_NaN; assumption |].
  intros branchData a Ha Hnan.
  apply generateBranchAlerts_In in Ha. destruct Ha as (branch & item & _ & _ & Ha).
  pose proof (emitted_item _ _ _ _ _ Ha) as Hitem. rewrite Hitem in Hnan.
  pose proof (no_expiry_alert_NaN now today branch item Hnan) as Hnone.
  destruct (isExpiryAlert a) eqn:E.
  - assert (Hin : In a (filter isExpiryAlert (emitted getTime now today branch item)))
      by (apply filter_In; split; assumption).
    rewrite Hnone in Hin. destruct Hin.
  - unfold isExpiryAlert in E. destruct (BranchAlert.alertType a); congruence.
Qed.

(** The lowStock alert of one item, under the default configuration. *)
Lemma lowStock_emitted (now today : Z) (branch : BranchData.t) (item : InventoryBatch) :
  let stock := stockOf item in
  let rp := calculateReorderPoint getTime today item DEFAULT_REORDER_CONFIG in
  filter isLowStockAlert (emitted getTime now today branch item)
    = if ngt stock (Num 0) && nle stock rp
      then [mkAlert branch item lowStock
              (if nlt stock (nmul rp (Num (1 # 2))) then high else medium)
              None (Some stock)]
      else [].
Proof.
  cbv zeta. unfold emitted, processItem, push. cbv zeta.
  rewrite isLowStock_unfold. cbn [StockStatus.reorderPoint getStockStatus].
  rewrite andb_assoc, andb_diag.
  destruct (ngt (stockOf item) (Num 0)
            && nle (stockOf item)
                   (calculateReorderPoint getTime today item DEFAULT_REORDER_CONFIG));
    split_ifs; reflexivity.
Qed.

End Properties.

(** * The reorder quantity, in binary64 *)

Section Binary64Facts.

Import SpecFloat.

Local Open Scope Z_scope.

(** ** Rounding keeps the mantissa within 53 bits *)

Lemma shr_1_digits (mrs : shr_record) :
  Zdigits2 (shr_m (shr_1 mrs)) = Z.max 0 (Zdigits2 (shr_m mrs) - 1).
Proof.
  destruct mrs as [m r s]. destruct m as [| p | p]; try destruct p; cbn [shr_1 shr_m Zdigits2 digits2_pos]; lia.
Qed.

Lemma iter_shr_1_digits (p : positive) (mrs : shr_record) :
  Zdigits2 (shr_m (iter_pos shr_1 p mrs)) = Z.max 0 (Zdigits2 (shr_m mrs) - Zpos p).
Proof.
  revert mrs. induction p as [p IH | p IH |]; intro mrs; cbn [iter_pos].
  - rewrite !IH, shr_1_digits. lia.
  - rewrite !IH. lia.
  - apply shr_1_digits.
Qed.

Lemma Zdigits2_nonneg (z : Z) : 0 <= Zdigits2 z.
Proof. destruct z; cbn; lia. Qed.

Lemma binary_round_aux_sized (s : bool) (m e : Z) (l : location) :
  sized (binary_round_aux Binary64.prec Binary64.emax s m e l).
Proof.
  unfold binary_round_aux.
  destruct (shr_fexp Binary64.prec Binary64.emax m e l) as [mrs' e'].
  set (m1 := round_nearest_even (shr_m mrs') (loc_of_shr_record mrs')).
  unfold shr_fexp. cbn [shr_record_of_loc].
  set (n := fexp Binary64.prec Binary64.emax (Zdigits2 m1 + e') - e').
  assert (Hn : Zdigits2 m1 - 53 <= n).
  { unfold n, fexp, Binary64.prec. lia. }
  pose proof (Zdigits2_nonneg m1) as Hd.
  assert (G : Zdigits2 (shr_m (fst (shr {| shr_m := m1; shr_r := false; shr_s := false |} e' n))) <= 53).
  { unfold shr. destruct n as [| p | p]; cbn [fst shr_m]; try lia.
    rewrite iter_shr_1_digits. cbn [shr_m]. lia. }
  destruct (shr _ e' n) as [mrs'' e'']. cbn [fst] in G.
  destruct (shr_m mrs'') as [| p | p]; cbn; trivial.
  destruct (e'' <=? _); cbn; trivial.
Qed.

Lemma mul_sized (a b : Binary64.number) : sized (Binary64.mul a b).
Proof.
  destruct a, b; cbn; trivial. apply binary_round_aux_sized.
Qed.

Lemma binary_normalize_sized (z e : Z) (sz : bool) :
  sized (binary_normalize Binary64.prec Binary64.emax z e sz).
Proof.
  unfold binary_normalize, binary_round.
  destruct z as [| m | m]; cbn [sized]; trivial;
    destruct (shl_align m e _); apply binary_round_aux_sized.
Qed.

Lemma add_sized (a b : Binary64.number) : sized a -> sized b -> sized (Binary64.add a b).
Proof.
  intros Ha Hb. unfold Binary64.add, SFadd.
  destruct a as [sa | sa | | sa ma ea], b as [sb | sb | | sb mb eb]; trivial;
    try apply binary_normalize_sized; destruct sa, sb; trivial.
Qed.


(** ** Whole numbers below [2 ^ 53] are doubles *)

Lemma digits2_iter_xO (m d : positive) :
  digits2_pos (Pos.iter xO m d) = (digits2_pos m + d)%positive.
Proof.
  induction d as [| d IH] using Pos.peano_ind.
  - cbn. lia.
  - rewrite Pos.iter_succ. cbn [digits2_pos]. rewrite IH. lia.
Qed.

Lemma iter_xO_value (m d : positive) : Zpos (Pos.iter xO m d) = Zpos m * 2 ^ Zpos d.
Proof.
  induction d as [| d IH] using Pos.peano_ind.
  - cbn [Pos.iter]. rewrite Pos2Z.inj_xO. change (2 ^ 1) with 2. lia.
  - rewrite Pos.iter_succ, Pos2Z.inj_xO, IH, Pos2Z.inj_succ, Z.pow_succ_r by lia. lia.
Qed.

Lemma binary_round_aux_exact (s : bool) (m : positive) (e : Z) :
  Zpos (digits2_pos m) = 53 -> -1074 <= e <= 971 ->
  binary_round_aux Binary64.prec Binary64.emax s (Zpos m) e loc_Exact = S754_finite s m e.
Proof.
  intros Hd He.
  assert (F : fexp Binary64.prec Binary64.emax (53 + e) - e = 0)
    by (unfold fexp, emin, Binary64.prec, Binary64.emax; lia).
  unfold binary_round_aux, shr_fexp. cbn [Zdigits2 shr_record_of_loc].
  rewrite Hd, F. cbn [shr shr_m loc_of_shr_record round_nearest_even Zdigits2].
  rewrite Hd, F. cbn [shr shr_m].
  replace (e <=? Binary64.emax - Binary64.prec) with true; [reflexivity |].
  symmetry. apply Z.leb_le. unfold Binary64.emax, Binary64.prec. lia.
Qed.

Lemma binary_round_exact (s : bool) (m : positive) :
  Zpos (digits2_pos m) <= 53 ->
  exists (m' : positive) (e : Z),
    binary_round Binary64.prec Binary64.emax s m 0 = S754_finite s m' e /\
    e <= 0 /\ Zpos m' = Zpos m * 2 ^ (- e).
Proof.
  intro Hd. unfold binary_round.
  assert (F : fexp Binary64.prec Binary64.emax (Zpos (digits2_pos m) + 0)
              = Zpos (digits2_pos m) - 53)
    by (unfold fexp, emin, Binary64.prec, Binary64.emax; lia).
  rewrite F. unfold shl_align.
  destruct (Zpos (digits2_pos m) - 53 - 0) as [| d | d] eqn:E; try lia.
  - exists m, 0. split; [apply binary_round_aux_exact; lia |].
    split; [lia |]. cbn. lia.
  - exists (Pos.iter xO m d), (Zpos (digits2_pos m) - 53).
    split; [apply binary_round_aux_exact; [rewrite digits2_iter_xO |]; lia |].
    split; [lia |]. rewrite iter_xO_value. f_equal. f_equal. lia.
Qed.

Lemma Qred_inject_Z (z : Z) : Qred (inject_Z z) = inject_Z z.
Proof.
  unfold Qred, inject_Z.
  pose proof (Z.ggcd_gcd z 1) as G. pose proof (Z.ggcd_correct_divisors z 1) as D.
  destruct (Z.ggcd z 1) as [g [n d]]. cbn [fst snd] in *.
  rewrite Z.gcd_1_r in G. subst g. destruct D as [D1 D2].
  rewrite Z.mul_1_l in D1, D2. subst. reflexivity.
Qed.

Lemma Qred_int (q : Q) (z : Z) : (q == inject_Z z)%Q -> Qred q = inject_Z z.
Proof.
  intro H. rewrite (Qred_complete _ _ H). apply Qred_inject_Z.
Qed.

Lemma value_finite_int (s : bool) (m : positive) (e z : Z) :
  e <= 0 -> cond_Zopp s (Zpos m) = z * 2 ^ (- e) ->
  Binary64.value (S754_finite s m e) = Some (inject_Z z).
Proof.
  intros He Hm. unfold Binary64.value. f_equal. apply Qred_int.
  destruct (0 <=? e) eqn:E.
  - apply Z.leb_le in E. assert (e = 0) by lia. subst e. rewrite Hm. cbn.
    unfold Qeq. cbn. lia.
  - apply Z.leb_gt in E. unfold Qeq. cbn [Qnum Qden inject_Z].
    rewrite Z2Pos.id by (apply Z.pow_pos_nonneg; lia). lia.
Qed.

Lemma ofZ_value (z : Z) :
  Zdigits2 z <= 53 -> Binary64.value (Binary64.ofZ z) = Some (inject_Z z).
Proof.
  intro Hd. unfold Binary64.ofZ, binary_normalize.
  destruct z as [| m | m]; [reflexivity | |].
  - destruct (binary_round_exact false m Hd) as (m' & e & -> & He & Hm).
    apply value_finite_int; [exact He |]. cbn [cond_Zopp]. exact Hm.
  - destruct (binary_round_exact true m Hd) as (m' & e & -> & He & Hm).
    apply value_finite_int; [exact He |]. cbn [cond_Zopp]. lia.
Qed.


(** ** [Math.ceil] and [Math.max] *)

Lemma digits2_pos_le (a b : positive) :
  (a <= b)%positive -> (digits2_pos a <= digits2_pos b)%positive.
Proof.
  revert b. induction a as [a IH | a IH |]; intros [b | b |] H; cbn [digits2_pos]; try lia;
    specialize (IH b); lia.
Qed.

Lemma Zdigits2_le (a b : Z) : Z.abs a <= Z.abs b -> Zdigits2 a <= Zdigits2 b.
Proof.
  destruct a as [| a | a], b as [| b | b]; cbn [Zdigits2 Z.abs]; intro H; try lia;
    pose proof (digits2_pos_le a b); lia.
Qed.

Lemma ceil_value (x : Binary64.number) (q : Q) :
  sized x -> Binary64.value x = Some q ->
  Binary64.value (Binary64.ceil x) = Some (inject_Z (Qceiling q)).
Proof.
  destruct x as [s | s | | s m e]; cbn [sized Binary64.value Binary64.ceil]; intros Hs Hq;
    try discriminate.
  - injection Hq as <-. reflexivity.
  - injection Hq as <-. destruct (0 <=? e) eqn:E.
    + cbn [Binary64.value]. rewrite E, Qred_inject_Z, Qceiling_Z. reflexivity.
    + apply Z.leb_gt in E.
      assert (K : 0 < 2 ^ (- e)) by (apply Z.pow_pos_nonneg; lia).
      assert (K2 : 2 <= 2 ^ (- e)).
      { change 2 with (2 ^ 1) at 1. apply Z.pow_le_mono_r; lia. }
      rewrite (Qceiling_comp _ _ (Qred_correct _)).
      unfold Qceiling, Qfloor, Qopp. cbn [Qnum Qden].
      rewrite Z2Pos.id by exact K.
      set (n := - (- cond_Zopp s (Zpos m) / 2 ^ (- e))).
      destruct (n =? 0) eqn:N.
      * apply Z.eqb_eq in N. rewrite N. reflexivity.
      * apply ofZ_value.
        apply Z.le_trans with (Zdigits2 (Zpos m)); [| exact Hs].
        apply Zdigits2_le. cbn [Z.abs].
        pose proof (Z.mul_div_le (- cond_Zopp s (Zpos m)) (2 ^ (- e)) K) as L1.
        pose proof (Z.mul_succ_div_gt (- cond_Zopp s (Zpos m)) (2 ^ (- e)) K) as L2.
        fold n. unfold n. destruct s; cbn [cond_Zopp] in *; nia.
Qed.

Lemma SFcompare_antisym (a b : Binary64.number) :
  SFcompare b a = option_map CompOpp (SFcompare a b).
Proof.
  destruct a as [sa | sa | | sa ma ea], b as [sb | sb | | sb mb eb]; cbn;
    try reflexivity; try (destruct sa; reflexivity); try (destruct sb; reflexivity);
    try (destruct sa, sb; reflexivity).
  pose proof (Pos.compare_cont_antisym ma mb Eq) as P. cbn [CompOpp] in P.
  destruct sa, sb; cbn; try reflexivity; rewrite (Z.compare_antisym ea eb);
    destruct (ea ?= eb); cbn; try reflexivity; rewrite <- P;
    destruct (Pos.compare_cont Eq ma mb); reflexivity.
Qed.

Lemma SFcompare_refl (a b : Binary64.number) (c : comparison) :
  SFcompare a b = Some c -> SFcompare a a = Some Eq.
Proof.
  destruct a as [sa | sa | | sa ma ea]; cbn; try reflexivity.
  - destruct sa; reflexivity.
  - destruct b; discriminate.
  - intros _. destruct sa; rewrite Z.compare_refl, Pos.compare_cont_refl; reflexivity.
Qed.

Lemma max_spec (a b : Binary64.number) :
  (Binary64.max a b = a \/ Binary64.max a b = b) /\
  match SFcompare a b with
  | Some _ => SFleb a (Binary64.max a b) = true /\ SFleb b (Binary64.max a b) = true
  | None => Binary64.max a b = S754_nan
  end.
Proof.
  unfold Binary64.max.
  pose proof (SFcompare_antisym a b) as A.
  destruct (SFcompare a b) as [c |] eqn:E; [| split; [| reflexivity]].
  - pose proof (SFcompare_refl a b c E) as Ra.
    assert (Rb : SFcompare b b = Some Eq) by (apply (SFcompare_refl b a (CompOpp c)); exact A).
    cbn [option_map] in A. unfold SFleb.
    destruct c; cbn [CompOpp] in A.
    + split; [destruct a as [[|] | | |]; auto |].
      destruct a as [[|] | | |]; rewrite ?E, ?Ra, ?Rb, ?A; auto.
    + split; [auto |]. rewrite E, Rb. auto.
    + split; [auto |]. rewrite Ra, A. auto.
  - destruct a, b; cbn in E; try discriminate; auto;
      repeat match goal with s : bool |- _ => destruct s end; discriminate.
Qed.

Lemma ceil_none (x : Binary64.number) : Binary64.value x = None -> Binary64.ceil x = x.
Proof. destruct x; cbn; try reflexivity; discriminate. Qed.

(** C9. [calculateReorderQuantity] is 0 for a batch that is neither low on
    stock nor out of stock.  Otherwise, with [u] the average daily usage when
    that is above 0 and 1 when it is not (as when nothing was dispensed), and
    [x] the double [u * leadTimeDays * 2 + u * leadTimeDays * safety] computed
    product by product, it is the larger of [Math.ceil x] and the minimum
    threshold: one of the two, and at or above both; [Math.ceil x] stands for
    the ceiling of the rational that [x] stands for. *)
Theorem calculateReorderQuantity_spec
  (getTime : string -> Binary64.number) (today : Z) (batch : InventoryBatch)
  (config : ReorderPointConfig) :
  let status := Binary64.getStockStatus getTime today batch config in
  let usage := Binary64.StockStatus.avgDailyUsage status in
  let result := Binary64.calculateReorderQuantity getTime today batch config in
  let u := if SFltb (S754_zero false) usage then usage else Binary64.ofZ 1 in
  let base := SFmul 53 1024 u (Binary64.ofQ (leadTimeDays config)) in
  let x := SFadd 53 1024 (SFmul 53 1024 base (Binary64.ofZ 2))
                 (SFmul 53 1024 base (Binary64.ofQ (safetyStockPercentage config))) in
  let c := Binary64.ceil x in
  let t := Binary64.ofQ (minimumThreshold config) in
  usage = Binary64.calculateAverageDailyUsage getTime today batch None /\
  ((quantityDispensed batch == 0)%Q -> u = Binary64.ofZ 1) /\
  (Binary64.StockStatus.isLowStock status = false ->
   Binary64.StockStatus.isOutOfStock status = false -> result = S754_zero false) /\
  (Binary64.StockStatus.isLowStock status = true \/
   Binary64.StockStatus.isOutOfStock status = true ->
     (forall q : Q, Binary64.value x = Some q ->
        Binary64.value c = Some (inject_Z (Qceiling q))) /\
     (Binary64.value x = None -> c = x) /\
     (result = c \/ result = t) /\
     match SFcompare c t with
     | Some _ => SFleb c result = true /\ SFleb t result = true
     | None => result = S754_nan
     end).
Proof.
  intros status usage result u base x c t.
  split; [reflexivity |]. split; [| split].
  - intro Hz. unfold u, usage. cbn [status Binary64.getStockStatus Binary64.StockStatus.avgDailyUsage].
    unfold Binary64.calculateAverageDailyUsage, Binary64.ofQ.
    assert (N : Qnum (quantityDispensed batch) = 0).
    { unfold Qeq in Hz. cbn in Hz. lia. }
    rewrite N. reflexivity.
  - intros Hl Ho. unfold result, Binary64.calculateReorderQuantity. fold status.
    rewrite Hl, Ho. reflexivity.
  - intro Hneed.
    assert (G : negb (Binary64.StockStatus.isLowStock status)
                && negb (Binary64.StockStatus.isOutOfStock status) = false).
    { destruct Hneed as [-> | ->]; cbn; [reflexivity | apply andb_false_r]. }
    assert (R : result = Binary64.max c t).
    { unfold result, Binary64.calculateReorderQuantity. fold status. rewrite G. reflexivity. }
    split; [| split].
    + intros q Hq. apply ceil_value; [| exact Hq].
      apply add_sized; apply mul_sized.
    + apply ceil_none.
    + rewrite R. apply max_spec.
Qed.

End Binary64Facts.

(** * Claims on concrete inputs, and instances *)

(** C1. The reorder point of a batch with a dispensed quantity and a
    [dateReceived] that does not parse is NaN: the usage is NaN, [Math.max]
    passes it on, and the comparison with the minimum threshold fails; the
    batch, 5 in stock, is then not reported as low on stock. *)
Theorem calculateReorderPoint_unparsed_dateReceived :
  isoGetTime (dateReceived undatedBatch) = NaN /\
  calculateAverageDailyUsage isoGetTime clock0 undatedBatch None = NaN /\
  calculateReorderPoint isoGetTime clock0 undatedBatch DEFAULT_REORDER_CONFIG = NaN /\
  nge (calculateReorderPoint isoGetTime clock0 undatedBatch DEFAULT_REORDER_CONFIG)
      (Num (minimumThreshold DEFAULT_REORDER_CONFIG)) = false /\
  stockOf undatedBatch = Num 5 /\
  isLowStock isoGetTime clock0 undatedBatch DEFAULT_REORDER_CONFIG = false.
Proof. repeat split; vm_compute; reflexivity. Qed.

(** C4. One item adds a lowStock alert exactly when its stock is positive and
    at most its reorder point (default configuration): one alert of type
    lowStock that carries the stock and no day count, of severity high when
    the stock is below half the reorder point and medium otherwise; no such
    alert when the stock is 0 or less, above the reorder point, or when the
    reorder point is NaN.  The batch with 5 in stock and nothing dispensed has
    usage 0, reorder point 20, stock 5, and the feed of its branch is one
    alert, of type lowStock and severity high. *)
Theorem lowStock_alert_rule :
  (forall (getTime : string -> number) (now today : Z)
          (branch : BranchData.t) (item : InventoryBatch),
     let stock := beginningInventory item + quantityReceived item - quantityDispensed item in
     let out := filter isLowStockAlert (emitted getTime now today branch item) in
     let alert (sev : Severity) : Prop :=
       exists a : BranchAlert.t,
         out = [a] /\
         BranchAlert.alertType a = lowStock /\
         BranchAlert.severity a = sev /\
         BranchAlert.stockLevel a = Some (Num stock) /\
         BranchAlert.daysUntilExpiry a = None /\
         BranchAlert.item a = item /\
         BranchAlert.branchId a = BranchData.userId branch in
     (forall rp : Q,
        calculateReorderPoint getTime today item DEFAULT_REORDER_CONFIG = Num rp ->
        (0 < stock -> stock <= rp -> stock < rp * (1 # 2) -> alert high) /\
        (0 < stock -> stock <= rp -> rp * (1 # 2) <= stock -> alert medium) /\
        (stock <= 0 \/ rp < stock -> out = [])) /\
     (calculateReorderPoint getTime today item DEFAULT_REORDER_CONFIG = NaN -> out = [])) /\
  calculateAverageDailyUsage isoGetTime clock0 quietBatch None = Num 0 /\
  calculateReorderPoint isoGetTime clock0 quietBatch DEFAULT_REORDER_CONFIG = Num 20 /\
  stockOf quietBatch = Num 5 /\
  daysBetween (ofZ clock0) (isoGetTime (dateReceived quietBatch)) = Num 10 /\
  daysBetween (isoGetTime (expirationDate quietBatch)) (ofZ clock0) = Num 364 /\
  (exists a : BranchAlert.t,
     generateBranchAlerts isoGetTime clock0 clock0 [branchOf [quietBatch]] = [a] /\
     BranchAlert.alertType a = lowStock /\
     BranchAlert.severity a = high /\
     BranchAlert.stockLevel a = Some (Num 5) /\
     BranchAlert.daysUntilExpiry a = None /\
     BranchAlert.item a = quietBatch).
Proof.
  split.
  - intros getTime now today branch item stock out alert.
    pose proof (lowStock_emitted getTime now today branch item) as E. cbv zeta in E.
    rewrite stockOf_value in E. fold stock in E. fold out in E.
    split.
    + intros rp Hrp. rewrite Hrp in E.
      change (ngt (Num stock) (Num 0)) with (Qlt_bool 0 stock) in E.
      change (nle (Num stock) (Num rp)) with (Qle_bool stock rp) in E.
      change (nlt (Num stock) (nmul (Num rp) (Num (1 # 2))))
        with (Qlt_bool stock (rp * (1 # 2))) in E.
      split; [| split].
      * intros H1 H2 H3. apply Qlt_bool_iff in H1, H3. apply Qle_bool_iff in H2.
        rewrite H1, H2, H3 in E. cbn [andb] in E.
        unfold alert. eexists. split; [exact E |]. repeat split.
      * intros H1 H2 H3. apply Qlt_bool_iff in H1. apply Qle_bool_iff in H2.
        apply Qlt_bool_false in H3.
        rewrite H1, H2, H3 in E. cbn [andb] in E.
        unfold alert. eexists. split; [exact E |]. repeat split.
      * intros [H | H].
        -- apply Qlt_bool_false in H. rewrite H in E. exact E.
        -- apply Qle_bool_false in H. rewrite H, andb_false_r in E. exact E.
    + intro Hrp. rewrite Hrp in E. cbn [nle ncmp] in E. rewrite andb_false_r in E. exact E.
  - repeat split; try (vm_compute; reflexivity).
    eexists. split; [vm_compute; reflexivity |]. repeat split.
Qed.


(** C5. The feed is the stable sort of the collected alerts by severity rank
    (high 0, medium 1, low 2), then by type rank (expired 0, critical 1,
    lowStock 2, nearExpiry 3): it is ordered by these ranks, it is a
    rearrangement of the collected alerts, and the alerts of one severity and
    one type keep their order.  Four alerts medium/lowStock, high/expired,
    high/critical, low/nearExpiry come out as the second, the third, the
    first, the fourth; and a high nearExpiry alert goes before a medium
    expired one. *)
Theorem alert_feed_sorted :
  let severityRank (s : Severity) : Z :=
    (match s with high => 0 | medium => 1 | low => 2 end)%Z in
  let typeRank (t : AlertType) : Z :=
    (match t with expired => 0 | critical => 1 | lowStock => 2 | nearExpiry => 3 end)%Z in
  let before (a b : BranchAlert.t) : Prop :=
    (severityRank (BranchAlert.severity a) < severityRank (BranchAlert.severity b))%Z \/
    (BranchAlert.severity a = BranchAlert.severity b /\
     (typeRank (BranchAlert.alertType a) <= typeRank (BranchAlert.alertType b))%Z) in
  (forall (getTime : string -> number) (now today : Z) (branchData : list BranchData.t),
     generateBranchAlerts getTime now today branchData
       = sortAlerts (collectAlerts getTime now today branchData)) /\
  (forall alerts : list BranchAlert.t,
     StronglySorted before (sortAlerts alerts) /\
     Permutation alerts (sortAlerts alerts) /\
     (forall (s : Severity) (t : AlertType),
        filter (hasRank s t) (sortAlerts alerts) = filter (hasRank s t) alerts)) /\
  (forall (s : Severity) (t : AlertType) (a : BranchAlert.t),
     hasRank s t a = true <-> BranchAlert.severity a = s /\ BranchAlert.alertType a = t) /\
  (forall a1 a2 a3 a4 : BranchAlert.t,
     BranchAlert.severity a1 = medium -> BranchAlert.alertType a1 = lowStock ->
     BranchAlert.severity a2 = high -> BranchAlert.alertType a2 = expired ->
     BranchAlert.severity a3 = high -> BranchAlert.alertType a3 = critical ->
     BranchAlert.severity a4 = low -> BranchAlert.alertType a4 = nearExpiry ->
     sortAlerts [a1; a2; a3; a4] = [a2; a3; a1; a4]) /\
  (forall a b : BranchAlert.t,
     BranchAlert.severity a = medium -> BranchAlert.alertType a = expired ->
     BranchAlert.severity b = high -> BranchAlert.alertType b = nearExpiry ->
     sortAlerts [a; b] = [b; a]).
Proof.
  intros severityRank typeRank before.
  split; [reflexivity |]. split; [| split; [exact hasRank_iff | split]].
  - intro alerts. split; [| split; [apply sortBy_perm | intros s t; apply sortAlerts_stable]].
    pose proof (sortAlerts_sorted alerts) as H.
    induction H as [| a l Hs IH Ha]; constructor; [exact IH |].
    eapply Forall_impl; [| exact Ha]. intros b Hb. exact (alertLe_ranks a b Hb).
  - intros [] [] [] []. cbn [BranchAlert.severity BranchAlert.alertType].
    intros; subst; reflexivity.
  - intros [] []. cbn [BranchAlert.severity BranchAlert.alertType].
    intros; subst; reflexivity.
Qed.

(** ** Instances of the general statements *)

(** Nothing dispensed; received in the future; 30 dispensed over 10 days. *)
Lemma calculateAverageDailyUsage_spec_witness :
  calculateAverageDailyUsage isoGetTime clock0 quietBatch None = Num 0 /\
  calculateAverageDailyUsage isoGetTime clock0 earlyBatch None = Num 0 /\
  calculateAverageDailyUsage isoGetTime clock0 busyBatch None = Num (30 / 10).
Proof.
  split; [| split].
  - apply (proj1 (calculateAverageDailyUsage_spec isoGetTime clock0 quietBatch)).
    reflexivity.
  - apply (proj1 (proj2 (calculateAverageDailyUsage_spec isoGetTime clock0 earlyBatch))).
    + intro E. discriminate E.
    + reflexivity.
  - apply (proj1 (proj2 (proj2
             (calculateAverageDailyUsage_spec isoGetTime clock0 busyBatch)))).
    + intro E. discriminate E.
    + reflexivity.
    + reflexivity.
Defined.

(** Usage 3 a day: lead time 14 to 21 days, safety 30% to 50%. *)
Lemma calculateReorderPoint_monotone_witness :
  nle (calculateReorderPoint isoGetTime clock0 busyBatch DEFAULT_REORDER_CONFIG)
      (calculateReorderPoint isoGetTime clock0 busyBatch
         (withLeadTimeDays DEFAULT_REORDER_CONFIG 21)) = true /\
  nle (calculateReorderPoint isoGetTime clock0 busyBatch DEFAULT_REORDER_CONFIG)
      (calculateReorderPoint isoGetTime clock0 busyBatch
         (withSafetyStockPercentage DEFAULT_REORDER_CONFIG (1 # 2))) = true.
Proof.
  assert (M := calculateReorderPoint_monotone isoGetTime clock0 busyBatch
                 DEFAULT_REORDER_CONFIG 10).
  assert (H1 : 0 < quantityDispensed busyBatch) by reflexivity.
  assert (H2 : daysBetween (ofZ clock0) (isoGetTime (dateReceived busyBatch)) = Num 10)
    by reflexivity.
  assert (H3 : 0 < 10) by reflexivity.
  destruct (M H1 H2 H3) as [ML MS].
  split.
  - apply ML; discriminate.
  - apply MS; discriminate.
Defined.

(** Outside the contract of the engine: with a negative lead time and a
    negative minimum threshold, raising the safety percentage lowers the
    reorder point; the condition on the lead time cannot be dropped. *)
Remark reorderPoint_malformed_config :
  let config := {| leadTimeDays := -10; safetyStockPercentage := 0;
                   minimumThreshold := -100 |} in
  calculateReorderPoint isoGetTime clock0 busyBatch config = Num (-30) /\
  calculateReorderPoint isoGetTime clock0 busyBatch (withSafetyStockPercentage config 1)
    = Num (-60).
Proof. split; vm_compute; reflexivity. Qed.

(** A stock of -3 is neither low nor out of stock. *)
Lemma getStockStatus_classification_witness :
  StockStatus.isLowStock (getStockStatus isoGetTime clock0 overdrawnBatch DEFAULT_REORDER_CONFIG)
    = false /\
  StockStatus.isOutOfStock (getStockStatus isoGetTime clock0 overdrawnBatch DEFAULT_REORDER_CONFIG)
    = false.
Proof.
  apply (proj2 (proj2 (proj2 (proj2 (proj2
           (getStockStatus_classification isoGetTime clock0 overdrawnBatch
              DEFAULT_REORDER_CONFIG)))))).
  reflexivity.
Defined.

(** Well stocked: nothing to order.  255 dispensed over 23 days and out of
    stock: the sum is the double just above 357, and its ceiling is 358. *)
Lemma calculateReorderQuantity_spec_witness :
  let config := DEFAULT_REORDER_CONFIG in
  let result := Binary64.calculateReorderQuantity isoGetTime64 clock0 roundingBatch config in
  let usage := Binary64.calculateAverageDailyUsage isoGetTime64 clock0 roundingBatch None in
  let base := SpecFloat.SFmul 53 1024 usage (Binary64.ofQ (leadTimeDays config)) in
  let x := SpecFloat.SFadd 53 1024
             (SpecFloat.SFmul 53 1024 base (Binary64.ofZ 2))
             (SpecFloat.SFmul 53 1024 base (Binary64.ofQ (safetyStockPercentage config))) in
  let t := Binary64.ofQ (minimumThreshold config) in
  Binary64.calculateReorderQuantity isoGetTime64 clock0 busyBatch config
    = SpecFloat.S754_zero false /\
  Binary64.value x = Some (6280410417856513 # 17592186044416) /\
  Binary64.value (Binary64.ceil x) = Some 358 /\
  (result = Binary64.ceil x \/ result = t) /\
  SpecFloat.SFleb (Binary64.ceil x) result = true /\
  SpecFloat.SFleb t result = true.
Proof.
  intros config result usage base x t.
  pose proof (calculateReorderQuantity_spec isoGetTime64 clock0 busyBatch config) as T0.
  pose proof (calculateReorderQuantity_spec isoGetTime64 clock0 roundingBatch config) as T.
  cbv zeta in T0, T.
  destruct T0 as (_ & _ & T0 & _). destruct T as (_ & _ & _ & T).
  assert (L0 : Binary64.StockStatus.isLowStock
                 (Binary64.getStockStatus isoGetTime64 clock0 busyBatch config) = false)
    by (vm_compute; reflexivity).
  assert (O0 : Binary64.StockStatus.isOutOfStock
                 (Binary64.getStockStatus isoGetTime64 clock0 busyBatch config) = false)
    by (vm_compute; reflexivity).
  assert (O : Binary64.StockStatus.isOutOfStock
                (Binary64.getStockStatus isoGetTime64 clock0 roundingBatch config) = true)
    by (vm_compute; reflexivity).
  specialize (T0 L0 O0). specialize (T (or_intror O)). destruct T as (Hc & _ & Hr & Hm).
  assert (Hx : Binary64.value x = Some (6280410417856513 # 17592186044416))
    by (vm_compute; reflexivity).
  assert (Hv := Hx). vm_compute in Hv. apply Hc in Hv.
  subst config result usage base x t.
  vm_compute in T0, Hv, Hr, Hm |- *.
  exact (conj T0 (conj eq_refl (conj Hv (conj Hr Hm)))).
Defined.

(** Where the doubles and the rationals part.  255 dispensed over 23 days: the
    exact quantity is 357, the sum of the rounded products is
    [357 + 2 ^ -44] and the code returns 358.  45 dispensed over 13 days: the
    exact reorder point is 63, the code returns 64.  A batch whose
    [dateReceived] does not parse has the reorder point NaN in both. *)
Remark binary64_rounding :
  calculateReorderQuantity isoGetTime clock0 roundingBatch DEFAULT_REORDER_CONFIG
    = Num 357 /\
  Binary64.value
    (Binary64.calculateReorderQuantity isoGetTime64 clock0 roundingBatch
       DEFAULT_REORDER_CONFIG) = Some 358 /\
  calculateReorderPoint isoGetTime clock0 creepBatch DEFAULT_REORDER_CONFIG = Num 63 /\
  Binary64.value
    (Binary64.calculateReorderPoint isoGetTime64 clock0 creepBatch DEFAULT_REORDER_CONFIG)
    = Some 64 /\
  Binary64.calculateReorderPoint isoGetTime64 clock0 undatedBatch DEFAULT_REORDER_CONFIG
    = SpecFloat.S754_nan /\
  Binary64.value
    (Binary64.calculateReorderQuantity isoGetTime64 clock0 quietBatch
       {| leadTimeDays := 14; safetyStockPercentage := 3 # 10; minimumThreshold := 100 |})
    = Some 100.
Proof. repeat split; vm_compute; reflexivity. Qed.

(** An expired batch, one that expires in 99 days, one that expires in 364. *)
Lemma expiry_alert_rule_witness :
  (exists a : BranchAlert.t,
     filter isExpiryAlert (emitted isoGetTime clock0 clock0 (branchOf [staleBatch]) staleBatch)
       = [a] /\
     BranchAlert.alertType a = expired /\
     BranchAlert.severity a = high /\
     BranchAlert.daysUntilExpiry a = Some (Num (-6)) /\
     BranchAlert.stockLevel a = Some (Num 40) /\
     BranchAlert.item a = staleBatch /\
     BranchAlert.branchId a = BranchData.userId (branchOf [staleBatch])) /\
  (exists a : BranchAlert.t,
     filter isExpiryAlert (emitted isoGetTime clock0 clock0 (branchOf [nearBatch]) nearBatch)
       = [a] /\
     BranchAlert.alertType a = nearExpiry /\
     BranchAlert.severity a = medium /\
     BranchAlert.daysUntilExpiry a = Some (Num 99) /\
     BranchAlert.stockLevel a = Some (Num 50) /\
     BranchAlert.item a = nearBatch /\
     BranchAlert.branchId a = BranchData.userId (branchOf [nearBatch])) /\
  filter isExpiryAlert (emitted isoGetTime clock0 clock0 (branchOf [quietBatch]) quietBatch)
    = [].
Proof.
  split; [| split].
  - apply (proj1 (proj1 (proj2 (proj2
             (expiry_alert_rule isoGetTime clock0 clock0 (branchOf [staleBatch]) staleBatch)))
             _ eq_refl)).
    reflexivity.
  - apply (proj1 (proj2 (proj2 (proj1 (proj2 (proj2
             (expiry_alert_rule isoGetTime clock0 clock0 (branchOf [nearBatch]) nearBatch)))
             _ eq_refl)))).
    split; discriminate.
  - apply (proj2 (proj2 (proj2 (proj1 (proj2 (proj2
             (expiry_alert_rule isoGetTime clock0 clock0 (branchOf [quietBatch]) quietBatch)))
             _ eq_refl)))).
    reflexivity.
Defined.

(** 40 in stock with a reorder point of 55: a medium alert; 70 in stock:
    none. *)
Lemma lowStock_alert_rule_witness :
  (exists a : BranchAlert.t,
     filter isLowStockAlert (emitted isoGetTime clock0 clock0 (branchOf [halfBatch]) halfBatch)
       = [a] /\
     BranchAlert.alertType a = lowStock /\
     BranchAlert.severity a = medium /\
     BranchAlert.stockLevel a = Some (Num 40) /\
     BranchAlert.daysUntilExpiry a = None /\
     BranchAlert.item a = halfBatch /\
     BranchAlert.branchId a = BranchData.userId (branchOf [halfBatch])) /\
  filter isLowStockAlert (emitted isoGetTime clock0 clock0 (branchOf [busyBatch]) busyBatch)
    = [].
Proof.
  split.
  - apply (proj1 (proj2 (proj1 (proj1 lowStock_alert_rule isoGetTime clock0 clock0
                                  (branchOf [halfBatch]) halfBatch) 55 eq_refl))).
    + reflexivity.
    + discriminate.
    + discriminate.
  - apply (proj2 (proj2 (proj1 (proj1 lowStock_alert_rule isoGetTime clock0 clock0
                                  (branchOf [busyBatch]) busyBatch) 55 eq_refl))).
    right. reflexivity.
Defined.

(** Four alerts of one batch, in the order of the example. *)
Lemma alert_feed_sorted_witness :
  let a1 := mkAlert (branchOf [quietBatch]) quietBatch lowStock medium None (Some (Num 5)) in
  let a2 := mkAlert (branchOf [quietBatch]) quietBatch expired high
              (Some (Num (-6))) (Some (Num 5)) in
  let a3 := mkAlert (branchOf [quietBatch]) quietBatch critical high
              (Some (Num 9)) (Some (Num 5)) in
  let a4 := mkAlert (branchOf [quietBatch]) quietBatch nearExpiry low
              (Some (Num 99)) (Some (Num 5)) in
  sortAlerts [a1; a2; a3; a4] = [a2; a3; a1; a4].
Proof.
  intros a1 a2 a3 a4.
  apply (proj1 (proj2 (proj2 (proj2 alert_feed_sorted)))); reflexivity.
Defined.

(** A batch labelled ["n/a"], low on stock: its only alert is lowStock. *)
Lemma unparseable_expiry_no_alert_witness :
  filter isExpiryAlert
    (emitted isoGetTime clock0 clock0 (branchOf [unlabelledBatch]) unlabelledBatch) = [] /\
  BranchAlert.alertType
    (mkAlert (branchOf [unlabelledBatch]) unlabelledBatch lowStock high None (Some (Num 5)))
    = lowStock.
Proof.
  split.
  - apply (proj1 (unparseable_expiry_no_alert isoGetTime clock0 clock0)).
    reflexivity.
  - apply (proj2 (unparseable_expiry_no_alert isoGetTime clock0 clock0)
             [branchOf [unlabelledBatch]]).
    + left. reflexivity.
    + reflexivity.
Defined.

(** * Further properties of the reorder-point utilities *)

Section ReorderPointMore.

Variable getTime : string -> number.

Lemma usage_is_zero_or_quotient (today : Z) (batch : InventoryBatch) (t : Q) :
  getTime (dateReceived batch) = Num t ->
  calculateAverageDailyUsage getTime today batch None = Num 0 \/
  exists d : Q,
    0 < d /\ ~ quantityDispensed batch == 0 /\
    daysBetween (ofZ today) (Num t) = Num d /\
    calculateAverageDailyUsage getTime today batch None
      = Num (quantityDispensed batch / d).
Proof.
  intro Ht.
  destruct (calculateAverageDailyUsage_cases getTime today batch)
    as [E | [(d & Hd & Hpos & Hnz & E) | (E & _)]].
  - left. exact E.
  - right. exists d. rewrite Ht in Hd. auto.
  - congruence.
Qed.

(** X1. The suggested quantity is always a number, also when the usage is NaN;
    when a reorder is needed it is at least the minimum threshold, and with
    a positive threshold it is 0 only when no reorder is needed. *)
Theorem calculateReorderQuantity_floor
  (today : Z) (batch : InventoryBatch) (config : ReorderPointConfig) :
  let status := getStockStatus getTime today batch config in
  let needed := StockStatus.isLowStock status || StockStatus.isOutOfStock status in
  (exists q : Q, calculateReorderQuantity getTime today batch config = Num q) /\
  (needed = true ->
     nge (calculateReorderQuantity getTime today batch config)
         (Num (minimumThreshold config)) = true) /\
  (0 < minimumThreshold config ->
     neq (calculateReorderQuantity getTime today batch config) (Num 0) = negb needed).
Proof.
  intros status needed. unfold calculateReorderQuantity. fold status.
  assert (F : exists q : Q,
    nmax (nceil
            (nadd (nmul (nmul (if ngt (StockStatus.avgDailyUsage status) (Num 0)
                               then StockStatus.avgDailyUsage status else Num 1)
                              (Num (leadTimeDays config))) (Num 2))
                  (nmul (nmul (if ngt (StockStatus.avgDailyUsage status) (Num 0)
                               then StockStatus.avgDailyUsage status else Num 1)
                              (Num (leadTimeDays config)))
                        (Num (safetyStockPercentage config)))))
         (Num (minimumThreshold config))
    = Num (Qmax_bool q (minimumThreshold config))).
  { destruct (StockStatus.avgDailyUsage status) as [u |]; cbn.
    - destruct (Qlt_bool 0 u); eexists; reflexivity.
    - eexists; reflexivity. }
  destruct F as [q F]. rewrite F. subst needed.
  destruct (StockStatus.isLowStock status), (StockStatus.isOutOfStock status); cbn;
    (split; [eexists; reflexivity |]); split;
    try (intros _; apply Qle_bool_iff; apply Qmax_bool_ge_r);
    try discriminate; try reflexivity;
    intro Hm; apply Qeq_bool_false; intro E;
    pose proof (Qmax_bool_ge_r q (minimumThreshold config)) as G;
    rewrite E in G; exact (Qlt_not_le _ _ Hm G).
Qed.

(** X2. [daysOfStockRemaining] is always a whole number, never NaN, also when
    the usage is NaN.  Without a positive usage it is 999 for a positive
    stock and 0 otherwise; it is 0 for a batch that is out of stock, whatever
    the usage; and it has the sign of the stock: 0 or more when the stock is,
    0 or less when the stock is. *)
Theorem daysOfStockRemaining_sign
  (today : Z) (batch : InventoryBatch) (config : ReorderPointConfig) :
  let status := getStockStatus getTime today batch config in
  let stock := beginningInventory batch + quantityReceived batch - quantityDispensed batch in
  let days := StockStatus.daysOfStockRemaining status in
  (exists k : Z, days = Num (inject_Z k)) /\
  (ngt (StockStatus.avgDailyUsage status) (Num 0) = false ->
     (0 < stock -> days = Num 999) /\ (stock <= 0 -> days = Num 0)) /\
  (stock == 0 -> days = Num 0) /\
  (0 <= stock -> nge days (Num 0) = true) /\
  (stock <= 0 -> nle days (Num 0) = true).
Proof.
  intros status stock days. unfold days.
  cbn [StockStatus.avgDailyUsage StockStatus.daysOfStockRemaining status getStockStatus].
  rewrite stockOf_value. fold stock.
  generalize (calculateAverageDailyUsage getTime today batch None). intro usage.
  change (ngt (Num stock) (Num 0)) with (Qlt_bool 0 stock).
  assert (S1 : 0 < stock -> Qlt_bool 0 stock = true) by (apply Qlt_bool_iff).
  assert (S0 : stock <= 0 -> Qlt_bool 0 stock = false) by (apply Qlt_bool_false).
  destruct (ngt usage (Num 0)) eqn:U.
  - destruct usage as [u |]; [| discriminate U].
    change (ngt (Num u) (Num 0)) with (Qlt_bool 0 u) in U. apply Qlt_bool_iff in U.
    assert (E0 : Qeq_bool u 0 = false).
    { apply Qeq_bool_false. intro Z0. rewrite Z0 in U. exact (Qlt_irrefl _ U). }
    unfold ndiv. rewrite E0. cbn [nfloor].
    assert (Hnz : ~ u == 0) by (intro Z0; rewrite Z0 in U; exact (Qlt_irrefl _ U)).
    assert (P : 0 <= stock -> (0 <= Qfloor (stock / u))%Z).
    { intro H. change 0%Z with (Qfloor 0). apply Qfloor_resp_le.
      apply Qle_shift_div_l; [exact U | lra]. }
    assert (N : stock <= 0 -> (Qfloor (stock / u) <= 0)%Z).
    { intro H. change 0%Z with (Qfloor 0). apply Qfloor_resp_le.
      apply Qle_shift_div_r; [exact U | lra]. }
    split; [eexists; reflexivity |]. split; [discriminate |]. split; [| split].
    + intro H. assert (Z0 : Qfloor (stock / u) = 0%Z).
      { apply Z.le_antisymm; [apply N | apply P]; rewrite H; apply Qle_refl. }
      rewrite Z0. reflexivity.
    + intro H. unfold nge, nle, ncmp. apply Qle_bool_iff.
      change 0 with (inject_Z 0). rewrite <- Zle_Qle. apply P. exact H.
    + intro H. unfold nle, ncmp. apply Qle_bool_iff.
      change 0 with (inject_Z 0). rewrite <- Zle_Qle. apply N. exact H.
  - split; [destruct (Qlt_bool 0 stock); eexists; reflexivity |].
    split; [intros _; split; intro H; [rewrite (S1 H) | rewrite (S0 H)]; reflexivity |].
    split; [| split].
    + intro H. rewrite S0 by (rewrite H; apply Qle_refl). reflexivity.
    + intros _. destruct (Qlt_bool 0 stock); reflexivity.
    + intro H. rewrite (S0 H). reflexivity.
Qed.

(** X3. The optional argument [daysSinceReceived] of the estimator: a positive
    count replaces the dates altogether, a negative one gives 0, and a count
    of 0 (or NaN) is ignored in favour of the dates. *)
Theorem calculateAverageDailyUsage_daysSinceReceived
  (today : Z) (batch : InventoryBatch) :
  ~ quantityDispensed batch == 0 ->
  (forall d : Q, 0 < d ->
     calculateAverageDailyUsage getTime today batch (Some (Num d))
       = Num (quantityDispensed batch / d)) /\
  (forall d : Q, d < 0 ->
     calculateAverageDailyUsage getTime today batch (Some (Num d)) = Num 0) /\
  (forall d : Q, d == 0 ->
     calculateAverageDailyUsage getTime today batch (Some (Num d))
       = calculateAverageDailyUsage getTime today batch None) /\
  calculateAverageDailyUsage getTime today batch (Some NaN)
    = calculateAverageDailyUsage getTime today batch None.
Proof.
  intro Hnz. unfold calculateAverageDailyUsage.
  destruct (totalDispensed_nonzero _ Hnz) as [-> ->].
  repeat split.
  - intros d Hd.
    assert (E0 : Qeq_bool d 0 = false).
    { apply Qeq_bool_false. intro Z0. rewrite Z0 in Hd. exact (Qlt_irrefl _ Hd). }
    assert (E1 : Qle_bool d 0 = false) by (apply Qle_bool_false; exact Hd).
    unfold nor_opt, nor, truthy. rewrite E0. cbn [negb].
    unfold nle, ndiv, ncmp. rewrite E1, E0. reflexivity.
  - intros d Hd.
    assert (E0 : Qeq_bool d 0 = false).
    { apply Qeq_bool_false. intro Z0. rewrite Z0 in Hd. exact (Qlt_irrefl _ Hd). }
    assert (E1 : Qle_bool d 0 = true) by (apply Qle_bool_iff; lra).
    unfold nor_opt, nor, truthy. rewrite E0. cbn [negb].
    unfold nle, ncmp. rewrite E1. reflexivity.
  - intros d Hd. unfold nor_opt, nor, truthy.
    rewrite (Qeq_eq_bool _ _ Hd). reflexivity.
Qed.

Lemma reorderPoint_value_mono (u1 u2 : Q) (config : ReorderPointConfig) :
  0 <= leadTimeDays config -> 0 <= safetyStockPercentage config -> u1 <= u2 ->
  Qmax_bool (reorderPointOf u1 config) (minimumThreshold config)
    <= Qmax_bool (reorderPointOf u2 config) (minimumThreshold config).
Proof.
  intros HL HS Hu. apply Qmax_bool_mono. unfold reorderPointOf.
  rewrite <- Zle_Qle. apply Qceiling_resp_le.
  set (L := leadTimeDays config) in *. set (S := safetyStockPercentage config) in *.
  assert (H1 : u1 * L <= u2 * L) by (apply Qmult_le_compat_r; assumption).
  assert (H2 : u1 * L * S <= u2 * L * S) by (apply Qmult_le_compat_r; assumption).
  lra.
Qed.

(** X4. Dispensing more from a batch never lowers its reorder point: for two
    batches received on the same parseable date, a valid configuration and
    dispensed quantities [0 <= q1 <= q2]. *)
Theorem calculateReorderPoint_monotone_dispensed
  (today : Z) (b1 b2 : InventoryBatch) (config : ReorderPointConfig) (t : Q) :
  dateReceived b1 = dateReceived b2 -> getTime (dateReceived b1) = Num t ->
  0 <= quantityDispensed b1 -> quantityDispensed b1 <= quantityDispensed b2 ->
  0 <= leadTimeDays config -> 0 <= safetyStockPercentage config ->
  nle (calculateReorderPoint getTime today b1 config)
      (calculateReorderPoint getTime today b2 config) = true.
Proof.
  intros Hdate Ht Hq1 Hq12 HL HS.
  assert (Ht2 : getTime (dateReceived b2) = Num t) by (rewrite <- Hdate; exact Ht).
  destruct (usage_is_zero_or_quotient today b1 t Ht)
    as [E1 | (d & Hd & Hnz1 & Hdays & E1)].
  - rewrite (calculateReorderPoint_no_usage getTime today b1 config E1).
    exact (calculateReorderPoint_floor_parsed getTime today b2 config t Ht2).
  - assert (Hpos1 : 0 < quantityDispensed b1).
    { destruct (Qlt_le_dec 0 (quantityDispensed b1)) as [P | N]; [exact P |].
      exfalso. apply Hnz1. apply Qle_antisym; assumption. }
    assert (Hpos2 : 0 < quantityDispensed b2) by (eapply Qlt_le_trans; eassumption).
    assert (Hnz2 : ~ quantityDispensed b2 == 0).
    { intro Z0. rewrite Z0 in Hpos2. exact (Qlt_irrefl _ Hpos2). }
    assert (Hdays2 : daysBetween (ofZ today) (getTime (dateReceived b2)) = Num d)
      by (rewrite Ht2; exact Hdays).
    pose proof (usage_quotient getTime today b2 d Hnz2 Hdays2 Hd) as E2.
    assert (Hinv : 0 < / d) by (apply Qinv_lt_0_compat; exact Hd).
    assert (U1 : 0 < quantityDispensed b1 / d) by (apply Qmult_lt_0_compat; assumption).
    assert (U2 : 0 < quantityDispensed b2 / d) by (apply Qmult_lt_0_compat; assumption).
    assert (U12 : quantityDispensed b1 / d <= quantityDispensed b2 / d).
    { unfold Qdiv. apply Qmult_le_compat_r; [assumption | lra]. }
    rewrite (calculateReorderPoint_usage getTime today b1 config _ E1)
      by (intro Z0; rewrite Z0 in U1; exact (Qlt_irrefl _ U1)).
    rewrite (calculateReorderPoint_usage getTime today b2 config _ E2)
      by (intro Z0; rewrite Z0 in U2; exact (Qlt_irrefl _ U2)).
    cbn [nle ncmp]. apply Qle_bool_iff.
    apply reorderPoint_value_mono; assumption.
Qed.

Lemma reorderQuantity_value
  (today : Z) (batch : InventoryBatch) (config : ReorderPointConfig) (u : Q) :
  let status := getStockStatus getTime today batch config in
  StockStatus.isLowStock status || StockStatus.isOutOfStock status = true ->
  calculateAverageDailyUsage getTime today batch None = Num u ->
  calculateReorderQuantity getTime today batch config
    = Num (Qmax_bool (orderQuantityOf (if Qlt_bool 0 u then u else 1) config)
                     (minimumThreshold config)).
Proof.
  intros status Hneed Hu. unfold calculateReorderQuantity. fold status.
  assert (G : negb (StockStatus.isLowStock status)
              && negb (StockStatus.isOutOfStock status) = false).
  { rewrite <- negb_orb, Hneed. reflexivity. }
  rewrite G. change (StockStatus.avgDailyUsage status)
    with (calculateAverageDailyUsage getTime today batch None).
  rewrite Hu. change (ngt (Num u) (Num 0)) with (Qlt_bool 0 u).
  destruct (Qlt_bool 0 u); reflexivity.
Qed.

(** X5. When a reorder is needed, the suggested quantity is at least the reorder
    point: for a batch whose [dateReceived] parses and a valid
    configuration. *)
Theorem reorderQuantity_covers_reorderPoint
  (today : Z) (batch : InventoryBatch) (config : ReorderPointConfig) (t : Q) :
  let status := getStockStatus getTime today batch config in
  getTime (dateReceived batch) = Num t ->
  0 <= leadTimeDays config -> 0 <= safetyStockPercentage config ->
  StockStatus.isLowStock status || StockStatus.isOutOfStock status = true ->
  nle (calculateReorderPoint getTime today batch config)
      (calculateReorderQuantity getTime today batch config) = true.
Proof.
  intros status Ht HL HS Hneed.
  set (L := leadTimeDays config) in *. set (S := safetyStockPercentage config) in *.
  destruct (usage_is_zero_or_quotient today batch t Ht)
    as [E | (d & Hd & Hnz & _ & E)].
  - rewrite (calculateReorderPoint_no_usage getTime today batch config E).
    rewrite (reorderQuantity_value today batch config 0 Hneed E).
    cbn [nle ncmp]. apply Qle_bool_iff. apply Qmax_bool_ge_r.
  - set (u := quantityDispensed batch / d) in *.
    assert (Hu : ~ u == 0).
    { unfold u. intro Z0. apply Hnz.
      assert (X : quantityDispensed batch == quantityDispensed batch / d * d).
      { field. intro D0. rewrite D0 in Hd. exact (Qlt_irrefl _ Hd). }
      rewrite X, Z0. ring. }
    rewrite (calculateReorderPoint_usage getTime today batch config u E Hu).
    rewrite (reorderQuantity_value today batch config u Hneed E).
    cbn [nle ncmp]. apply Qle_bool_iff. apply Qmax_bool_mono.
    unfold reorderPointOf, orderQuantityOf. fold L S.
    rewrite <- Zle_Qle. apply Qceiling_resp_le.
    destruct (Qlt_bool 0 u) eqn:B.
    + apply Qlt_bool_iff in B.
      assert (H0 : 0 <= u * L) by (apply Qmult_le_0_compat; [lra | assumption]).
      lra.
    + apply Qlt_bool_false in B.
      assert (H1 : 0 <= (- u) * L) by (apply Qmult_le_0_compat; [lra | assumption]).
      assert (H2 : 0 <= (- u) * L * S) by (apply Qmult_le_0_compat; assumption).
      assert (H3 : 0 <= L * S) by (apply Qmult_le_0_compat; assumption).
      lra.
Qed.

End ReorderPointMore.

(** * Further properties of the alert feed *)

Section FeedMore.

Variable getTime : string -> number.

Lemma emitted_shape (now today : Z) (branch : BranchData.t) (item : InventoryBatch)
  (a : BranchAlert.t) :
  In a (emitted getTime now today branch item) ->
  wellRanked a /\
  a = mkAlert branch item (BranchAlert.alertType a) (BranchAlert.severity a)
        (if isLowStockAlert a then None
         else Some (daysBetween (getTime (expirationDate item)) (ofZ now)))
        (Some (stockOf item)).
Proof.
  unfold emitted, processItem, push. cbv zeta.
  split_ifs; cbn; intuition (subst; cbn; auto; discriminate).
Qed.

Lemma emitted_length (now today : Z) (branch : BranchData.t) (item : InventoryBatch) :
  (List.length (emitted getTime now today branch item) <= 2)%nat.
Proof.
  unfold emitted, processItem, push. cbv zeta. split_ifs; cbn; lia.
Qed.

Lemma flat_map_length_le {A B : Type} (f : A -> list B) (n : nat) (l : list A) :
  (forall x : A, (List.length (f x) <= n)%nat) ->
  (List.length (flat_map f l) <= n * List.length l)%nat.
Proof.
  intro H. induction l as [| x l IH]; cbn; [lia |].
  rewrite length_app. specialize (H x). lia.
Qed.

(** X6. Every alert of the feed comes from one item of one branch of the input:
    its [branchId], [branchName] and [userName] are the user id, the branch
    name and the user name of that branch, its [item] is that item, its
    [stockLevel] is the stock of the item; a lowStock alert has no
    [daysUntilExpiry], every other alert belongs to an item whose expiration
    date parses and carries the whole days from now to that date; and its
    severity is never [low]. *)
Theorem feed_provenance (now today : Z) (branchData : list BranchData.t)
  (a : BranchAlert.t) :
  In a (generateBranchAlerts getTime now today branchData) ->
  exists (branch : BranchData.t) (item : InventoryBatch),
    In branch branchData /\ In item (BranchData.inventory branch) /\
    BranchAlert.branchId a = BranchData.userId branch /\
    BranchAlert.branchName a = BranchData.branchName branch /\
    BranchAlert.userName a = BranchData.userName branch /\
    BranchAlert.item a = item /\
    BranchAlert.stockLevel a
      = Some (Num (beginningInventory item + quantityReceived item
                   - quantityDispensed item)) /\
    (BranchAlert.alertType a = lowStock -> BranchAlert.daysUntilExpiry a = None) /\
    (BranchAlert.alertType a <> lowStock ->
       exists t : Q,
         getTime (expirationDate item) = Num t /\
         BranchAlert.daysUntilExpiry a
           = Some (Num (inject_Z (Qfloor ((t - inject_Z now) / 86400000))))) /\
    BranchAlert.severity a <> low.
Proof.
  intro Ha. apply generateBranchAlerts_In in Ha.
  destruct Ha as (branch & item & Hb & Hi & Ha).
  exists branch, item. destruct (emitted_shape _ _ _ _ _ Ha) as [W E].
  split; [exact Hb |]. split; [exact Hi |].
  assert (Hlow : isLowStockAlert a = true <-> BranchAlert.alertType a = lowStock).
  { unfold isLowStockAlert. destruct (BranchAlert.alertType a); intuition congruence. }
  pose proof (f_equal BranchAlert.branchId E) as F1.
  pose proof (f_equal BranchAlert.branchName E) as F2.
  pose proof (f_equal BranchAlert.userName E) as F3.
  pose proof (f_equal BranchAlert.item E) as F4.
  pose proof (f_equal BranchAlert.stockLevel E) as F5.
  pose proof (f_equal BranchAlert.daysUntilExpiry E) as F6.
  cbn [mkAlert BranchAlert.branchId BranchAlert.branchName BranchAlert.userName
       BranchAlert.item BranchAlert.stockLevel BranchAlert.daysUntilExpiry] in F1, F2, F3, F4, F5, F6.
  rewrite stockOf_value in F5.
  split; [exact F1 |]. split; [exact F2 |]. split; [exact F3 |]. split; [exact F4 |].
  split; [exact F5 |]. split; [| split].
  - intro Hty. apply Hlow in Hty. rewrite Hty in F6. exact F6.
  - intro Hty.
    assert (Hexp : isExpiryAlert a = true).
    { unfold isExpiryAlert. destruct (BranchAlert.alertType a); congruence. }
    destruct (getTime (expirationDate item)) as [t |] eqn:Ht.
    + exists t. split; [reflexivity |].
      assert (L : isLowStockAlert a = false).
      { apply not_true_is_false. intro L. apply Hlow in L. contradiction. }
      rewrite L in F6. rewrite F6, daysBetween_value. reflexivity.
    + exfalso.
      assert (Hin : In a (filter isExpiryAlert (emitted getTime now today branch item)))
        by (apply filter_In; split; assumption).
      rewrite (no_expiry_alert_NaN getTime now today branch item Ht) in Hin. exact Hin.
  - unfold wellRanked in W. destruct (BranchAlert.alertType a); congruence.
Qed.

(** X8. The feed holds at most two alerts per item, and none without items. *)
Theorem feed_size (now today : Z) (branchData : list BranchData.t) :
  (List.length (generateBranchAlerts getTime now today branchData)
   <= 2 * List.length (flat_map BranchData.inventory branchData))%nat.
Proof.
  unfold generateBranchAlerts, sortAlerts.
  rewrite <- (Permutation_length (sortBy_perm compareAlerts _)).
  rewrite collectAlerts_flat_map.
  induction branchData as [| branch rest IH]; cbn; [lia |].
  rewrite !length_app.
  pose proof (flat_map_length_le (emitted getTime now today branch) 2
                (BranchData.inventory branch) (emitted_length now today branch)).
  lia.
Qed.

Lemma filter_none {A : Type} (p : A -> bool) (l : list A) :
  Forall (fun x => p x = false) l -> filter p l = [].
Proof.
  induction 1 as [| x l Hx _ IH]; cbn; [reflexivity |]. rewrite Hx. exact IH.
Qed.

Lemma alertLe_type_order (a b : BranchAlert.t) :
  wellRanked a -> wellRanked b -> alertLe a b ->
  match BranchAlert.alertType a, BranchAlert.alertType b with
  | critical, expired => False
  | lowStock, (expired | critical) => False
  | nearExpiry, (expired | critical | lowStock) => False
  | _, _ => True
  end.
Proof.
  unfold wellRanked, alertLe.
  destruct (BranchAlert.alertType a), (BranchAlert.alertType b),
    (BranchAlert.severity a), (BranchAlert.severity b);
    cbn; intros Wa Wb H; trivial; try congruence; try lia.
Qed.

Lemma sorted_feed_grouped (l : list BranchAlert.t) :
  StronglySorted alertLe l -> Forall wellRanked l ->
  l = expiredAlerts l ++ criticalAlerts l ++ lowStockAlerts l ++ nearExpiryAlerts l.
Proof.
  induction 1 as [| a l Hs IH Ha]; intro W; [reflexivity |].
  inversion W as [| ? ? Wa Wl]; subst. specialize (IH Wl).
  assert (T : Forall (fun b =>
                match BranchAlert.alertType a, BranchAlert.alertType b with
                | critical, expired => False
                | lowStock, (expired | critical) => False
                | nearExpiry, (expired | critical | lowStock) => False
                | _, _ => True
                end) l).
  { rewrite Forall_forall in *. intros b Hb.
    apply alertLe_type_order; auto. }
  unfold expiredAlerts, criticalAlerts, lowStockAlerts, nearExpiryAlerts, alertsOfType
    in *.
  assert (N : forall ty : AlertType,
            (forall b : BranchAlert.t,
               match BranchAlert.alertType a, BranchAlert.alertType b with
               | critical, expired => False
               | lowStock, (expired | critical) => False
               | nearExpiry, (expired | critical | lowStock) => False
               | _, _ => True
               end -> alertType_eqb (BranchAlert.alertType b) ty = false) ->
            filter (fun b => alertType_eqb (BranchAlert.alertType b) ty) l = []).
  { intros ty H. apply filter_none. eapply Forall_impl; [| exact T]. exact H. }
  cbn [filter]. destruct (BranchAlert.alertType a) eqn:Ety; cbn.
  - f_equal. exact IH.
  - rewrite (N expired) in *
      by (intro b; destruct (BranchAlert.alertType b); first [contradiction | reflexivity]).
    cbn. f_equal. exact IH.
  - rewrite (N expired), (N critical), (N lowStock) in *
      by (intro b; destruct (BranchAlert.alertType b); first [contradiction | reflexivity]).
    cbn. f_equal. exact IH.
  - rewrite (N expired), (N critical) in *
      by (intro b; destruct (BranchAlert.alertType b); first [contradiction | reflexivity]).
    cbn. f_equal. exact IH.
Qed.

Lemma feed_wellRanked (now today : Z) (branchData : list BranchData.t) :
  Forall wellRanked (generateBranchAlerts getTime now today branchData).
Proof.
  apply Forall_forall. intros a Ha. apply generateBranchAlerts_In in Ha.
  destruct Ha as (branch & item & _ & _ & Ha).
  exact (proj1 (emitted_shape _ _ _ _ _ Ha)).
Qed.

(** X7. Although the feed is sorted by severity first, it comes out grouped by
    type: all expired alerts, then the critical ones, then the lowStock ones,
    then the nearExpiry ones; the four lists of the summary cards are its
    consecutive segments and their sizes add up to its size. *)
Theorem feed_grouped_by_type (now today : Z) (branchData : list BranchData.t) :
  let feed := generateBranchAlerts getTime now today branchData in
  feed = expiredAlerts feed ++ criticalAlerts feed
         ++ lowStockAlerts feed ++ nearExpiryAlerts feed /\
  (List.length (expiredAlerts feed) + List.length (criticalAlerts feed)
   + List.length (lowStockAlerts feed) + List.length (nearExpiryAlerts feed)
   = List.length feed)%nat.
Proof.
  intro feed.
  assert (G : feed = expiredAlerts feed ++ criticalAlerts feed
                     ++ lowStockAlerts feed ++ nearExpiryAlerts feed).
  { apply sorted_feed_grouped; [apply sortAlerts_sorted | apply feed_wellRanked]. }
  split; [exact G |].
  rewrite G at 5. rewrite !length_app. lia.
Qed.

End FeedMore.

(** * The staff lists of [AlertsView] *)

Section SortByOn.

Context {A : Type} (cmp : A -> A -> Z) (le : A -> A -> Prop) (P : A -> Prop).

Hypothesis cmp_le : forall x y : A, P x -> P y -> ((cmp x y <= 0)%Z <-> le x y).
Hypothesis le_total : forall x y : A, P x -> P y -> le x y \/ le y x.
Hypothesis le_trans :
  forall x y z : A, P x -> P y -> P z -> le x y -> le y z -> le x z.

Lemma insertBy_sorted_on (x : A) (l : list A) :
  P x -> Forall P l -> StronglySorted le l -> StronglySorted le (insertBy cmp x l).
Proof.
  intros Px Pl Hs. induction Hs as [| y l Hs IH Hy]; cbn.
  - constructor; constructor.
  - inversion Pl as [| ? ? Py Pl']; subst.
    destruct (cmp x y <=? 0)%Z eqn:E.
    + apply Z.leb_le in E. apply cmp_le in E; trivial. constructor.
      * constructor; assumption.
      * constructor; [exact E |].
        rewrite Forall_forall in *. intros z Hz. apply (le_trans x y z); auto.
    + apply Z.leb_gt in E. constructor; [apply IH; exact Pl' |].
      assert (Hyx : le y x).
      { destruct (le_total x y Px Py) as [L | L]; [| exact L].
        apply cmp_le in L; trivial. lia. }
      eapply Permutation_Forall; [apply insertBy_perm |].
      constructor; assumption.
Qed.

Lemma sortBy_sorted_on (l : list A) :
  Forall P l -> StronglySorted le (sortBy cmp l).
Proof.
  induction 1 as [| x l Px Pl IH]; cbn.
  - constructor.
  - apply insertBy_sorted_on; trivial.
    eapply Permutation_Forall; [apply sortBy_perm | exact Pl].
Qed.

End SortByOn.

Lemma comparatorSign_le (x y : Q) :
  (comparatorSign (nsub (Num x) (Num y)) <= 0)%Z <-> x <= y.
Proof.
  cbn [comparatorSign nsub lift2]. rewrite Z.sgn_nonpos.
  assert (E : (Qnum (x - y) <= 0)%Z <-> x - y <= 0).
  { unfold Qle. cbn [Qnum Qden]. rewrite Z.mul_1_r. reflexivity. }
  rewrite E. split; intro H; lra.
Qed.

(** Ordering of items by a numeric key that is a number on every item of
    the list. *)
Lemma sortBy_numeric_key {A : Type} (key : A -> number) (l : list A) :
  Forall (fun a => key a <> NaN) l ->
  StronglySorted (fun a b => nle (key a) (key b) = true)
    (sortBy (fun a b => comparatorSign (nsub (key a) (key b))) l).
Proof.
  apply (sortBy_sorted_on _ _ (fun a => key a <> NaN)).
  - intros x y Px Py. destruct (key x) as [p |]; [| congruence].
    destruct (key y) as [q |]; [| congruence].
    rewrite comparatorSign_le. cbn [nle ncmp]. symmetry. apply Qle_bool_iff.
  - intros x y Px Py. destruct (key x) as [p |]; [| congruence].
    destruct (key y) as [q |]; [| congruence].
    cbn [nle ncmp]. rewrite !Qle_bool_iff.
    destruct (Qlt_le_dec q p); [right; lra | left; assumption].
  - intros x y z Px Py Pz. destruct (key x) as [p |]; [| congruence].
    destruct (key y) as [q |]; [| congruence].
    destruct (key z) as [r |]; [| congruence].
    cbn [nle ncmp]. rewrite !Qle_bool_iff. intros; lra.
Qed.

Section StaffLists.

Variable getTime : string -> number.
Variable now : Z.

Let days (item : InventoryBatch) : number :=
  StaffAlerts.getDaysUntilExpiry getTime now (expirationDate item).

(** The staff view computes the same day count and the same stock as the
    feed generator. *)
Lemma staff_days_eq (item : InventoryBatch) :
  days item = daysBetween (getTime (expirationDate item)) (ofZ now).
Proof. reflexivity. Qed.

Lemma nlt_number (a b : number) : nlt a b = true -> a <> NaN.
Proof. destruct a; [discriminate | intro H; discriminate H]. Qed.

Lemma ngt_number (a b : number) : ngt a b = true -> a <> NaN.
Proof. destruct a, b; cbn; intro H; congruence. Qed.

(** X12. The expired list of the staff view holds exactly the items with a
    negative day count, most overdue first; an item whose expiration date
    does not parse is not in it. *)
Theorem staff_sortedExpired (currentInventory : list InventoryBatch) :
  let sorted := StaffAlerts.sortedExpired getTime now currentInventory in
  (forall item : InventoryBatch,
     In item sorted <-> In item currentInventory /\ nlt (days item) (Num 0) = true) /\
  StronglySorted (fun a b => nle (days a) (days b) = true) sorted /\
  Permutation (StaffAlerts.expiredItems getTime now currentInventory) sorted /\
  (forall item : InventoryBatch,
     getTime (expirationDate item) = NaN -> ~ In item sorted).
Proof.
  intro sorted.
  assert (M : forall item : InventoryBatch,
            In item sorted <-> In item currentInventory /\ nlt (days item) (Num 0) = true).
  { intro item. unfold sorted, StaffAlerts.sortedExpired.
    rewrite sortBy_In. unfold StaffAlerts.expiredItems. rewrite filter_In. reflexivity. }
  split; [exact M |]. split; [| split].
  - apply (sortBy_numeric_key days). apply Forall_forall. intros item Hi.
    unfold StaffAlerts.expiredItems in Hi. apply filter_In in Hi.
    destruct Hi as [_ Hi]. exact (nlt_number _ _ Hi).
  - apply sortBy_perm.
  - intros item Hn Hin. apply M in Hin. destruct Hin as [_ Hd].
    unfold days, StaffAlerts.getDaysUntilExpiry in Hd. rewrite Hn in Hd. discriminate Hd.
Qed.

Lemma near_split (d : number) :
  (ngt d (Num 30) && nle d (Num 90)) || (ngt d (Num 90) && nle d (Num 180))
    = ngt d (Num 30) && nle d (Num 180).
Proof.
  destruct d as [q |]; [| reflexivity]. cbn [ngt nlt nle ncmp].
  destruct (Qlt_bool 30 q) eqn:A, (Qle_bool q 90) eqn:B,
    (Qlt_bool 90 q) eqn:C, (Qle_bool q 180) eqn:D; cbn; try reflexivity; exfalso;
    rewrite ?Qlt_bool_iff, ?Qlt_bool_false, ?Qle_bool_iff, ?Qle_bool_false in *; lra.
Qed.

(** X13. The near-expiry list of the staff view holds exactly the items with a
    day count above 30 and at most 180, soonest first.  An item that expires
    in 0 to 30 days is in neither the expired nor the near-expiry list. *)
Theorem staff_sortedNear90 (currentInventory : list InventoryBatch) :
  let sorted := StaffAlerts.sortedNear90 getTime now currentInventory in
  (forall item : InventoryBatch,
     In item sorted <->
     In item currentInventory /\
     ngt (days item) (Num 30) && nle (days item) (Num 180) = true) /\
  StronglySorted (fun a b => nle (days a) (days b) = true) sorted /\
  (forall item : InventoryBatch,
     nge (days item) (Num 0) && nle (days item) (Num 30) = true ->
     ~ In item sorted /\
     ~ In item (StaffAlerts.sortedExpired getTime now currentInventory)).
Proof.
  intro sorted.
  assert (M : forall item : InventoryBatch,
            In item sorted <->
            In item currentInventory /\
            ngt (days item) (Num 30) && nle (days item) (Num 180) = true).
  { intro item. unfold sorted, StaffAlerts.sortedNear90.
    rewrite sortBy_In, in_app_iff.
    unfold StaffAlerts.nearExpiry60, StaffAlerts.nearExpiry90.
    rewrite !filter_In. cbv zeta. fold (days item).
    rewrite <- near_split, orb_true_iff. tauto. }
  split; [exact M |]. split.
  - apply (sortBy_numeric_key days). apply Forall_forall. intros item Hi.
    apply in_app_iff in Hi.
    unfold StaffAlerts.nearExpiry60, StaffAlerts.nearExpiry90 in Hi.
    rewrite !filter_In in Hi. cbv zeta in Hi. fold (days item) in Hi.
    destruct Hi as [[_ Hi] | [_ Hi]]; apply andb_true_iff in Hi;
      exact (ngt_number _ _ (proj1 Hi)).
  - intros item Hc. apply andb_true_iff in Hc. destruct Hc as [H0 H30].
    split; intro Hin.
    + apply M in Hin. destruct Hin as [_ Hd]. apply andb_true_iff in Hd.
      destruct Hd as [Hgt _]. destruct (days item) as [q |]; [| discriminate].
      cbn [ngt nlt nle ncmp] in *.
      rewrite ?Qlt_bool_iff, ?Qle_bool_iff in *. lra.
    + unfold StaffAlerts.sortedExpired in Hin. rewrite sortBy_In in Hin.
      unfold StaffAlerts.expiredItems in Hin. apply filter_In in Hin.
      cbv zeta in Hin. fold (days item) in Hin. destruct Hin as [_ Hd].
      destruct (days item) as [q |]; [| discriminate].
      cbn [nge nlt nle ncmp] in *.
      rewrite ?Qlt_bool_iff, ?Qle_bool_iff in *. lra.
Qed.

End StaffLists.

Section Counts.

Variable getTime : string -> number.

Lemma stock_is_number (item : InventoryBatch) : StaffAlerts.getStockOnHand item <> NaN.
Proof. intro H. discriminate H. Qed.

(** X14. The low-stock list of the staff view holds exactly the items that
    [isLowStock] accepts, smallest stock first; all of them have a positive
    stock. *)
Theorem staff_sortedLowStock (today : Z) (currentInventory : list InventoryBatch) :
  let sorted := StaffAlerts.sortedLowStock getTime today currentInventory in
  (forall item : InventoryBatch,
     In item sorted <->
     In item currentInventory /\
     isLowStock getTime today item DEFAULT_REORDER_CONFIG = true) /\
  StronglySorted
    (fun a b => nle (StaffAlerts.getStockOnHand a) (StaffAlerts.getStockOnHand b) = true)
    sorted /\
  (forall item : InventoryBatch,
     In item sorted -> ngt (StaffAlerts.getStockOnHand item) (Num 0) = true).
Proof.
  intro sorted.
  assert (M : forall item : InventoryBatch,
            In item sorted <->
            In item currentInventory /\
            isLowStock getTime today item DEFAULT_REORDER_CONFIG = true).
  { intro item. unfold sorted, StaffAlerts.sortedLowStock.
    rewrite sortBy_In. unfold StaffAlerts.lowStock. rewrite filter_In. reflexivity. }
  split; [exact M |]. split.
  - apply (sortBy_numeric_key StaffAlerts.getStockOnHand).
    apply Forall_forall. intros item _. apply stock_is_number.
  - intros item Hin. apply M in Hin. destruct Hin as [_ Hl].
    rewrite isLowStock_unfold in Hl. apply andb_true_iff in Hl. exact (proj1 Hl).
Qed.

Lemma emitted_count (now today : Z) (branch : BranchData.t) (item : InventoryBatch)
  (ty : AlertType) :
  List.length
    (filter (fun a => alertType_eqb (BranchAlert.alertType a) ty)
            (emitted getTime now today branch item))
  = if alertTest getTime now today ty item then 1%nat else 0%nat.
Proof.
  unfold emitted, processItem, push, alertTest. cbv zeta.
  rewrite isLowStock_unfold. rewrite andb_assoc, andb_diag.
  set (low := ngt (stockOf item) (Num 0)
              && nle (stockOf item)
                     (calculateReorderPoint getTime today item DEFAULT_REORDER_CONFIG)).
  destruct (daysBetween (getTime (expirationDate item)) (ofZ now)) as [q |].
  - cbn [nlt ngt nle nge ncmp].
    destruct (Qlt_bool q 0) eqn:A, (Qle_bool q 30) eqn:B, (Qle_bool 0 q) eqn:C,
      (Qlt_bool 30 q) eqn:D, (Qle_bool q 180) eqn:E, low, ty;
      cbn; try reflexivity; exfalso;
      rewrite ?Qlt_bool_iff, ?Qlt_bool_false, ?Qle_bool_iff, ?Qle_bool_false in *; lra.
  - cbn [nlt ngt nle nge ncmp andb app]. destruct low, ty; reflexivity.
Qed.

Lemma count_flat_map {A B : Type} (p : B -> bool) (c : A -> bool) (f : A -> list B)
  (l : list A) :
  (forall x : A, List.length (filter p (f x)) = if c x then 1%nat else 0%nat) ->
  List.length (filter p (flat_map f l)) = List.length (filter c l).
Proof.
  intro H. induction l as [| x l IH]; [reflexivity |].
  cbn [flat_map filter]. rewrite filter_app, length_app, IH, H.
  destruct (c x); reflexivity.
Qed.

Lemma Permutation_filter_length {A : Type} (p : A -> bool) (l l' : list A) :
  Permutation l l' -> List.length (filter p l) = List.length (filter p l').
Proof.
  induction 1 as [| x l l' _ IH | x y l | l l' l'' _ IH1 _ IH2]; cbn.
  - reflexivity.
  - destruct (p x); cbn; congruence.
  - destruct (p x), (p y); reflexivity.
  - congruence.
Qed.

Lemma branch_alerts_id (now today : Z) (branch : BranchData.t) (a : BranchAlert.t) :
  In a (flat_map (emitted getTime now today branch) (BranchData.inventory branch)) ->
  BranchAlert.branchId a = BranchData.userId branch.
Proof.
  intro H. apply in_flat_map in H. destruct H as (item & _ & Ha).
  unfold emitted, processItem, push in Ha. cbv zeta in Ha.
  revert Ha. split_ifs; cbn; intuition (subst; reflexivity).
Qed.

(** Inside the alerts of one branch, selecting on its user id changes
    nothing; inside those of a branch with another id, it leaves nothing. *)
Lemma select_branch (now today : Z) (uid : string) (ty : AlertType) (branch : BranchData.t) :
  filter (fun a => String.eqb (BranchAlert.branchId a) uid
                   && alertType_eqb (BranchAlert.alertType a) ty)
         (flat_map (emitted getTime now today branch) (BranchData.inventory branch))
  = if String.eqb (BranchData.userId branch) uid
    then filter (fun a => alertType_eqb (BranchAlert.alertType a) ty)
           (flat_map (emitted getTime now today branch) (BranchData.inventory branch))
    else [].
Proof.
  pose proof (branch_alerts_id now today branch) as Hid.
  induction (flat_map (emitted getTime now today branch) (BranchData.inventory branch))
    as [| a l IH].
  - destruct (String.eqb _ _); reflexivity.
  - cbn [filter]. rewrite IH by (intros b Hb; apply Hid; right; exact Hb).
    rewrite (Hid a (or_introl eq_refl)).
    destruct (String.eqb (BranchData.userId branch) uid); cbn; reflexivity.
Qed.

Lemma count_in_feed (now today : Z) (branchData : list BranchData.t)
  (branch : BranchData.t) (ty : AlertType) :
  NoDup (map BranchData.userId branchData) -> In branch branchData ->
  branchCount ty (generateBranchAlerts getTime now today branchData) branch
  = List.length (filter (alertTest getTime now today ty) (BranchData.inventory branch)).
Proof.
  intros Hnd Hin. unfold branchCount, generateBranchAlerts, sortAlerts.
  rewrite <- (Permutation_filter_length _ _ _ (sortBy_perm compareAlerts _)).
  rewrite collectAlerts_flat_map.
  set (uid := BranchData.userId branch).
  induction branchData as [| b0 rest IH]; [destruct Hin |].
  cbn [flat_map]. rewrite filter_app, length_app, select_branch.
  cbn [map] in Hnd. inversion Hnd as [| ? ? Hnotin Hnd']; subst.
  assert (Z0 : forall bs : list BranchData.t,
            ~ In uid (map BranchData.userId bs) ->
            filter (fun a => String.eqb (BranchAlert.branchId a) uid
                             && alertType_eqb (BranchAlert.alertType a) ty)
                   (flat_map (fun b => flat_map (emitted getTime now today b)
                                                (BranchData.inventory b)) bs) = []).
  { induction bs as [| b bs IHb]; intro Hn; [reflexivity |].
    cbn [flat_map]. rewrite filter_app, select_branch.
    cbn [map In] in Hn.
    destruct (String.eqb (BranchData.userId b) uid) eqn:E.
    - apply String.eqb_eq in E. tauto.
    - rewrite IHb by tauto. reflexivity. }
  destruct Hin as [-> | Hin].
  - fold uid. rewrite String.eqb_refl, (Z0 rest Hnotin). cbn [List.length].
    rewrite Nat.add_0_r. apply count_flat_map. intro item. apply emitted_count.
  - destruct (String.eqb (BranchData.userId b0) uid) eqn:E.
    + apply String.eqb_eq in E. exfalso. apply Hnotin. rewrite E.
      apply in_map. exact Hin.
    + cbn [List.length]. apply IH; assumption.
Qed.

Lemma filter_split_length {A : Type} (p q r : A -> bool) (l : list A) :
  (forall x : A, r x = p x || q x) -> (forall x : A, p x && q x = false) ->
  List.length (filter r l)
  = (List.length (filter p l) + List.length (filter q l))%nat.
Proof.
  intros Hr Hd. induction l as [| x l IH]; [reflexivity |].
  cbn [filter]. rewrite Hr. specialize (Hd x).
  destruct (p x), (q x); cbn in *; try discriminate; lia.
Qed.

Lemma near_disjoint (d : number) :
  (ngt d (Num 30) && nle d (Num 90)) && (ngt d (Num 90) && nle d (Num 180)) = false.
Proof.
  destruct d as [q |]; [| reflexivity]. cbn [ngt nlt nle ncmp].
  destruct (Qlt_bool 30 q) eqn:A, (Qle_bool q 90) eqn:B,
    (Qlt_bool 90 q) eqn:C, (Qle_bool q 180) eqn:D; cbn; try reflexivity; exfalso;
    rewrite ?Qlt_bool_iff, ?Qlt_bool_false, ?Qle_bool_iff, ?Qle_bool_false in *; lra.
Qed.

(** X9. With distinct user ids, the counts on the card of a branch are the sizes
    of the lists the staff of that branch see for the same clock readings:
    expired, near-expiry and low-stock; the critical count is the number of
    its items that expire in 0 to 30 days. *)
Theorem branch_card_counts (now today : Z) (branchData : list BranchData.t)
  (branch : BranchData.t) :
  NoDup (map BranchData.userId branchData) -> In branch branchData ->
  let feed := generateBranchAlerts getTime now today branchData in
  let inventory := BranchData.inventory branch in
  branchCount expired feed branch
    = List.length (StaffAlerts.sortedExpired getTime now inventory) /\
  branchCount critical feed branch
    = List.length
        (filter (fun item =>
                   let d := StaffAlerts.getDaysUntilExpiry getTime now (expirationDate item) in
                   nge d (Num 0) && nle d (Num 30))
                inventory) /\
  branchCount nearExpiry feed branch
    = List.length (StaffAlerts.sortedNear90 getTime now inventory) /\
  branchCount lowStock feed branch
    = List.length (StaffAlerts.sortedLowStock getTime today inventory).
Proof.
  intros Hnd Hin feed inventory. unfold feed.
  rewrite !(count_in_feed now today branchData branch) by assumption.
  fold inventory. repeat split.
  - unfold StaffAlerts.sortedExpired.
    rewrite <- (Permutation_length (sortBy_perm _ _)). reflexivity.
  - unfold StaffAlerts.sortedNear90.
    rewrite <- (Permutation_length (sortBy_perm _ _)), length_app.
    unfold StaffAlerts.nearExpiry60, StaffAlerts.nearExpiry90.
    apply filter_split_length.
    + intro item. symmetry. apply near_split.
    + intro item. apply near_disjoint.
  - unfold StaffAlerts.sortedLowStock.
    rewrite <- (Permutation_length (sortBy_perm _ _)). reflexivity.
Qed.

End Counts.

(** * Grouping by a key *)

Section Grouping.

Context {A : Type} (key : A -> string).

Lemma mapHas_In {V : Type} (k : string) (m : JsMap V) :
  mapHas k m = true <-> In k (map fst m).
Proof.
  unfold mapHas. rewrite existsb_exists, in_map_iff. split.
  - intros (e & He & E). apply String.eqb_eq in E. eauto.
  - intros (e & E & He). exists e. split; [exact He |]. apply String.eqb_eq. exact E.
Qed.

Lemma mapSet_new {V : Type} (k : string) (v : V) (m : JsMap V) :
  mapHas k m = false -> mapSet k v m = m ++ [(k, v)].
Proof.
  induction m as [| [k' v'] m IH]; cbn; [reflexivity |].
  intro H. apply orb_false_iff in H. destruct H as [E H].
  rewrite E, (IH H). reflexivity.
Qed.

Lemma mapGet_last {V : Type} (k : string) (v : V) (m : JsMap V) :
  mapHas k m = false -> mapGet k (m ++ [(k, v)]) = Some v.
Proof.
  induction m as [| [k' v'] m IH]; cbn.
  - rewrite String.eqb_refl. reflexivity.
  - intro H. apply orb_false_iff in H. destruct H as [E H]. rewrite E. exact (IH H).
Qed.

Lemma mapSet_last {V : Type} (k : string) (v w : V) (m : JsMap V) :
  mapHas k m = false -> mapSet k w (m ++ [(k, v)]) = m ++ [(k, w)].
Proof.
  induction m as [| [k' v'] m IH]; cbn.
  - rewrite String.eqb_refl. reflexivity.
  - intro H. apply orb_false_iff in H. destruct H as [E H].
    rewrite E, (IH H). reflexivity.
Qed.

Lemma groupPush_known (m : JsMap (list A)) (x : A) :
  mapHas (key x) m = true -> groupPush key m x = pushAt (key x) x m.
Proof.
  intro H. unfold groupPush. cbv zeta. rewrite H. cbn [negb].
  set (k := key x) in *. clearbody k.
  induction m as [| [k' g] m IH]; [discriminate H |].
  cbn in H |- *. destruct (String.eqb k' k) eqn:E; [reflexivity |].
  cbn in H. specialize (IH H). destruct (mapGet k m) as [arr |].
  - rewrite IH. reflexivity.
  - rewrite <- IH. reflexivity.
Qed.

Lemma groupPush_new (m : JsMap (list A)) (x : A) :
  mapHas (key x) m = false -> groupPush key m x = m ++ [(key x, [x])].
Proof.
  intro H. unfold groupPush. cbv zeta. rewrite H. cbn [negb].
  rewrite (mapSet_new _ _ _ H), (mapGet_last _ _ _ H), (mapSet_last _ _ _ _ H).
  reflexivity.
Qed.

Lemma pushAt_keys (k : string) (x : A) (m : JsMap (list A)) :
  map fst (pushAt k x m) = map fst m.
Proof.
  induction m as [| [k' g] m IH]; [reflexivity |].
  cbn. destruct (String.eqb k' k); cbn; [reflexivity | rewrite IH; reflexivity].
Qed.

Lemma pushAt_In (k0 : string) (x : A) (m : JsMap (list A)) (k : string) (g : list A) :
  NoDup (map fst m) -> In (k, g) (pushAt k0 x m) ->
  (k <> k0 /\ In (k, g) m) \/
  (k = k0 /\ exists g0 : list A, In (k0, g0) m /\ g = g0 ++ [x]).
Proof.
  induction m as [| [k' g'] m IH]; intros Hnd Hin; [destruct Hin |].
  cbn [map fst] in Hnd. inversion Hnd as [| ? ? Hnotin Hnd']; subst.
  cbn in Hin. destruct (String.eqb k' k0) eqn:E.
  - apply String.eqb_eq in E. subst k'. destruct Hin as [Hin | Hin].
    + inversion Hin; subst. right. split; [reflexivity |].
      exists g'. split; [left |]; reflexivity.
    + left. split; [| right; exact Hin].
      intro Hk. subst k. apply Hnotin. apply in_map_iff. exists (k0, g). auto.
  - apply String.eqb_neq in E. destruct Hin as [Hin | Hin].
    + inversion Hin; subst. left. split; [exact E | left; reflexivity].
    + destruct (IH Hnd' Hin) as [[Hk Hm] | (Hk & g0 & Hm & Hg)].
      * left. split; [exact Hk | right; exact Hm].
      * right. split; [exact Hk |]. exists g0. split; [right; exact Hm | exact Hg].
Qed.

Lemma groupPush_grouped (m : JsMap (list A)) (done : list A) (x : A) :
  grouped key m done -> grouped key (groupPush key m x) (done ++ [x]).
Proof.
  intros (Hnd & Hg & Hall).
  set (name := key x).
  destruct (mapHas name m) eqn:H.
  - rewrite (groupPush_known m x H). fold name. split; [| split].
    + rewrite pushAt_keys. exact Hnd.
    + intros k g Hin.
      destruct (pushAt_In _ _ _ _ _ Hnd Hin) as [[Hk Hm] | (Hk & g0 & Hm & Hgg)].
      * destruct (Hg k g Hm) as [E Hne]. split; [| exact Hne].
        rewrite filter_app. cbn [filter]. fold name.
        assert (N : String.eqb name k = false) by (apply String.eqb_neq; congruence).
        rewrite N, app_nil_r. exact E.
      * subst k g. destruct (Hg name g0 Hm) as [E _]. split.
        -- rewrite filter_app. cbn [filter]. fold name.
           rewrite String.eqb_refl, <- E. reflexivity.
        -- intro Z0. apply app_eq_nil in Z0. destruct Z0 as [_ Z0]. discriminate Z0.
    + intros b Hb. apply mapHas_In. rewrite pushAt_keys. apply mapHas_In.
      apply in_app_iff in Hb.
      destruct Hb as [Hb | [<- | []]]; [apply Hall; exact Hb | exact H].
  - rewrite (groupPush_new m x H). fold name.
    assert (Hnot : ~ In name (map fst m)).
    { intro X. apply mapHas_In in X. congruence. }
    split; [| split].
    + rewrite map_app. cbn [map fst].
      eapply Permutation_NoDup; [apply Permutation_cons_append |].
      constructor; assumption.
    + intros k g Hin. apply in_app_iff in Hin. destruct Hin as [Hm | [Hm | []]].
      * destruct (Hg k g Hm) as [E Hne]. split; [| exact Hne].
        rewrite filter_app. cbn [filter]. fold name.
        assert (N : String.eqb name k = false).
        { apply String.eqb_neq. intro X. subst k. apply Hnot.
          apply in_map_iff. exists (name, g). auto. }
        rewrite N, app_nil_r. exact E.
      * inversion Hm; subst k g. split; [| discriminate].
        rewrite filter_app. cbn [filter]. fold name. rewrite String.eqb_refl.
        rewrite filter_none; [reflexivity |].
        apply Forall_forall. intros b Hb.
        apply String.eqb_neq. intro X. specialize (Hall b Hb).
        rewrite X in Hall. congruence.
    + intros b Hb. apply mapHas_In. rewrite map_app, in_app_iff.
      apply in_app_iff in Hb. destruct Hb as [Hb | [<- | []]].
      * left. apply mapHas_In. apply Hall. exact Hb.
      * right. left. reflexivity.
Qed.

Lemma forEach_grouped (rest done : list A) (m : JsMap (list A)) :
  grouped key m done -> grouped key (forEach rest (groupPush key) m) (done ++ rest).
Proof.
  unfold forEach. revert done m.
  induction rest as [| b rest IH]; intros done m G; cbn.
  - rewrite app_nil_r. exact G.
  - replace (done ++ b :: rest) with ((done ++ [b]) ++ rest)
      by (rewrite <- app_assoc; reflexivity).
    apply IH. apply groupPush_grouped. exact G.
Qed.

(** Grouping a whole list, starting from the empty map. *)
Lemma groupPush_all (l : list A) : grouped key (forEach l (groupPush key) []) l.
Proof.
  apply (forEach_grouped l [] []). split; [constructor | split].
  - intros k g [].
  - intros x [].
Qed.

End Grouping.

(** * Grouping the branches by location *)

Section Locations.

Lemma getUniqueLocations_map (branches : list BranchData.t) :
  forEach branches groupStep []
  = forEach branches (groupPush BranchData.branchName) [].
Proof. reflexivity. Qed.

Variable localeCompare : string -> string -> Z.

Lemma getUniqueLocations_groups_aux (branches : list BranchData.t)
  (name : string) (group : list BranchData.t) :
  In (name, group) (getUniqueLocations localeCompare branches) ->
  group = filter (fun b => String.eqb (BranchData.branchName b) name) branches /\
  group <> [].
Proof.
  intro H. unfold getUniqueLocations in H. cbv zeta in H. rewrite sortBy_In in H.
  rewrite getUniqueLocations_map in H.
  destruct (groupPush_all BranchData.branchName branches) as (_ & Hg & _).
  apply Hg. exact H.
Qed.

(** X10. [getUniqueLocations] lists every branch name once; under each name it
    keeps the branches of that name, all of them and in the order of the
    input, so that no group is empty and every branch is in the group of its
    name and in no other. *)
Theorem getUniqueLocations_groups (branches : list BranchData.t) :
  let locations := getUniqueLocations localeCompare branches in
  NoDup (map fst locations) /\
  (forall (name : string) (group : list BranchData.t),
     In (name, group) locations ->
     group = filter (fun b => String.eqb (BranchData.branchName b) name) branches /\
     group <> []) /\
  (forall b : BranchData.t,
     In b branches ->
     exists group : list BranchData.t,
       In (BranchData.branchName b, group) locations /\ In b group) /\
  (forall (name : string) (group : list BranchData.t) (b : BranchData.t),
     In (name, group) locations -> In b group ->
     In b branches /\ BranchData.branchName b = name).
Proof.
  intro locations.
  pose proof (groupPush_all BranchData.branchName branches) as G.
  rewrite <- getUniqueLocations_map in G.
  destruct G as (Hnd & Hg & Hall).
  assert (P : Permutation (forEach branches groupStep []) locations)
    by apply sortBy_perm.
  assert (Hin : forall e, In e locations <-> In e (forEach branches groupStep [])).
  { intro e. apply sortBy_In. }
  assert (K : forall (name : string) (group : list BranchData.t),
            In (name, group) locations ->
            group = filter (fun b => String.eqb (BranchData.branchName b) name) branches
            /\ group <> []).
  { intros name group H. apply Hg. apply Hin. exact H. }
  split; [| split; [exact K | split]].
  - eapply Permutation_NoDup; [apply Permutation_map; exact P | exact Hnd].
  - intros b Hb. specialize (Hall b Hb). apply mapHas_In in Hall.
    apply in_map_iff in Hall. destruct Hall as ([k g] & Hk & He). cbn in Hk. subst k.
    exists g. split; [apply Hin; exact He |].
    destruct (Hg _ _ He) as [-> _]. apply filter_In. split; [exact Hb |].
    apply String.eqb_refl.
  - intros name group b He Hb. destruct (K name group He) as [-> _].
    apply filter_In in Hb. destruct Hb as [Hb E]. apply String.eqb_eq in E. auto.
Qed.

Lemma NoDup_map_inj {A B : Type} (f : A -> B) (l : list A) (x y : A) :
  NoDup (map f l) -> In x l -> In y l -> f x = f y -> x = y.
Proof.
  induction l as [| a l IH]; intros Hnd Hx Hy E; [destruct Hx |].
  cbn [map] in Hnd. inversion Hnd as [| ? ? Hnotin Hnd']; subst.
  destruct Hx as [-> | Hx], Hy as [-> | Hy]; trivial.
  - exfalso. apply Hnotin. rewrite E. apply in_map. exact Hy.
  - exfalso. apply Hnotin. rewrite <- E. apply in_map. exact Hx.
  - apply IH; assumption.
Qed.

Variable getTime : string -> number.

(** X11. With distinct user ids, the alerts listed under a location are exactly
    the alerts of the feed that carry the name of that location: each alert
    is listed under one location and under no other. *)
Theorem locationAlerts_by_name (now today : Z) (branchData : list BranchData.t)
  (name : string) (group : list BranchData.t) (alerts : list BranchAlert.t) :
  NoDup (map BranchData.userId branchData) ->
  In (name, group) (getUniqueLocations localeCompare branchData) ->
  (forall a : BranchAlert.t,
     In a alerts -> In a (generateBranchAlerts getTime now today branchData)) ->
  locationAlerts alerts group
  = filter (fun a => String.eqb (BranchAlert.branchName a) name) alerts.
Proof.
  intros Hnd Hloc Hsub. unfold locationAlerts. apply filter_ext_in.
  intros a Ha. specialize (Hsub a Ha).
  apply generateBranchAlerts_In in Hsub.
  destruct Hsub as (branch & item & Hb & _ & Hem).
  destruct (emitted_shape getTime _ _ _ _ _ Hem) as [_ E].
  assert (Eid : BranchAlert.branchId a = BranchData.userId branch)
    by (rewrite E; reflexivity).
  assert (Ename : BranchAlert.branchName a = BranchData.branchName branch)
    by (rewrite E; reflexivity).
  destruct (getUniqueLocations_groups_aux branchData name group Hloc) as [Hgroup _].
  rewrite Eid, Ename.
  destruct (String.eqb (BranchData.branchName branch) name) eqn:N.
  - apply existsb_exists. exists branch. split; [| apply String.eqb_refl].
    rewrite Hgroup. apply filter_In. auto.
  - apply not_true_is_false. intro X. apply existsb_exists in X.
    destruct X as (b & Hbg & Eb). apply String.eqb_eq in Eb.
    rewrite Hgroup in Hbg. apply filter_In in Hbg. destruct Hbg as [Hbin Hbn].
    assert (b = branch) by (eapply NoDup_map_inj; eassumption).
    subst b. congruence.
Qed.

End Locations.

(** * The staff dashboard *)

Section Dashboard.

Variable getTime : string -> number.

Lemma reduce_sum (f : InventoryBatch -> Q) (l : list InventoryBatch) (a : Q) :
  exists s : Q,
    reduce l (fun sum item => nadd sum (Num (f item))) (Num a) = Num s /\
    s == a + sumOver f l.
Proof.
  unfold reduce. revert a. induction l as [| x l IH]; intro a; cbn [fold_left sumOver fold_right].
  - exists a. split; [reflexivity | ring].
  - destruct (IH (a + f x)) as (s & E & Hs). exists s. split; [exact E |].
    rewrite Hs. fold (sumOver f l). ring.
Qed.

Lemma sumOver_stock (l : list InventoryBatch) :
  sumOver (fun item => beginningInventory item + quantityReceived item
                       - quantityDispensed item) l
  == sumOver beginningInventory l + sumOver quantityReceived l
     - sumOver quantityDispensed l.
Proof.
  induction l as [| x l IH]; cbn [sumOver fold_right]; [ring |].
  fold (sumOver (fun item => beginningInventory item + quantityReceived item
                             - quantityDispensed item) l).
  fold (sumOver beginningInventory l). fold (sumOver quantityReceived l).
  fold (sumOver quantityDispensed l). rewrite IH. ring.
Qed.

(** X15. The three totals of the dashboard are numbers, each the sum of its
    quantity over the inventory, and the stock total is the total of the
    beginning inventories plus the total received minus the total
    dispensed. *)
Theorem dashboard_totals (inventory : list InventoryBatch) :
  exists m r d : Q,
    HomeView.totalMedicines inventory = Num m /\
    HomeView.totalReceived inventory = Num r /\
    HomeView.totalDispensed inventory = Num d /\
    r == sumOver quantityReceived inventory /\
    d == sumOver quantityDispensed inventory /\
    m == sumOver beginningInventory inventory + r - d.
Proof.
  destruct (reduce_sum (fun item => beginningInventory item + quantityReceived item
                                    - quantityDispensed item) inventory 0)
    as (m & Em & Hm).
  destruct (reduce_sum quantityReceived inventory 0) as (r & Er & Hr).
  destruct (reduce_sum quantityDispensed inventory 0) as (d & Ed & Hd).
  exists m, r, d. repeat split; trivial.
  - rewrite Hr. ring.
  - rewrite Hd. ring.
  - rewrite Hm, Hr, Hd, sumOver_stock. ring.
Qed.

(** X16. The utilization rate is a whole number; it is 0 when nothing was
    received, and it lies between 0 and 100 when what was dispensed is not
    negative and not more than what was received. *)
Theorem utilizationRate_range (inventory : list InventoryBatch) :
  (exists k : Z, HomeView.utilizationRate inventory = ofZ k) /\
  (sumOver quantityReceived inventory <= 0 ->
     HomeView.utilizationRate inventory = Num 0) /\
  (0 <= sumOver quantityDispensed inventory ->
   sumOver quantityDispensed inventory <= sumOver quantityReceived inventory ->
   exists k : Z,
     HomeView.utilizationRate inventory = ofZ k /\ (0 <= k <= 100)%Z).
Proof.
  destruct (reduce_sum quantityReceived inventory 0) as (r & Er & Hr).
  destruct (reduce_sum quantityDispensed inventory 0) as (d & Ed & Hd).
  assert (Hr' : r == sumOver quantityReceived inventory) by (rewrite Hr; ring).
  assert (Hd' : d == sumOver quantityDispensed inventory) by (rewrite Hd; ring).
  unfold HomeView.utilizationRate, HomeView.totalReceived, HomeView.totalDispensed.
  rewrite Er, Ed. change (ngt (Num r) (Num 0)) with (Qlt_bool 0 r).
  destruct (Qlt_bool 0 r) eqn:B.
  - apply Qlt_bool_iff in B.
    assert (Nz : Qeq_bool r 0 = false).
    { apply Qeq_bool_false. intro Z0. rewrite Z0 in B. exact (Qlt_irrefl _ B). }
    unfold ndiv. rewrite Nz. cbn [nmul lift2 nround].
    split; [eexists; reflexivity |]. split.
    + intro Hle. rewrite <- Hr' in Hle. exfalso. exact (Qlt_not_le _ _ B Hle).
    + intros H0 Hle. rewrite <- Hd' in H0. rewrite <- Hd', <- Hr' in Hle.
      eexists. split; [reflexivity |].
      assert (X0 : 0 <= d / r).
      { apply Qle_shift_div_l; [exact B | lra]. }
      assert (X1 : d / r <= 1).
      { apply Qle_shift_div_r; [exact B | lra]. }
      split.
      * apply Z.le_trans with (Qfloor 0); [reflexivity |].
        apply Qfloor_resp_le. lra.
      * apply Z.le_trans with (Qfloor (100 + (1 # 2))); [| vm_compute; discriminate].
        apply Qfloor_resp_le. lra.
  - split; [exists 0%Z; reflexivity |]. split; [reflexivity |].
    intros _ _. exists 0%Z. split; [reflexivity | lia].
Qed.

Lemma sortedNear90_length (now : Z) (inventory : list InventoryBatch) :
  List.length (StaffAlerts.sortedNear90 getTime now inventory)
  = List.length
      (filter (fun item =>
                 ngt (StaffAlerts.getDaysUntilExpiry getTime now (expirationDate item))
                     (Num 30)
                 && nle (StaffAlerts.getDaysUntilExpiry getTime now (expirationDate item))
                        (Num 180))
              inventory).
Proof.
  unfold StaffAlerts.sortedNear90.
  rewrite <- (Permutation_length (sortBy_perm _ _)), length_app.
  unfold StaffAlerts.nearExpiry60, StaffAlerts.nearExpiry90.
  symmetry. apply filter_split_length.
  - intro item. symmetry. apply near_split.
  - intro item. apply near_disjoint.
Qed.

Lemma dashboard_near_split (d : number) :
  ngt d (Num 0) && nle d (Num 180)
  = (ngt d (Num 30) && nle d (Num 180)) || (ngt d (Num 0) && nle d (Num 30)).
Proof.
  destruct d as [q |]; [| reflexivity]. cbn [ngt nlt nle ncmp].
  destruct (Qlt_bool 0 q) eqn:A, (Qle_bool q 180) eqn:B,
    (Qlt_bool 30 q) eqn:C, (Qle_bool q 30) eqn:D; cbn; try reflexivity; exfalso;
    rewrite ?Qlt_bool_iff, ?Qlt_bool_false, ?Qle_bool_iff, ?Qle_bool_false in *; lra.
Qed.

Lemma dashboard_near_disjoint (d : number) :
  (ngt d (Num 30) && nle d (Num 180)) && (ngt d (Num 0) && nle d (Num 30)) = false.
Proof.
  destruct d as [q |]; [| reflexivity]. cbn [ngt nlt nle ncmp].
  destruct (Qlt_bool 0 q) eqn:A, (Qle_bool q 180) eqn:B,
    (Qlt_bool 30 q) eqn:C, (Qle_bool q 30) eqn:D; cbn; try reflexivity; exfalso;
    rewrite ?Qlt_bool_iff, ?Qlt_bool_false, ?Qle_bool_iff, ?Qle_bool_false in *; lra.
Qed.

(** X17. For one clock reading the dashboard agrees with the alert lists of the
    staff view on low stock and on expired items; its near-expiry count also
    takes in the items that expire in 1 to 30 days, which the near-expiry
    list leaves out; an item that expires on the day itself (day count 0) is
    counted neither as expired nor as near expiry. *)
Theorem dashboard_matches_alerts (clock : Z) (inventory : list InventoryBatch) :
  let days item := StaffAlerts.getDaysUntilExpiry getTime clock (expirationDate item) in
  HomeView.lowStock getTime clock inventory
    = List.length (StaffAlerts.sortedLowStock getTime clock inventory) /\
  HomeView.expired getTime clock inventory
    = List.length (StaffAlerts.sortedExpired getTime clock inventory) /\
  HomeView.nearExpiry getTime clock inventory
    = (List.length (StaffAlerts.sortedNear90 getTime clock inventory)
       + List.length
           (filter (fun item => ngt (days item) (Num 0) && nle (days item) (Num 30))
                   inventory))%nat /\
  (forall item : InventoryBatch,
     neq (days item) (Num 0) = true ->
     HomeView.expired getTime clock [item] = 0%nat /\
     HomeView.nearExpiry getTime clock [item] = 0%nat).
Proof.
  intro days. repeat split.
  - unfold StaffAlerts.sortedLowStock.
    rewrite <- (Permutation_length (sortBy_perm _ _)). reflexivity.
  - unfold StaffAlerts.sortedExpired.
    rewrite <- (Permutation_length (sortBy_perm _ _)). reflexivity.
  - rewrite sortedNear90_length. unfold HomeView.nearExpiry. cbv zeta.
    apply (filter_split_length
             (fun item => ngt (days item) (Num 30) && nle (days item) (Num 180))
             (fun item => ngt (days item) (Num 0) && nle (days item) (Num 30))).
    + intro item. apply dashboard_near_split.
    + intro item. apply dashboard_near_disjoint.
  - unfold HomeView.expired. cbn [filter]. cbv zeta.
    change (nfloor (ndiv (nsub (getTime (expirationDate item)) (ofZ clock)) (ofZ msPerDay)))
      with (days item).
    destruct (days item) as [q |]; [| discriminate].
    cbn [neq nlt ncmp] in *. apply Qeq_bool_iff in H.
    assert (B : Qlt_bool q 0 = false) by (apply Qlt_bool_false; lra).
    rewrite B. reflexivity.
  - unfold HomeView.nearExpiry. cbn [filter]. cbv zeta.
    change (nfloor (ndiv (nsub (getTime (expirationDate item)) (ofZ clock)) (ofZ msPerDay)))
      with (days item).
    destruct (days item) as [q |]; [| discriminate].
    cbn [neq ngt nlt ncmp] in *. apply Qeq_bool_iff in H.
    assert (B : Qlt_bool 0 q = false) by (apply Qlt_bool_false; lra).
    rewrite B. reflexivity.
Qed.

End Dashboard.

(** * Instances of the further properties *)

(** A low-stock batch with nothing dispensed: the suggested quantity is at
    least the minimum threshold. *)
Lemma calculateReorderQuantity_floor_witness :
  nge (calculateReorderQuantity isoGetTime clock0 quietBatch DEFAULT_REORDER_CONFIG)
      (Num (minimumThreshold DEFAULT_REORDER_CONFIG)) = true.
Proof.
  apply (proj1 (proj2 (calculateReorderQuantity_floor isoGetTime clock0 quietBatch
                         DEFAULT_REORDER_CONFIG))).
  reflexivity.
Defined.

(** Stock 70 at 3 a day; stock 5 and nothing dispensed. *)
Lemma daysOfStockRemaining_sign_witness :
  nge (StockStatus.daysOfStockRemaining
         (getStockStatus isoGetTime clock0 busyBatch DEFAULT_REORDER_CONFIG)) (Num 0) = true /\
  StockStatus.daysOfStockRemaining
    (getStockStatus isoGetTime clock0 quietBatch DEFAULT_REORDER_CONFIG) = Num 999.
Proof.
  split.
  - apply (proj1 (proj2 (proj2 (proj2
             (daysOfStockRemaining_sign isoGetTime clock0 busyBatch DEFAULT_REORDER_CONFIG))))).
    discriminate.
  - apply (proj1 (proj1 (proj2
             (daysOfStockRemaining_sign isoGetTime clock0 quietBatch DEFAULT_REORDER_CONFIG))
             eq_refl)).
    reflexivity.
Defined.

(** 30 dispensed over 5 days given by the caller. *)
Lemma calculateAverageDailyUsage_daysSinceReceived_witness :
  calculateAverageDailyUsage isoGetTime clock0 busyBatch (Some (Num 5)) = Num (30 / 5).
Proof.
  assert (Hnz : ~ quantityDispensed busyBatch == 0) by (intro E; discriminate E).
  apply (proj1 (calculateAverageDailyUsage_daysSinceReceived isoGetTime clock0 busyBatch
                  Hnz)).
  reflexivity.
Defined.

(** 30 and 60 dispensed over the same 10 days. *)
Lemma calculateReorderPoint_monotone_dispensed_witness :
  nle (calculateReorderPoint isoGetTime clock0 lowBatch DEFAULT_REORDER_CONFIG)
      (calculateReorderPoint isoGetTime clock0 heavierBatch DEFAULT_REORDER_CONFIG) = true.
Proof.
  apply (calculateReorderPoint_monotone_dispensed isoGetTime clock0 lowBatch heavierBatch
           DEFAULT_REORDER_CONFIG 1749081600000).
  - reflexivity.
  - reflexivity.
  - discriminate.
  - discriminate.
  - discriminate.
  - discriminate.
Defined.

(** A low-stock batch: reorder point 55, suggested quantity 97. *)
Lemma reorderQuantity_covers_reorderPoint_witness :
  nle (calculateReorderPoint isoGetTime clock0 lowBatch DEFAULT_REORDER_CONFIG)
      (calculateReorderQuantity isoGetTime clock0 lowBatch DEFAULT_REORDER_CONFIG) = true.
Proof.
  apply (reorderQuantity_covers_reorderPoint isoGetTime clock0 lowBatch
           DEFAULT_REORDER_CONFIG 1749081600000).
  - reflexivity.
  - discriminate.
  - discriminate.
  - reflexivity.
Defined.

(** The lowStock alert of a branch with one low-stock batch, and the expired
    alert of a branch with one expired batch. *)
Lemma feed_provenance_witness :
  let a := mkAlert (branchOf [quietBatch]) quietBatch lowStock high None (Some (Num 5)) in
  let e := mkAlert (branchOf [staleBatch]) staleBatch expired high
             (Some (Num (-6))) (Some (Num 40)) in
  (exists (branch : BranchData.t) (item : InventoryBatch),
     In branch [branchOf [quietBatch]] /\ In item (BranchData.inventory branch) /\
     BranchAlert.branchId a = BranchData.userId branch /\
     BranchAlert.branchName a = BranchData.branchName branch /\
     BranchAlert.userName a = BranchData.userName branch /\
     BranchAlert.item a = item /\
     BranchAlert.stockLevel a
       = Some (Num (beginningInventory item + quantityReceived item
                    - quantityDispensed item)) /\
     (BranchAlert.alertType a = lowStock -> BranchAlert.daysUntilExpiry a = None) /\
     (BranchAlert.alertType a <> lowStock ->
        exists t : Q,
          isoGetTime (expirationDate item) = Num t /\
          BranchAlert.daysUntilExpiry a
            = Some (Num (inject_Z (Qfloor ((t - inject_Z clock0) / 86400000))))) /\
     BranchAlert.severity a <> low) /\
  (exists (branch : BranchData.t) (item : InventoryBatch),
     In branch [branchOf [staleBatch]] /\ In item (BranchData.inventory branch) /\
     BranchAlert.branchId e = BranchData.userId branch /\
     BranchAlert.branchName e = BranchData.branchName branch /\
     BranchAlert.userName e = BranchData.userName branch /\
     BranchAlert.item e = item /\
     BranchAlert.stockLevel e
       = Some (Num (beginningInventory item + quantityReceived item
                    - quantityDispensed item)) /\
     (BranchAlert.alertType e = lowStock -> BranchAlert.daysUntilExpiry e = None) /\
     (BranchAlert.alertType e <> lowStock ->
        exists t : Q,
          isoGetTime (expirationDate item) = Num t /\
          BranchAlert.daysUntilExpiry e
            = Some (Num (inject_Z (Qfloor ((t - inject_Z clock0) / 86400000))))) /\
     BranchAlert.severity e <> low).
Proof.
  intros a e. split.
  - apply (feed_provenance isoGetTime clock0 clock0 [branchOf [quietBatch]] a).
    left. reflexivity.
  - apply (feed_provenance isoGetTime clock0 clock0 [branchOf [staleBatch]] e).
    left. reflexivity.
Defined.

(** One branch with an expired batch and a low-stock batch. *)
Lemma branch_card_counts_witness :
  branchCount expired
    (generateBranchAlerts isoGetTime clock0 clock0 [branchOf [staleBatch; quietBatch]])
    (branchOf [staleBatch; quietBatch])
  = List.length (StaffAlerts.sortedExpired isoGetTime clock0 [staleBatch; quietBatch]) /\
  branchCount lowStock
    (generateBranchAlerts isoGetTime clock0 clock0 [branchOf [staleBatch; quietBatch]])
    (branchOf [staleBatch; quietBatch])
  = List.length (StaffAlerts.sortedLowStock isoGetTime clock0 [staleBatch; quietBatch]).
Proof.
  assert (Hnd : NoDup (map BranchData.userId [branchOf [staleBatch; quietBatch]])).
  { constructor; [intros [] | constructor]. }
  assert (Hin : In (branchOf [staleBatch; quietBatch]) [branchOf [staleBatch; quietBatch]])
    by (left; reflexivity).
  destruct (branch_card_counts isoGetTime clock0 clock0 _ _ Hnd Hin) as (E & _ & _ & L).
  split; [exact E | exact L].
Defined.

(** One location with one account: its alerts are those bearing its name. *)
Lemma locationAlerts_by_name_witness :
  locationAlerts
    (generateBranchAlerts isoGetTime clock0 clock0 [branchOf [staleBatch; quietBatch]])
    [branchOf [staleBatch; quietBatch]]
  = filter (fun a => String.eqb (BranchAlert.branchName a) "Manila")
      (generateBranchAlerts isoGetTime clock0 clock0 [branchOf [staleBatch; quietBatch]]).
Proof.
  apply (locationAlerts_by_name codeCompare isoGetTime clock0 clock0
           [branchOf [staleBatch; quietBatch]]).
  - constructor; [intros [] | constructor].
  - left. reflexivity.
  - intros a Ha. exact Ha.
Defined.

(** The expired batch is in the expired list. *)
Lemma staff_sortedExpired_witness :
  In staleBatch (StaffAlerts.sortedExpired isoGetTime clock0 [quietBatch; staleBatch]).
Proof.
  apply (proj1 (staff_sortedExpired isoGetTime clock0 [quietBatch; staleBatch])).
  split; [right; left; reflexivity | reflexivity].
Defined.

(** A batch that expires in nine days is in neither list. *)
Lemma staff_sortedNear90_witness :
  ~ In soonBatch (StaffAlerts.sortedNear90 isoGetTime clock0 [soonBatch; quietBatch]) /\
  ~ In soonBatch (StaffAlerts.sortedExpired isoGetTime clock0 [soonBatch; quietBatch]).
Proof.
  apply (proj2 (proj2 (staff_sortedNear90 isoGetTime clock0 [soonBatch; quietBatch]))).
  reflexivity.
Defined.

(** The low-stock batch of the list has a positive stock. *)
Lemma staff_sortedLowStock_witness :
  ngt (StaffAlerts.getStockOnHand quietBatch) (Num 0) = true.
Proof.
  apply (proj2 (proj2 (staff_sortedLowStock isoGetTime clock0 [busyBatch; quietBatch]))).
  vm_compute. left. reflexivity.
Defined.

(** Two accounts of one location. *)
Lemma getUniqueLocations_groups_witness :
  [branchOf [quietBatch]; branchOf [staleBatch]]
  = filter (fun b => String.eqb (BranchData.branchName b) "Manila")
      [branchOf [quietBatch]; branchOf [staleBatch]] /\
  [branchOf [quietBatch]; branchOf [staleBatch]] <> [].
Proof.
  apply (proj1 (proj2 (getUniqueLocations_groups codeCompare
                         [branchOf [quietBatch]; branchOf [staleBatch]]))).
  left. reflexivity.
Defined.

(** 30 dispensed of 100 received: 30 percent. *)
Lemma utilizationRate_range_witness :
  exists k : Z,
    HomeView.utilizationRate [restockedBatch] = ofZ k /\ (0 <= k <= 100)%Z.
Proof.
  apply (proj2 (proj2 (utilizationRate_range [restockedBatch]))).
  - discriminate.
  - discriminate.
Defined.

(** A batch that expires at the coming midnight is counted nowhere. *)
Lemma dashboard_matches_alerts_witness :
  HomeView.expired isoGetTime clock0 [lastDayBatch] = 0%nat /\
  HomeView.nearExpiry isoGetTime clock0 [lastDayBatch] = 0%nat.
Proof.
  apply (proj2 (proj2 (proj2 (dashboard_matches_alerts isoGetTime clock0 [lastDayBatch])))).
  reflexivity.
Defined.

(** * Dispensing *)

Section Dispensing.

Variable getTime : string -> number.
Variable today : Z.

Lemma forEach_push_map {A B : Type} (f : A -> B) (l : list A) (acc : list B) :
  forEach l (fun acc e => push acc (f e)) acc = acc ++ map f l.
Proof.
  unfold forEach, push. revert acc.
  induction l as [| x l IH]; intro acc; cbn.
  - symmetry. apply app_nil_r.
  - rewrite IH, <- app_assoc. reflexivity.
Qed.

Lemma matchedBatches_eq (inventory : list InventoryBatch) :
  DispenseView.matchedBatches getTime today inventory
  = map (matchOf getTime today) (filter (dispensable getTime today) inventory).
Proof. reflexivity. Qed.

Lemma not_expired_days (item : InventoryBatch) :
  nge (getTime (expirationDate item)) (ofZ today) = true ->
  DrugMatch.daysToExpiry (matchOf getTime today item) <> NaN /\
  nge (DrugMatch.daysToExpiry (matchOf getTime today item)) (Num 0) = true.
Proof.
  cbn [DrugMatch.daysToExpiry matchOf].
  destruct (getTime (expirationDate item)) as [t |]; [| discriminate].
  cbn [nge nle ncmp ofZ]. intro H. apply Qle_bool_iff in H.
  change (ofZ today) with (Num (inject_Z today)). rewrite daysBetween_whole.
  split; [unfold ofZ; discriminate |].
  cbn [nge nle ncmp ofZ]. apply Qle_bool_iff.
  change 0 with (inject_Z 0). rewrite <- Zle_Qle.
  apply Z.le_trans with (Qfloor 0); [reflexivity |].
  apply Qfloor_resp_le. apply Qle_shift_div_l; [reflexivity | lra].
Qed.

Lemma matched_facts (inventory : list InventoryBatch) (m : DrugMatch.t) :
  In m (DispenseView.matchedBatches getTime today inventory) ->
  In (DrugMatch.batch m) inventory /\
  m = matchOf getTime today (DrugMatch.batch m) /\
  ngt (DrugMatch.availableStock m) (Num 0) = true /\
  DrugMatch.daysToExpiry m <> NaN /\
  nge (DrugMatch.daysToExpiry m) (Num 0) = true.
Proof.
  rewrite matchedBatches_eq, in_map_iff. intros (item & <- & Hi).
  apply filter_In in Hi. destruct Hi as [Hin Hd].
  unfold dispensable in Hd. apply andb_true_iff in Hd. destruct Hd as [Hs He].
  destruct (not_expired_days item He) as [N P].
  repeat split; trivial.
Qed.

Lemma positive_total (l : list DrugMatch.t) (a : Q) :
  Forall (fun m => ngt (DrugMatch.availableStock m) (Num 0) = true) l ->
  exists s : Q,
    reduce l (fun sum match_ => nadd sum (DrugMatch.availableStock match_)) (Num a) = Num s /\
    a <= s /\ (l <> [] -> a < s).
Proof.
  unfold reduce. intro H. revert a.
  induction H as [| m l Hm _ IH]; intro a; cbn [fold_left].
  - exists a. split; [reflexivity |]. split; [lra | congruence].
  - destruct (DrugMatch.availableStock m) as [q |]; [| discriminate].
    cbn [ngt nlt ncmp] in Hm. apply Qlt_bool_iff in Hm.
    destruct (IH (a + q)) as (s & E & Hle & _). exists s.
    split; [exact E |]. split; [lra | intros _; lra].
Qed.

(** X18. The options of the dispensing view.  Drug names are listed once; the
    batches of an option are the dispensable batches of that drug, in
    first-expired-first-out order; none of them is out of stock or past its
    date; the total of an option is a positive number; and every
    dispensable batch of the inventory is offered under its drug name. *)
Theorem drugOptions_fefo (inventory : list InventoryBatch) :
  let options := DispenseView.drugOptions getTime today inventory in
  let matched := DispenseView.matchedBatches getTime today inventory in
  NoDup (map DrugOption.drugName options) /\
  (forall option : DrugOption.t,
     In option options ->
     StronglySorted
       (fun a b => nle (DrugMatch.daysToExpiry a) (DrugMatch.daysToExpiry b) = true)
       (DrugOption.batches option) /\
     Permutation
       (filter (fun m => String.eqb (drugName (DrugMatch.batch m))
                                    (DrugOption.drugName option)) matched)
       (DrugOption.batches option) /\
     DrugOption.batches option <> [] /\
     exists s : Q, DrugOption.totalStock option = Num s /\ 0 < s) /\
  (forall m : DrugMatch.t,
     In m matched ->
     In (DrugMatch.batch m) inventory /\
     DrugMatch.availableStock m = stockOf (DrugMatch.batch m) /\
     ngt (DrugMatch.availableStock m) (Num 0) = true /\
     nge (DrugMatch.daysToExpiry m) (Num 0) = true) /\
  (forall item : InventoryBatch,
     In item inventory ->
     ngt (stockOf item) (Num 0) = true ->
     nge (getTime (expirationDate item)) (ofZ today) = true ->
     exists option : DrugOption.t,
       In option options /\ DrugOption.drugName option = drugName item /\
       In item (map DrugMatch.batch (DrugOption.batches option))).
Proof.
  intros options matched.
  set (key := fun m : DrugMatch.t => drugName (DrugMatch.batch m)).
  set (mk := fun entry : string * list DrugMatch.t =>
               {| DrugOption.drugName := fst entry;
                  DrugOption.batches := sortBy DispenseView.byExpiry (snd entry);
                  DrugOption.totalStock :=
                    reduce (sortBy DispenseView.byExpiry (snd entry))
                      (fun sum match_ => nadd sum (DrugMatch.availableStock match_))
                      (Num 0) |}).
  assert (E : options = map mk (forEach matched (groupPush key) [])).
  { unfold options, DispenseView.drugOptions. cbv zeta.
    rewrite (forEach_push_map mk). reflexivity. }
  destruct (groupPush_all key matched) as (Hnd & Hg & Hall).
  assert (M : forall m : DrugMatch.t,
            In m matched ->
            In (DrugMatch.batch m) inventory /\
            m = matchOf getTime today (DrugMatch.batch m) /\
            ngt (DrugMatch.availableStock m) (Num 0) = true /\
            DrugMatch.daysToExpiry m <> NaN /\
            nge (DrugMatch.daysToExpiry m) (Num 0) = true)
    by (intro m; apply matched_facts).
  split; [| split; [| split]].
  - rewrite E, map_map. cbn [DrugOption.drugName mk]. exact Hnd.
  - intros option Ho. rewrite E in Ho. apply in_map_iff in Ho.
    destruct Ho as ([k g] & <- & He). cbn [mk fst snd DrugOption.batches
                                            DrugOption.drugName DrugOption.totalStock].
    destruct (Hg k g He) as [Eg Hne].
    assert (Hsub : forall m : DrugMatch.t, In m g -> In m matched).
    { intros m Hm. rewrite Eg in Hm. apply filter_In in Hm. tauto. }
    split; [| split; [| split]].
    + apply (sortBy_numeric_key DrugMatch.daysToExpiry).
      apply Forall_forall. intros m Hm. apply (M m (Hsub m Hm)).
    + unfold key in Eg. rewrite <- Eg. apply sortBy_perm.
    + intro Z0. apply Hne. apply Permutation_nil.
      rewrite <- Z0. apply Permutation_sym, sortBy_perm.
    + destruct (positive_total (sortBy DispenseView.byExpiry g) 0) as (s & Es & _ & Hs).
      * apply Forall_forall. intros m Hm. apply sortBy_In in Hm.
        apply (M m (Hsub m Hm)).
      * exists s. split; [exact Es |]. apply Hs.
        intro Z0. apply Hne. apply Permutation_nil.
        rewrite <- Z0. apply Permutation_sym, sortBy_perm.
  - intros m Hm. destruct (M m Hm) as (Hin & Em & Hs & _ & Hd).
    repeat split; trivial. rewrite Em at 1. reflexivity.
  - intros item Hin Hs He.
    assert (Hm : In (matchOf getTime today item) matched).
    { unfold matched. rewrite matchedBatches_eq. apply in_map. apply filter_In.
      split; [exact Hin |]. unfold dispensable. rewrite Hs, He. reflexivity. }
    specialize (Hall _ Hm). apply mapHas_In in Hall. apply in_map_iff in Hall.
    destruct Hall as ([k g] & Hk & Hkg). cbn [fst] in Hk.
    exists (mk (k, g)). split; [rewrite E; apply in_map; exact Hkg |].
    split; [exact Hk |].
    cbn [mk snd DrugOption.batches]. apply in_map_iff. exists (matchOf getTime today item).
    split; [reflexivity |]. apply sortBy_In.
    destruct (Hg k g Hkg) as [-> _]. apply filter_In. split; [exact Hm |].
    rewrite <- Hk. apply String.eqb_refl.
Qed.

End Dispensing.

(** * The inventory handlers *)

Section Handlers.

(** The confirmation dialog opens exactly for a positive quantity that the
    selected batch can cover; a quantity of 0 or less is reported before the
    stock is looked at. *)
Theorem handleDispenseClick_guard (batch : InventoryBatch) (quantity : Q) :
  let stock := beginningInventory batch + quantityReceived batch - quantityDispensed batch in
  (DispenseView.handleDispenseClick (Some batch) quantity = ShowConfirmation <->
     0 < quantity /\ quantity <= stock) /\
  (quantity <= 0 ->
     DispenseView.handleDispenseClick (Some batch) quantity = QuantityMustBePositive) /\
  (0 < quantity -> stock < quantity ->
     DispenseView.handleDispenseClick (Some batch) quantity
       = InsufficientStock (Num stock)).
Proof.
  intro stock. unfold DispenseView.handleDispenseClick.
  change (nsub (nadd (Num (beginningInventory batch)) (Num (quantityReceived batch)))
               (Num (quantityDispensed batch))) with (Num stock).
  cbn [nle ngt nlt ncmp].
  destruct (Qle_bool quantity 0) eqn:A, (Qlt_bool stock quantity) eqn:B;
    rewrite ?Qlt_bool_iff, ?Qlt_bool_false, ?Qle_bool_iff, ?Qle_bool_false in *;
    repeat split; intros; try discriminate; try reflexivity; try lra;
    try (exfalso; lra).
  all: match goal with H : _ /\ _ |- _ => destruct H; exfalso; lra end.
Qed.

Lemma handleDispense_ids (prev : list InventoryBatch) (batchId : string) (quantity : Q) :
  map id (handleDispense prev batchId quantity) = map id prev.
Proof.
  unfold handleDispense. rewrite map_map. apply map_ext.
  intro b. destruct (String.eqb (id b) batchId); reflexivity.
Qed.

Lemma handleDispense_In (prev : list InventoryBatch) (batchId : string) (quantity : Q)
  (x : InventoryBatch) :
  In x (handleDispense prev batchId quantity) <->
  exists b : InventoryBatch,
    In b prev /\
    x = if String.eqb (id b) batchId
        then withQuantityDispensed b (quantityDispensed b + quantity)
        else b.
Proof.
  unfold handleDispense. rewrite in_map_iff. split; intros (b & H1 & H2); exists b; auto.
Qed.

Lemma stock_after_dispense (prev : list InventoryBatch) (b : InventoryBatch) (quantity : Q) :
  let stockQ item := beginningInventory item + quantityReceived item
                     - quantityDispensed item in
  NoDup (map id prev) -> In b prev ->
  sumOver stockQ (handleDispense prev (id b) quantity) == sumOver stockQ prev - quantity.
Proof.
  intros stockQ Hnd Hin.
  assert (Z0 : forall l : list InventoryBatch,
            ~ In (id b) (map id l) -> handleDispense l (id b) quantity = l).
  { induction l as [| x l IH]; intro Hn; [reflexivity |].
    cbn [map In] in Hn. unfold handleDispense in *. cbn [map].
    destruct (String.eqb (id x) (id b)) eqn:E.
    - apply String.eqb_eq in E. tauto.
    - rewrite IH by tauto. reflexivity. }
  induction prev as [| x l IH]; [destruct Hin |].
  cbn [map] in Hnd. inversion Hnd as [| ? ? Hnotin Hnd']; subst.
  destruct Hin as [-> | Hin].
  - unfold handleDispense. cbn [map]. rewrite String.eqb_refl.
    fold (handleDispense l (id b) quantity). rewrite (Z0 l Hnotin).
    cbn [sumOver fold_right]. unfold stockQ at 1. cbn. unfold stockQ. ring.
  - unfold handleDispense. cbn [map].
    destruct (String.eqb (id x) (id b)) eqn:E.
    + apply String.eqb_eq in E. exfalso. apply Hnotin. rewrite E. apply in_map. exact Hin.
    + fold (handleDispense l (id b) quantity). cbn [sumOver fold_right].
      fold (sumOver stockQ (handleDispense l (id b) quantity)). fold (sumOver stockQ l).
      rewrite (IH Hnd' Hin). ring.
Qed.

(** X19. A dispense that passed the checks of the view, applied to an inventory
    with distinct batch ids: the ids stay as they are, only the selected
    batch changes, its stock goes down by the quantity and stays at 0 or
    above, and the total stock of the dashboard goes down by the quantity. *)
Theorem dispense_confirmed (prev : list InventoryBatch) (b : InventoryBatch) (quantity : Q) :
  NoDup (map id prev) -> In b prev ->
  DispenseView.handleDispenseClick (Some b) quantity = ShowConfirmation ->
  let next := handleDispense prev (id b) quantity in
  let b' := withQuantityDispensed b (quantityDispensed b + quantity) in
  map id next = map id prev /\
  In b' next /\
  (forall x : InventoryBatch, In x next -> x = b' \/ (In x prev /\ id x <> id b)) /\
  (exists s : Q,
     stockOf b' = Num s /\ 0 <= s /\
     s == beginningInventory b + quantityReceived b - quantityDispensed b - quantity) /\
  (exists t t' : Q,
     HomeView.totalMedicines prev = Num t /\ HomeView.totalMedicines next = Num t' /\
     t' == t - quantity).
Proof.
  intros Hnd Hin Hok next b'.
  assert (G : 0 < quantity /\
              quantity <= beginningInventory b + quantityReceived b - quantityDispensed b).
  { revert Hok. unfold DispenseView.handleDispenseClick. cbn [nle ngt nlt nsub nadd lift2 ncmp].
    destruct (Qle_bool quantity 0) eqn:A; [discriminate |].
    destruct (Qlt_bool _ quantity) eqn:B; [discriminate |]. intros _.
    apply Qle_bool_false in A. apply Qlt_bool_false in B. split; assumption. }
  destruct G as [Gpos Gle].
  split; [apply handleDispense_ids |]. split; [| split; [| split]].
  - apply handleDispense_In. exists b. split; [exact Hin |].
    rewrite String.eqb_refl. reflexivity.
  - intros x Hx. apply handleDispense_In in Hx. destruct Hx as (b0 & Hb0 & ->).
    destruct (String.eqb (id b0) (id b)) eqn:E.
    + apply String.eqb_eq in E. left.
      assert (b0 = b) by (eapply (NoDup_map_inj id); eassumption).
      subst b0. reflexivity.
    + apply String.eqb_neq in E. right. split; assumption.
  - eexists. split; [reflexivity |]. cbn [withQuantityDispensed beginningInventory
                                          quantityReceived quantityDispensed b'].
    split; [lra | ring].
  - destruct (reduce_sum (fun item => beginningInventory item + quantityReceived item
                                      - quantityDispensed item) prev 0) as (t & Et & Ht).
    destruct (reduce_sum (fun item => beginningInventory item + quantityReceived item
                                      - quantityDispensed item) next 0) as (t' & Et' & Ht').
    exists t, t'. split; [exact Et |]. split; [exact Et' |].
    rewrite Ht', Ht. unfold next. rewrite (stock_after_dispense prev b quantity Hnd Hin).
    ring.
Qed.

(** X20. [handleDispense] itself checks nothing: a quantity above the stock
    leaves a negative stock, for which the engine reports neither low stock
    nor out of stock and suggests no reorder; a quantity equal to the stock
    leaves the batch out of stock; and an unknown batch id changes nothing. *)
Theorem handleDispense_unchecked (getTime : string -> number) (today : Z)
  (prev : list InventoryBatch) (b : InventoryBatch) (quantity : Q)
  (config : ReorderPointConfig) :
  let stock := beginningInventory b + quantityReceived b - quantityDispensed b in
  let b' := withQuantityDispensed b (quantityDispensed b + quantity) in
  let status := getStockStatus getTime today b' config in
  (In b prev -> In b' (handleDispense prev (id b) quantity)) /\
  (stock < quantity ->
     StockStatus.isLowStock status = false /\ StockStatus.isOutOfStock status = false /\
     calculateReorderQuantity getTime today b' config = Num 0) /\
  (quantity == stock ->
     StockStatus.isOutOfStock status = true /\ StockStatus.isLowStock status = false) /\
  (forall batchId : string,
     ~ In batchId (map id prev) -> handleDispense prev batchId quantity = prev).
Proof.
  intros stock b' status.
  assert (Es : stockOf b'
               = Num (beginningInventory b + quantityReceived b
                      - (quantityDispensed b + quantity))) by reflexivity.
  split; [| split; [| split]].
  - intro Hin. apply handleDispense_In. exists b. split; [exact Hin |].
    rewrite String.eqb_refl. reflexivity.
  - intro Hlt.
    assert (L : StockStatus.isLowStock status = false).
    { cbn [StockStatus.isLowStock status getStockStatus]. rewrite Es.
      cbn [ngt nlt ncmp].
      assert (X : Qlt_bool 0 (beginningInventory b + quantityReceived b
                              - (quantityDispensed b + quantity)) = false)
        by (apply Qlt_bool_false; unfold stock in Hlt; lra).
      rewrite X. reflexivity. }
    assert (O : StockStatus.isOutOfStock status = false).
    { cbn [StockStatus.isOutOfStock status getStockStatus]. rewrite Es.
      cbn [neq ncmp]. apply Qeq_bool_false. unfold stock in Hlt. intro X. lra. }
    repeat split; trivial.
    unfold calculateReorderQuantity. fold status. rewrite L, O. reflexivity.
  - intro Heq. split.
    + cbn [StockStatus.isOutOfStock status getStockStatus]. rewrite Es.
      cbn [neq ncmp]. apply Qeq_bool_iff. unfold stock in Heq. lra.
    + cbn [StockStatus.isLowStock status getStockStatus]. rewrite Es.
      cbn [ngt nlt ncmp].
      assert (X : Qlt_bool 0 (beginningInventory b + quantityReceived b
                              - (quantityDispensed b + quantity)) = false)
        by (apply Qlt_bool_false; unfold stock in Heq; lra).
      rewrite X. reflexivity.
  - intros batchId. induction prev as [| x l IH]; intro Hn; [reflexivity |].
    cbn [map In] in Hn. unfold handleDispense in *. cbn [map].
    destruct (String.eqb (id x) batchId) eqn:E.
    + apply String.eqb_eq in E. tauto.
    + rewrite IH by tauto. reflexivity.
Qed.

(** X21. [handleDeleteBatch] keeps exactly the batches with another id, in their
    order: it goes through a concatenation part by part, and it drops as
    many batches as carry the id, so that it neither reorders nor repeats a
    batch.  Doing it again changes nothing; and taking out the id just given
    to an added batch also takes out every older batch with that id, so that
    the inventory is back as it was when the id was new. *)
Theorem handleDeleteBatch_spec (prev : list InventoryBatch) (batchId : string) :
  let next := handleDeleteBatch prev batchId in
  (forall b : InventoryBatch, In b next <-> In b prev /\ id b <> batchId) /\
  (forall l1 l2 : list InventoryBatch,
     handleDeleteBatch (l1 ++ l2) batchId
       = handleDeleteBatch l1 batchId ++ handleDeleteBatch l2 batchId) /\
  (List.length next
     + List.length (filter (fun b => String.eqb (id b) batchId) prev)
   = List.length prev)%nat /\
  handleDeleteBatch next batchId = next /\
  (forall batch : InventoryBatch,
     handleDeleteBatch (handleAddStock prev batch batchId) batchId = next) /\
  (~ In batchId (map id prev) -> next = prev).
Proof.
  intro next. unfold next, handleDeleteBatch.
  split; [| split; [| split; [| split; [| split]]]].
  - intro b. rewrite filter_In, negb_true_iff, String.eqb_neq. reflexivity.
  - intros l1 l2. apply filter_app.
  - induction prev as [| x l IH]; [reflexivity |].
    cbv zeta in IH. cbn [filter].
    destruct (String.eqb (id x) batchId); cbn [negb List.length]; lia.
  - induction prev as [| x l IH]; [reflexivity |].
    cbn [filter]. destruct (String.eqb (id x) batchId) eqn:E; cbn [negb]; [exact IH |].
    cbn [filter]. rewrite E. cbn [negb]. rewrite IH. reflexivity.
  - intro batch. unfold handleAddStock. cbv zeta. rewrite filter_app. cbn [filter withId id].
    rewrite String.eqb_refl. cbn [negb]. apply app_nil_r.
  - induction prev as [| x l IH]; intro Hn; [reflexivity |].
    cbn [map In] in Hn. cbn [filter].
    destruct (String.eqb (id x) batchId) eqn:E.
    + apply String.eqb_eq in E. tauto.
    + cbn [negb]. rewrite IH by tauto. reflexivity.
Qed.

End Handlers.

(** * Instances for dispensing and the handlers *)

(** Two batches of one drug: the one that expires in nine days is offered. *)
Lemma drugOptions_fefo_witness :
  exists option : DrugOption.t,
    In option (DispenseView.drugOptions isoGetTime clock0 [quietBatch; soonBatch]) /\
    DrugOption.drugName option = drugName soonBatch /\
    In soonBatch (map DrugMatch.batch (DrugOption.batches option)).
Proof.
  apply (proj2 (proj2 (proj2
           (drugOptions_fefo isoGetTime clock0 [quietBatch; soonBatch])))).
  - right. left. reflexivity.
  - reflexivity.
  - reflexivity.
Defined.

(** 2 of a stock of 5 can be dispensed. *)
Lemma handleDispenseClick_guard_witness :
  DispenseView.handleDispenseClick (Some quietBatch) 2 = ShowConfirmation.
Proof.
  apply (proj1 (handleDispenseClick_guard quietBatch 2)).
  split; [reflexivity | discriminate].
Defined.

(** Dispensing 2 of 5 from the only batch. *)
Lemma dispense_confirmed_witness :
  In (withQuantityDispensed quietBatch (quantityDispensed quietBatch + 2))
     (handleDispense [quietBatch] (id quietBatch) 2).
Proof.
  assert (Hnd : NoDup (map id [quietBatch])) by (constructor; [intros [] | constructor]).
  assert (Hin : In quietBatch [quietBatch]) by (left; reflexivity).
  assert (Hok : DispenseView.handleDispenseClick (Some quietBatch) 2 = ShowConfirmation)
    by reflexivity.
  exact (proj1 (proj2 (dispense_confirmed [quietBatch] quietBatch 2 Hnd Hin Hok))).
Defined.

(** Dispensing 8 of a stock of 5. *)
Lemma handleDispense_unchecked_witness :
  let b' := withQuantityDispensed quietBatch (quantityDispensed quietBatch + 8) in
  let status := getStockStatus isoGetTime clock0 b' DEFAULT_REORDER_CONFIG in
  StockStatus.isLowStock status = false /\ StockStatus.isOutOfStock status = false /\
  calculateReorderQuantity isoGetTime clock0 b' DEFAULT_REORDER_CONFIG = Num 0.
Proof.
  apply (proj1 (proj2 (handleDispense_unchecked isoGetTime clock0 [quietBatch] quietBatch 8
                         DEFAULT_REORDER_CONFIG))).
  reflexivity.
Defined.

(** Deleting an id that no batch has. *)
Lemma handleDeleteBatch_spec_witness :
  handleDeleteBatch [quietBatch] "zz" = [quietBatch].
Proof.
  apply (proj2 (proj2 (proj2 (proj2 (proj2 (handleDeleteBatch_spec [quietBatch] "zz")))))).
  intros [H | []]. discriminate H.
Defined.
